(** * pynb-dag-runner: task scheduler, retry/timeout wrappers and span parser

    A shallow embedding of
      - [pynb_dag_runner/core/dag_runner.py] (Task, [_task_can_run],
        [_get_next_completed_task], [run_tasks]),
      - [pynb_dag_runner/opentelemetry_task_span_parser.py] (the new parser:
        [ArtifactContent], [LoggedValueContent], [Timing], [TaskRunSummary],
        [PipelineSummary], [parse_spans] and the generators it consumes; the
        deprecated [_artefact_iterator], [add_html_notebook_artefacts] and
        [_get_logged_named_values]),
      - [pynb_log_parser/cli.py] (the loop of [write_to_output_dir] that
        writes the artefacts of a run),
      - the retry and timeout wrappers of [ray_helpers],
    followed by the properties proved about them. *)

From stdpp Require Import gmap strings list sets pretty.
From Stdlib Require Import ZArith Lia Strings.Byte Strings.Ascii.

Open Scope string_scope.
Open Scope list_scope.
Open Scope nat_scope.

(** ** Python exceptions and outcomes *)

(** The exceptions the modelled code raises.  [Exception_ msg] is a plain
    [Exception(msg)]. *)
Inductive exception : Type :=
| Exception_ (msg : string)
| AssertionError
| ValueError (msg : string)
| KeyError (key : string)
| TypeError (msg : string)
| AttributeError (msg : string)
| ValidationError (field : string)
| RayError (msg : string).

(** What a call does: it returns a value, raises, or the model's loop bound
    ran out before the call finished. *)
Inductive outcome (X : Type) : Type :=
| Returns (x : X)
| Raises (e : exception)
| OutOfFuel.
Arguments Returns {X} x.
Arguments Raises {X} e.
Arguments OutOfFuel {X}.

Definition is_Returns {X} (o : outcome X) : bool :=
  match o with Returns _ => true | _ => false end.

(** How a computation without state ends, and what a remote callable
    leaves behind its handle: a value or the exception it raised. *)
Inductive pyresult (X : Type) : Type :=
| Ok (x : X)
| Error (e : exception).
Arguments Ok {X} x.
Arguments Error {X} e.

(** ** core/dag_runner.py *)

Module DagRunner.

(** A [Task] object is known by its identity; a [Future] is an object ref
    handed out by the runtime. *)
Definition Task : Type := nat.
Definition Future : Type := nat.

(** [TaskDependence]: an edge of the dependency graph. *)
Record TaskDependence : Type := Edge { from_node : Task; to_node : Task }.

Definition TaskDependencies : Type := list TaskDependence.

Section Runtime.

(** [A] is the type a task resolves to, [Arg] the type of the arguments a
    task is started with. *)
Context {A Arg : Type}.

(** The part of Ray the scheduler talks to.  [f_remote t arg] is how the
    remote callable of task [t] ends when submitted with [arg]: with the
    value it resolves to or with the exception it raises;
    [ray_wait_any k refs] is the handle the [k]-th blocking
    [ray.wait(refs, num_returns=1, timeout=None)] reports as finished;
    [ray_ready k ref] says whether the [k]-th [ray.wait([ref], timeout=0)]
    finds the task behind [ref] finished, which depends on how far the
    workers have got by then; [empty_dict_ref] is [ray.put({})]. *)
Record Runtime : Type := {
  f_remote : Task -> Arg -> pyresult A;
  ray_wait_any : nat -> list Future -> Future;
  ray_ready : nat -> Future -> bool;
  empty_dict_ref : Arg;
}.

(** The mutable state: the [_future_or_none] field of every task object
    (no entry means [None]), the runtime's object store (what is or will be
    behind each handle), the next handle it hands out, the handles it has
    reported as finished (a finished task stays finished), the number of
    blocking waits and of zero-timeout waits so far, and the lines printed
    (iteration number and number of tasks). *)
Record World : Type := {
  future_or_none : gmap Task Future;
  object_store : gmap Future (pyresult A);
  next_future : Future;
  finished : gset Future;
  n_waits : nat;
  n_polls : nat;
  stdout : list (nat * nat);
}.

Definition M (X : Type) : Type := World -> World * outcome X.

Definition ret {X} (x : X) : M X := fun w => (w, Returns x).

Definition raise {X} (e : exception) : M X := fun w => (w, Raises e).

Definition out_of_fuel {X} : M X := fun w => (w, OutOfFuel).

Definition bind {X Y} (m : M X) (k : X -> M Y) : M Y :=
  fun w =>
    match m w with
    | (w', Returns x) => k x w'
    | (w', Raises e) => (w', Raises e)
    | (w', OutOfFuel) => (w', OutOfFuel)
    end.

Definition assert_ (b : bool) : M unit :=
  if b then ret tt else raise AssertionError.

(** [for x in l: body x] *)
Fixpoint for_each {X} (body : X -> M unit) (l : list X) : M unit :=
  match l with
  | [] => ret tt
  | x :: l' => bind (body x) (fun _ => for_each body l')
  end.

(** [[f x for x in l]] with an effectful [f] *)
Fixpoint map_m {X Y} (f : X -> M Y) (l : list X) : M (list Y) :=
  match l with
  | [] => ret []
  | x :: l' => bind (f x) (fun y => bind (map_m f l') (fun ys => ret (y :: ys)))
  end.

(** *** The runtime's operations *)

(** [self._f_remote( *args )]: submit the callable and get a new handle. *)
Definition submit (rt : Runtime) (t : Task) (arg : Arg) : M Future :=
  fun w =>
    let r := next_future w in
    ({| future_or_none := future_or_none w;
        object_store := <[r := f_remote rt t arg]> (object_store w);
        next_future := S r;
        finished := finished w;
        n_waits := n_waits w;
        n_polls := n_polls w;
        stdout := stdout w |}, Returns r).

(** [ray.wait([ref], timeout=0)]: the finished and the unfinished handles.
    The handle is finished when the runtime has reported it so before, or
    when the task behind it has finished by now. *)
Definition ray_wait_poll (rt : Runtime) (r : Future) : M (list Future * list Future) :=
  fun w =>
    let ready := bool_decide (r ∈ finished w) || ray_ready rt (n_polls w) r in
    ({| future_or_none := future_or_none w;
        object_store := object_store w;
        next_future := next_future w;
        finished := if ready then {[ r ]} ∪ finished w else finished w;
        n_waits := n_waits w;
        n_polls := S (n_polls w);
        stdout := stdout w |},
     Returns (if ready then ([r], []) else ([], [r]))).

(** [ray.wait(refs, num_returns=1, timeout=None)]: blocks until one handle
    is finished and returns it. *)
Definition ray_wait_blocking (rt : Runtime) (refs : list Future) : M (list Future) :=
  fun w =>
    match refs with
    | [] => (w, Raises (ValueError "ray.wait: num_returns exceeds the number of object refs"))
    | _ :: _ =>
        let r := ray_wait_any rt (n_waits w) refs in
        ({| future_or_none := future_or_none w;
            object_store := object_store w;
            next_future := next_future w;
            finished := {[ r ]} ∪ finished w;
            n_waits := S (n_waits w);
            n_polls := n_polls w;
            stdout := stdout w |}, Returns [r])
    end.

(** [ray.get(ref)]: when the handle is not finished yet the call blocks
    until it is; it returns the value behind the handle, or raises the
    exception of the task when its callable raised (Ray raises it as a
    [RayTaskError] that is also an instance of the exception's class). *)
Definition ray_get (r : Future) : M A :=
  fun w =>
    match object_store w !! r with
    | Some resolved =>
        let w' :=
          if bool_decide (r ∈ finished w) then w
          else
            {| future_or_none := future_or_none w;
               object_store := object_store w;
               next_future := next_future w;
               finished := {[ r ]} ∪ finished w;
               n_waits := n_waits w;
               n_polls := n_polls w;
               stdout := stdout w |} in
        match resolved with
        | Ok a => (w', Returns a)
        | Error e => (w', Raises e)
        end
    | None => (w, Raises (RayError "unknown object ref"))
    end.

Definition print (line : nat * nat) : M unit :=
  fun w =>
    ({| future_or_none := future_or_none w;
        object_store := object_store w;
        next_future := next_future w;
        finished := finished w;
        n_waits := n_waits w;
        n_polls := n_polls w;
        stdout := stdout w ++ [line] |}, Returns tt).

(** *** class Task *)

Definition has_started (t : Task) : M bool :=
  fun w => (w, Returns (bool_decide (is_Some (future_or_none w !! t)))).

Definition set_future (t : Task) (r : Future) : M unit :=
  fun w =>
    ({| future_or_none := <[t := r]> (future_or_none w);
        object_store := object_store w;
        next_future := next_future w;
        finished := finished w;
        n_waits := n_waits w;
        n_polls := n_polls w;
        stdout := stdout w |}, Returns tt).

Definition start (rt : Runtime) (t : Task) (arg : Arg) : M unit :=
  bind (has_started t) (fun started =>
  if started then raise (Exception_ "Task has already started")
  else bind (submit rt t arg) (fun r => set_future t r)).

Definition get_ref (t : Task) : M Future :=
  bind (has_started t) (fun started =>
  if negb started then raise (Exception_ "Task has not started")
  else fun w =>
         match future_or_none w !! t with
         | Some r => (w, Returns r)
         | None => (w, Raises (Exception_ "Task has not started"))
         end).

Definition has_completed (rt : Runtime) (t : Task) : M bool :=
  bind (has_started t) (fun started =>
  if negb started then ret false
  else
    bind (get_ref t) (fun r =>
    bind (ray_wait_poll rt r) (fun '(finished_refs, not_finished_refs) =>
    bind (assert_ (length finished_refs + length not_finished_refs =? 1)) (fun _ =>
    ret (length finished_refs =? 1))))).

Definition result (rt : Runtime) (t : Task) : M A :=
  bind (has_completed rt t) (fun completed =>
  if negb completed
  then raise (Exception_ "Result has not finished. Calling ray.get would block execution")
  else bind (get_ref t) ray_get).

(** *** The scheduler *)

Definition _task_can_run (task : Task) (completed_tasks : list Task)
    (task_dependencies : TaskDependencies) : bool :=
  let required_dependencies :=
    map from_node
      (filter (fun td => task = to_node td) task_dependencies) in
  forallb (fun dependent_task => bool_decide (dependent_task ∈ completed_tasks))
    required_dependencies.

(** A Python dict keeps its keys in the order of their first insertion; a
    later value for a key replaces the earlier one in place. *)
Fixpoint dict_set {K V} `{EqDecision K} (k : K) (v : V) (d : list (K * V)) : list (K * V) :=
  match d with
  | [] => [(k, v)]
  | (k', v') :: d' =>
      if decide (k = k') then (k, v) :: d' else (k', v') :: dict_set k v d'
  end.

Fixpoint dict_get {K V} `{EqDecision K} (k : K) (d : list (K * V)) : option V :=
  match d with
  | [] => None
  | (k', v') :: d' => if decide (k = k') then Some v' else dict_get k d'
  end.

Definition dict_keys {K V} (d : list (K * V)) : list K := map fst d.

(** [{t.get_ref(): t for t in tasks}], starting from the dict [d]. *)
Fixpoint ref_to_task (tasks : list Task) (d : list (Future * Task)) : M (list (Future * Task)) :=
  match tasks with
  | [] => ret d
  | t :: tasks' => bind (get_ref t) (fun r => ref_to_task tasks' (dict_set r t d))
  end.

Definition _get_next_completed_task (rt : Runtime) (tasks : list Task) : M Task :=
  bind (assert_ (0 <? length tasks)) (fun _ =>
  bind (ref_to_task tasks []) (fun ref_to_task_dict =>
  bind (ray_wait_blocking rt (dict_keys ref_to_task_dict)) (fun refs_done =>
  bind (assert_ (length refs_done =? 1)) (fun _ =>
  match refs_done with
  | r :: _ =>
      match dict_get r ref_to_task_dict with
      | Some t => ret t
      | None => raise (KeyError "ref_to_task_dict")
      end
  | [] => raise (KeyError "refs_done")
  end)))).

(** The body of the loop that starts the tasks that can run:
    [if not task.has_started(): task.start(ray.put({}))]. *)
Definition start_if_not_started (rt : Runtime) (task : Task) : M unit :=
  bind (has_started task) (fun started =>
  if negb started then start rt task (empty_dict_ref rt) else ret tt).

(** The [while] loop of [run_tasks]; [fuel] bounds the number of
    iterations the model follows. *)
Fixpoint while_loop (rt : Runtime) (fuel : nat) (all_tasks : list Task)
    (task_dependencies : TaskDependencies)
    (completed_tasks not_completed_tasks : list Task) (iteration_nr : nat)
    : M (list Task) :=
  if negb (0 <? length not_completed_tasks) then ret completed_tasks
  else
    match fuel with
    | 0 => out_of_fuel
    | S fuel' =>
        let iteration_nr := iteration_nr + 1 in
        bind (print (iteration_nr, length all_tasks)) (fun _ =>
        let not_completed_tasks_that_can_run :=
          filter (fun task => _task_can_run task completed_tasks task_dependencies = true)
            not_completed_tasks in
        bind (if (iteration_nr =? 0) && (length not_completed_tasks_that_can_run =? 0)
              then raise (Exception_ "Check run dependencies, unable to start any task!")
              else ret tt) (fun _ =>
        bind (for_each (start_if_not_started rt) not_completed_tasks_that_can_run)
          (fun _ =>
        bind (_get_next_completed_task rt not_completed_tasks_that_can_run)
          (fun next_completed_task =>
        let completed_tasks := completed_tasks ++ [next_completed_task] in
        let not_completed_tasks :=
          filter (fun task => task ∉ completed_tasks) all_tasks in
        while_loop rt fuel' all_tasks task_dependencies
          completed_tasks not_completed_tasks iteration_nr))))
    end.

Definition run_tasks (rt : Runtime) (fuel : nat) (all_tasks : list Task)
    (task_dependencies : TaskDependencies) : M (list A) :=
  bind (map_m has_started all_tasks) (fun started =>
  bind (assert_ (forallb negb started)) (fun _ =>
  bind (while_loop rt fuel all_tasks task_dependencies [] all_tasks 0)
    (fun completed_tasks =>
  bind (map_m (has_completed rt) all_tasks) (fun completed =>
  bind (assert_ (forallb id completed)) (fun _ =>
  map_m (result rt) completed_tasks))))).

(** *** Sequences of calls on task objects *)

Inductive task_call : Type :=
| CallStart (arg : Arg)
| CallGetRef
| CallHasStarted
| CallHasCompleted
| CallResult.

(** One call on task [t]; what it returned is forgotten, whether it
    raised is kept. *)
Definition exec_call (rt : Runtime) (t : Task) (c : task_call) : M unit :=
  match c with
  | CallStart arg => start rt t arg
  | CallGetRef => bind (get_ref t) (fun _ => ret tt)
  | CallHasStarted => bind (has_started t) (fun _ => ret tt)
  | CallHasCompleted => bind (has_completed rt t) (fun _ => ret tt)
  | CallResult => bind (result rt t) (fun _ => ret tt)
  end.

(** A caller that makes the calls one after the other, catching what is
    raised; the log says for each call whether it returned. *)
Fixpoint exec_calls (rt : Runtime) (calls : list (Task * task_call)) (w : World)
    : World * list (Task * task_call * bool) :=
  match calls with
  | [] => (w, [])
  | (t, c) :: calls' =>
      let '(w', o) := exec_call rt t c w in
      let '(w'', log) := exec_calls rt calls' w' in
      (w'', (t, c, is_Returns o) :: log)
  end.

Definition is_start (c : task_call) : bool :=
  match c with CallStart _ => true | _ => false end.

(** The number of [start] calls on [t] in the log that returned, that is,
    that bound a handle. *)
Definition n_bindings (t : Task) (log : list (Task * task_call * bool)) : nat :=
  length (filter (fun '(t', c, ok) => t' = t /\ is_start c = true /\ ok = true) log).

Definition fresh_world : World :=
  {| future_or_none := ∅; object_store := ∅; next_future := 0;
     finished := ∅; n_waits := 0; n_polls := 0; stdout := [] |}.

(** *** States reached by single steps *)

Definition after_start (rt : Runtime) (w : World) (t : Task) (arg : Arg) : World :=
  {| future_or_none := <[t := next_future w]> (future_or_none w);
     object_store := <[next_future w := f_remote rt t arg]> (object_store w);
     next_future := S (next_future w);
     finished := finished w;
     n_waits := n_waits w;
     n_polls := n_polls w;
     stdout := stdout w |}.

Definition after_print (w : World) (line : nat * nat) : World :=
  {| future_or_none := future_or_none w;
     object_store := object_store w;
     next_future := next_future w;
     finished := finished w;
     n_waits := n_waits w;
     n_polls := n_polls w;
     stdout := stdout w ++ [line] |}.

Definition after_wait (w : World) (r : Future) : World :=
  {| future_or_none := future_or_none w;
     object_store := object_store w;
     next_future := next_future w;
     finished := {[ r ]} ∪ finished w;
     n_waits := S (n_waits w);
     n_polls := n_polls w;
     stdout := stdout w |}.

Definition after_poll (w : World) (r : Future) (ready : bool) : World :=
  {| future_or_none := future_or_none w;
     object_store := object_store w;
     next_future := next_future w;
     finished := if ready then {[ r ]} ∪ finished w else finished w;
     n_waits := n_waits w;
     n_polls := S (n_polls w);
     stdout := stdout w |}.

(** *** Invariants *)

(** [w'] keeps every handle that is bound in [w]. *)
Definition keeps (w w' : World) : Prop :=
  forall t r, future_or_none w !! t = Some r -> future_or_none w' !! t = Some r.

(** A computation that never unbinds or rebinds a handle. *)
Definition preserves {X} (m : M X) : Prop :=
  forall w w' o, m w = (w', o) -> keeps w w'.

(** Behind the handle of every task of [T] is how the task's callable ends
    on the scheduler's argument. *)
Definition obeys (rt : Runtime) (T : list Task) (w : World) : Prop :=
  forall t r, t ∈ T -> future_or_none w !! t = Some r ->
              object_store w !! r = Some (f_remote rt t (empty_dict_ref rt)).

(** The tasks of [completed] have a handle that was reported finished. *)
Definition all_finished (w : World) (completed : list Task) : Prop :=
  forall t, t ∈ completed ->
            exists r, future_or_none w !! t = Some r /\ r ∈ finished w.

(** [w'] differs from [w] at most in the number of zero-timeout waits. *)
Definition polled (w w' : World) : Prop :=
  future_or_none w' = future_or_none w /\ object_store w' = object_store w
  /\ next_future w' = next_future w /\ finished w' = finished w
  /\ n_waits w' = n_waits w /\ stdout w' = stdout w.

(** *** Conditions on the inputs *)

(** The handles held by task objects were handed out by the runtime. *)
Definition world_wf (w : World) : Prop :=
  forall t r, future_or_none w !! t = Some r -> r < next_future w.

(** The blocking wait reports one of the handles it was given. *)
Definition wait_contract (rt : Runtime) : Prop :=
  forall k refs, refs <> [] -> ray_wait_any rt k refs ∈ refs.

End Runtime.

(** [a] must complete before [b] may start. *)
Definition depends (D : TaskDependencies) (a b : Task) : Prop :=
  Edge a b ∈ D.

(** No task depends, directly or through other tasks, on itself. *)
Definition acyclic (D : TaskDependencies) : Prop :=
  forall t, ~ tc (depends D) t t.

(** Every dependency is between tasks of the list. *)
Definition references_only (D : TaskDependencies) (T : list Task) : Prop :=
  forall td, td ∈ D -> from_node td ∈ T /\ to_node td ∈ T.

(** Every task of the list comes after the tasks it depends on. *)
Definition dependencies_first (D : TaskDependencies) (l : list Task) : Prop :=
  forall i b, l !! i = Some b ->
    forall td, td ∈ D -> to_node td = b -> from_node td ∈ take i l.

(** A task that can never run: it lies on a cycle of dependencies, or a
    dependency that points to it comes from a task that is not in the
    list. *)
Definition stuck (D : TaskDependencies) (T : list Task) (s : Task) : Prop :=
  tc (depends D) s s \/ exists td, td ∈ D /\ to_node td = s /\ from_node td ∉ T.

(** A task is blocked when it is stuck, or depends, directly or through
    other tasks, on a task that is. *)
Definition blocked (D : TaskDependencies) (T : list Task) (t : Task) : Prop :=
  exists s, rtc (depends D) s t /\ stuck D T s.

Arguments Runtime : clear implicits.
Arguments World : clear implicits.
Arguments task_call : clear implicits.

(** *** Example inputs *)

(** Three tasks in sequence. *)
Definition three_in_sequence : TaskDependencies := [Edge 0 1; Edge 1 2].

(** A task that waits for itself. *)
Definition self_dependency : TaskDependencies := [Edge 0 0].

(** Task 0 is free, tasks 1 and 2 wait for each other. *)
Definition cycle_beside_free_task : TaskDependencies := [Edge 1 2; Edge 2 1].

(** A runtime whose tasks resolve to their own number plus 43, whose
    blocking wait reports the last handle it is given and whose workers
    have finished a task by the second time it is polled. *)
Definition last_first_runtime : Runtime nat unit :=
  {| f_remote := fun t _ => Ok (t + 43);
     ray_wait_any := fun _ refs => List.last refs 0;
     ray_ready := fun k _ => 1 <=? k;
     empty_dict_ref := tt |}.

(** The same runtime, but the callable of task 1 raises. *)
Definition failing_runtime : Runtime nat unit :=
  {| f_remote := fun t _ => if t =? 1 then Error (Exception_ "boom!") else Ok (t + 43);
     ray_wait_any := fun _ refs => List.last refs 0;
     ray_ready := fun k _ => 1 <=? k;
     empty_dict_ref := tt |}.

End DagRunner.

(** ** opentelemetry_task_span_parser.py *)

(** What a call of the parser does: it returns a value or raises. *)
Definition pybind {X Y} (m : pyresult X) (k : X -> pyresult Y) : pyresult Y :=
  match m with
  | Ok x => k x
  | Error e => Error e
  end.

Notation "x <- m ;; k" := (pybind m (fun x => k))
  (at level 100, m at next level, right associativity).

Definition is_Ok {X} (r : pyresult X) : bool :=
  match r with Ok _ => true | Error _ => false end.

(** [[f x for x in l]] where [f] may raise: the first exception ends the
    iteration. *)
Fixpoint map_r {X Y} (f : X -> pyresult Y) (l : list X) : pyresult (list Y) :=
  match l with
  | [] => Ok []
  | x :: l' => y <- f x ;; ys <- map_r f l' ;; Ok (y :: ys)
  end.

Module SpanParser.

(** *** Python values *)

(** A float is a dyadic number [m * 2^e], an infinity or a NaN. *)
Inductive PyFloat : Type :=
| FFinite (m e : Z)
| FInf (negative : bool)
| FNaN.

(** [AttributeValues = Union[StrictInt, StrictFloat, StrictBool, StrictStr]] *)
Inductive AttributeValues : Type :=
| VInt (z : Z)
| VFloat (f : PyFloat)
| VBool (b : bool)
| VStr (s : string).

Abbreviation AttributeMapping := (gmap string AttributeValues).

(** The values that decoding a logged value or an artifact can give. *)
#[local] Unset Elimination Schemes.
Inductive PyVal : Type :=
| PNone
| PBool (b : bool)
| PInt (z : Z)
| PFloat (f : PyFloat)
| PStr (s : string)
| PBytes (bs : list Byte.byte)
| PList (l : list PyVal)
| PDict (d : list (string * PyVal)).
#[local] Set Elimination Schemes.

Definition to_py (v : AttributeValues) : PyVal :=
  match v with
  | VInt z => PInt z
  | VFloat f => PFloat f
  | VBool b => PBool b
  | VStr s => PStr s
  end.

Definition float_eq (a b : PyFloat) : bool :=
  match a, b with
  | FFinite m1 e1, FFinite m2 e2 =>
      let e := Z.min e1 e2 in
      (m1 * 2 ^ (e1 - e) =? m2 * 2 ^ (e2 - e))%Z
  | FInf s1, FInf s2 => Bool.eqb s1 s2
  | _, _ => false
  end.

(** Python's [==] on attribute values: numbers (bools included) compare by
    value, strings with strings. *)
Definition py_eq (a b : AttributeValues) : bool :=
  let number v :=
    match v with
    | VInt z => Some (FFinite z 0)
    | VBool b => Some (FFinite (if b then 1 else 0) 0)
    | VFloat f => Some f
    | VStr _ => None
    end in
  match a, b with
  | VStr s1, VStr s2 => String.eqb s1 s2
  | _, _ =>
      match number a, number b with
      | Some x, Some y => float_eq x y
      | _, _ => false
      end
  end.

(** [x in l] for a list [l] *)
Definition py_in (x : AttributeValues) (l : list AttributeValues) : bool :=
  existsb (py_eq x) l.

(** *** Spans *)

Record Event : Type := {
  event_name : string;
  event_timestamp : string;
  event_attributes : AttributeMapping;
}.

(** A span as read from the trace: [span["context"]["span_id"]],
    [span["name"]], [span["start_time"]], [span["end_time"]],
    [span["status"]["status_code"]], [span["attributes"]] and
    [span["events"]]. *)
Record SpanDict : Type := {
  span_id : string;
  span_name : string;
  start_time : string;
  end_time : string;
  status_code : string;
  attributes : AttributeMapping;
  events : list Event;
}.

(** [Spans]: the spans in the order iteration gives them. *)
Abbreviation Spans := (list SpanDict).

(** [SerializedData(type=.., encoding=.., encoded_content=..)] *)
Record SerializedData : Type := {
  sd_type : AttributeValues;
  sd_encoding : AttributeValues;
  sd_encoded_content : AttributeValues;
}.

(** The helpers the parser imports from modules that are not part of the
    sources at hand ([opentelemetry_helpers], [notebooks_helpers],
    [tasks.task_opentelemetry_logging]); the parser is modelled for every
    choice of them.  [get_attributes spans prefixes] is
    [spans.get_attributes(allowed_prefixes=prefixes)], [decode sd] is
    [sd.decode()], [float_repr] is [str] on a float. *)
Class SpanHelpers : Type := {
  bound_under : Spans -> SpanDict -> Spans;
  bound_inclusive : Spans -> SpanDict -> Spans;
  get_attributes : Spans -> list string -> pyresult AttributeMapping;
  exception_events : Spans -> list Event;
  decode : SerializedData -> pyresult PyVal;
  convert_ipynb_to_html : PyVal -> pyresult PyVal;
  float_repr : PyFloat -> string;
}.

(** [str(v)] *)
Definition py_str `{SpanHelpers} (v : AttributeValues) : string :=
  match v with
  | VStr s => s
  | VInt z => pretty z
  | VBool b => if b then "True" else "False"
  | VFloat f => float_repr f
  end.

(** Modelled from the spec: [Spans.filter(["name"], v)] of
    [opentelemetry_helpers] keeps, in order, the spans named [v]. *)
Definition filter_name (v : string) (spans : Spans) : Spans :=
  filter (fun span => span_name span = v) spans.

(** Modelled from the spec: [Spans.filter(["status", "status_code"], v)]
    keeps, in order, the spans whose status code is [v]. *)
Definition filter_status_code (v : string) (spans : Spans) : Spans :=
  filter (fun span => status_code span = v) spans.

Fixpoint insert_by_start_time (span : SpanDict) (sorted : Spans) : Spans :=
  match sorted with
  | [] => [span]
  | s :: sorted' =>
      if String.ltb (start_time s) (start_time span)
      then s :: insert_by_start_time span sorted'
      else span :: s :: sorted'
  end.

(** Modelled from the spec: [Spans.sort_by_start_time()] gives the spans
    sorted by start time, spans with equal start times in their order. *)
Definition sort_by_start_time (spans : Spans) : Spans :=
  foldr insert_by_start_time [] spans.

(** [d[k]] on an attribute dict *)
Definition read_key (d : AttributeMapping) (k : string) : pyresult AttributeValues :=
  match d !! k with
  | Some v => Ok v
  | None => Error (KeyError k)
  end.

Definition extract_task_dependencies (spans : Spans)
    : pyresult (list (AttributeValues * AttributeValues)) :=
  map_r (fun span =>
           from_id <- read_key (attributes span) "from_task_span_id" ;;
           to_id <- read_key (attributes span) "to_task_span_id" ;;
           Ok (from_id, to_id))
        (filter_name "task-dependency" spans).

(** The dict [{"name": .., "type": .., "content": ..}] *)
Record ArtifactDict : Type := {
  ad_name : AttributeValues;
  ad_type : AttributeValues;
  ad_content : PyVal;
}.

Definition _decode_data_content_span `{SpanHelpers} (span : SpanDict) : pyresult ArtifactDict :=
  ty <- read_key (attributes span) "type" ;;
  encoding <- read_key (attributes span) "encoding" ;;
  content_encoded <- read_key (attributes span) "content_encoded" ;;
  let serialized_data :=
    {| sd_type := ty; sd_encoding := encoding; sd_encoded_content := content_encoded |} in
  name <- read_key (attributes span) "name" ;;
  content <- decode serialized_data ;;
  Ok {| ad_name := name; ad_type := sd_type serialized_data; ad_content := content |}.

(** *** ArtifactContent *)

Module ArtifactContent.

(** [Union[p.StrictStr, p.StrictBytes]] *)
Inductive content_t : Type :=
| ContentStr (s : string)
| ContentBytes (bs : list Byte.byte).

Record t : Type := { type : string; content : content_t }.

Definition validate_type (v : string) : pyresult string :=
  if bool_decide (v ∈ ["utf-8"; "bytes"]) then Ok v else Error AssertionError.

(** [ArtifactContent(type=.., content=..)]: each field is checked against
    its declared type, [type] then goes through [validate_type]; a failed
    field makes the construction raise [ValidationError]. *)
Definition new (type_ content_ : PyVal) : pyresult t :=
  let checked_type :=
    match type_ with
    | PStr s => validate_type s
    | _ => Error (TypeError "str type expected")
    end in
  let checked_content :=
    match content_ with
    | PStr s => Ok (ContentStr s)
    | PBytes bs => Ok (ContentBytes bs)
    | _ => Error (TypeError "str or bytes type expected")
    end in
  match checked_type, checked_content with
  | Ok ty, Ok c => Ok {| type := ty; content := c |}
  | _, _ => Error (ValidationError "ArtifactContent")
  end.

(** [self.write(filepath)], over the files written so far (path to
    content); the file system is taken to accept every write. *)
Definition write (self : t) (filepath : string) (files : gmap string content_t)
    : gmap string content_t * pyresult unit :=
  if bool_decide (type self = "utf-8") then
    match content self with
    | ContentStr s => (<[filepath := ContentStr s]> files, Ok tt)
    | ContentBytes _ => (files, Error AssertionError)
    end
  else if bool_decide (type self = "bytes") then
    match content self with
    | ContentBytes bs => (<[filepath := ContentBytes bs]> files, Ok tt)
    | ContentStr _ => (files, Error AssertionError)
    end
  else (files, Error (ValueError "Internal error")).

End ArtifactContent.

(** *** LoggedValueContent *)

Module LoggedValueContent.

Record t : Type := { type : string; content : PyVal }.

Definition validate_type (v : string) : pyresult string :=
  if bool_decide (v ∈ ["utf-8"; "bytes"; "float"; "bool"; "json"; "int"])
  then Ok v else Error AssertionError.

(** [LoggedValueContent(type=.., content=..)]; [content] is declared [Any]. *)
Definition new (type_ content_ : PyVal) : pyresult t :=
  let checked_type :=
    match type_ with
    | PStr s => validate_type s
    | _ => Error (TypeError "str type expected")
    end in
  match checked_type with
  | Ok ty => Ok {| type := ty; content := content_ |}
  | Error _ => Error (ValidationError "LoggedValueContent")
  end.

End LoggedValueContent.

(** *** The generators *)

(** The spans a generator of logged data iterates over. *)
Definition logged_spans `{SpanHelpers} (kind : string) (spans : Spans)
    (task_run_top_span : SpanDict) : Spans :=
  filter_status_code "OK" (filter_name kind (bound_under spans task_run_top_span)).

(** One iteration of [_artefact_iterator_new]: what it yields. *)
Definition artefact_step `{SpanHelpers} (artefact_span : SpanDict)
    : pyresult (list (AttributeValues * ArtifactContent.t)) :=
  artifact_dict <- _decode_data_content_span artefact_span ;;
  first <- ArtifactContent.new (to_py (ad_type artifact_dict)) (ad_content artifact_dict) ;;
  if py_eq (ad_name artifact_dict) (VStr "notebook.ipynb")
  then
    (if py_eq (ad_type artifact_dict) (VStr "utf-8")
     then
       html <- convert_ipynb_to_html (ad_content artifact_dict) ;;
       second <- ArtifactContent.new (PStr "utf-8") html ;;
       Ok [(ad_name artifact_dict, first); (VStr "notebook.html", second)]
     else Error AssertionError)
  else Ok [(ad_name artifact_dict, first)].

(** [list(_artefact_iterator_new(spans, task_run_top_span))] *)
Definition _artefact_iterator_new `{SpanHelpers} (spans : Spans)
    (task_run_top_span : SpanDict)
    : pyresult (list (AttributeValues * ArtifactContent.t)) :=
  yielded <- map_r artefact_step (logged_spans "artefact" spans task_run_top_span) ;;
  Ok (concat yielded).

Definition logged_value_keys : gset string :=
  {[ "name"; "type"; "encoding"; "content_encoded" ]}.

Definition duplicate_logged_value `{SpanHelpers} (value_name : AttributeValues) : exception :=
  ValueError ("Named value " ++ py_str value_name ++ " has been logged multiple times.").

(** The loop of [_get_logged_named_values_new], with the names logged so
    far. *)
Fixpoint logged_values_loop `{SpanHelpers} (todo : Spans)
    (logged_values : list AttributeValues)
    : pyresult (list (string * LoggedValueContent.t)) :=
  match todo with
  | [] => Ok []
  | logged_value_span :: todo' =>
      if negb (bool_decide (dom (attributes logged_value_span) = logged_value_keys))
      then Error AssertionError
      else
        value_name <- read_key (attributes logged_value_span) "name" ;;
        value_type <- read_key (attributes logged_value_span) "type" ;;
        if py_in value_name logged_values
        then Error (duplicate_logged_value value_name)
        else
          let logged_values := logged_values ++ [value_name] in
          encoding <- read_key (attributes logged_value_span) "encoding" ;;
          content_encoded <- read_key (attributes logged_value_span) "content_encoded" ;;
          content <- decode {| sd_type := value_type; sd_encoding := encoding;
                               sd_encoded_content := content_encoded |} ;;
          value <- LoggedValueContent.new (to_py value_type) content ;;
          rest <- logged_values_loop todo' logged_values ;;
          Ok ((py_str value_name, value) :: rest)
  end.

(** [list(_get_logged_named_values_new(spans, task_run_top_span))] *)
Definition _get_logged_named_values_new `{SpanHelpers} (spans : Spans)
    (task_run_top_span : SpanDict)
    : pyresult (list (string * LoggedValueContent.t)) :=
  logged_values_loop (logged_spans "named-value" spans task_run_top_span) [].

(** *** Timing *)

Module Timing.

Record t : Type := { start_time_iso8601 : string; end_time_iso8601 : string }.

End Timing.

(** *** TaskRunSummary *)

(** [dict(pairs)]: a later pair replaces an earlier one with the same key. *)
Definition py_dict {V} (pairs : list (string * V)) : gmap string V :=
  foldl (fun d kv => <[kv.1 := kv.2]> d) ∅ pairs.

Module TaskRunSummary.

Record t : Type := {
  span_id : string;
  parent_span_id : string;
  task_id : string;
  exceptions : list Event;
  attributes : AttributeMapping;
  timing : Timing.t;
  logged_values : gmap string LoggedValueContent.t;
  logged_artifacts : gmap string ArtifactContent.t;
}.

Definition validate_otel_span_id (v : string) : pyresult string :=
  if String.prefix "0x" v then Ok v
  else Error (ValueError ("Tried to initialize OpenTelemetry span with id=" ++ v
                            ++ ". Expected id to start with 0x.")).

(** The keys of a dict field declared [Dict[StrictStr, _]] must be strings. *)
Fixpoint strict_str_keys {V} (pairs : list (AttributeValues * V))
    : pyresult (list (string * V)) :=
  match pairs with
  | [] => Ok []
  | (VStr k, v) :: pairs' => rest <- strict_str_keys pairs' ;; Ok ((k, v) :: rest)
  | _ :: _ => Error (TypeError "str type expected")
  end.

(** [TaskRunSummary(span_id=.., parent_span_id=.., ...)]; a field that fails
    its check makes the construction raise [ValidationError]. *)
Definition new (span_id_ : string) (parent_span_id_ : AttributeValues)
    (task_id_ : string) (timing_ : Timing.t) (exceptions_ : list Event)
    (attributes_ : AttributeMapping)
    (logged_values_ : list (string * LoggedValueContent.t))
    (logged_artifacts_ : list (AttributeValues * ArtifactContent.t))
    : pyresult t :=
  match validate_otel_span_id span_id_, parent_span_id_,
        strict_str_keys logged_artifacts_ with
  | Ok sid, VStr parent, Ok artifacts =>
      Ok {| span_id := sid; parent_span_id := parent; task_id := task_id_;
            exceptions := exceptions_; attributes := attributes_;
            timing := timing_;
            logged_values := py_dict logged_values_;
            logged_artifacts := py_dict artifacts |}
  | _, _, _ => Error (ValidationError "TaskRunSummary")
  end.

Definition is_success (self : t) : bool :=
  length (exceptions self) =? 0.

End TaskRunSummary.

(** *** PipelineSummary *)

Module PipelineSummary.

(** [task_dependencies] lists the pairs the set is built from. *)
Record t : Type := {
  span_id : string;
  timing : Timing.t;
  attributes : AttributeMapping;
  task_runs : list TaskRunSummary.t;
  task_dependencies : list (AttributeValues * AttributeValues);
}.

(** [all(..)] over a generator *)
Fixpoint py_all {X} (f : X -> bool) (l : list X) : bool :=
  match l with
  | [] => true
  | x :: l' => if f x then py_all f l' else false
  end.

Definition is_success (self : t) : bool :=
  py_all TaskRunSummary.is_success (task_runs self).

Definition new (span_id_ : AttributeValues)
    (task_dependencies_ : list (AttributeValues * AttributeValues))
    (attributes_ : AttributeMapping) (timing_ : Timing.t)
    (task_runs_ : list TaskRunSummary.t) : pyresult t :=
  match span_id_ with
  | VStr sid =>
      Ok {| span_id := sid; timing := timing_; attributes := attributes_;
            task_runs := task_runs_; task_dependencies := task_dependencies_ |}
  | _ => Error (ValidationError "PipelineSummary")
  end.

End PipelineSummary.

(** *** String helpers *)

(** [s.replace(old, "")] for a non-empty [old]: [skip] characters are still
    part of the occurrence found last. *)
Fixpoint str_remove (old : string) (skip : nat) (s : string) : string :=
  match s with
  | EmptyString => EmptyString
  | String c s' =>
      match skip with
      | S k => str_remove old k s'
      | 0 =>
          if String.prefix old s
          then str_remove old (String.length old - 1) s'
          else String c (str_remove old 0 s')
      end
  end.

(** [s.split("/")[-1]]: the part after the last slash; [current] is the
    part read since the last slash. *)
Fixpoint last_segment (current : string) (s : string) : string :=
  match s with
  | EmptyString => current
  | String c s' =>
      if Ascii.eqb c "/"%char then last_segment EmptyString s'
      else last_segment (current ++ String c EmptyString) s'
  end.

(** [min(..)] and [max(..)] over strings *)
Definition py_min (l : list string) : pyresult string :=
  match l with
  | [] => Error (ValueError "min() arg is an empty sequence")
  | x :: l' => Ok (foldl (fun best y => if String.ltb y best then y else best) x l')
  end.

Definition py_max (l : list string) : pyresult string :=
  match l with
  | [] => Error (ValueError "max() arg is an empty sequence")
  | x :: l' => Ok (foldl (fun best y => if String.ltb best y then y else best) x l')
  end.

(** *** The parser *)

(** One iteration of [_task_run_iterator]. *)
Definition task_run_summary `{SpanHelpers} (top_span_id : AttributeValues)
    (pipeline_attributes : AttributeMapping) (spans : Spans)
    (task_top_span : SpanDict) : pyresult TaskRunSummary.t :=
  own <- get_attributes (bound_inclusive spans task_top_span) ["task."] ;;
  let task_attributes : AttributeMapping := own ∪ pipeline_attributes in
  notebook <- read_key task_attributes "task.notebook" ;;
  task_id <- match notebook with
             | VStr s => Ok (last_segment EmptyString (str_remove ".py" 0 s))
             | _ => Error (AttributeError "object has no attribute 'replace'")
             end ;;
  let timing :=
    {| Timing.start_time_iso8601 := start_time task_top_span;
       Timing.end_time_iso8601 := end_time task_top_span |} in
  let exceptions := exception_events (bound_inclusive spans task_top_span) in
  logged_values <- _get_logged_named_values_new spans task_top_span ;;
  logged_artifacts <- _artefact_iterator_new spans task_top_span ;;
  TaskRunSummary.new (span_id task_top_span) top_span_id task_id timing
    exceptions task_attributes logged_values logged_artifacts.

(** [list(_task_run_iterator(top_span_id, pipeline_attributes, spans))] *)
Definition _task_run_iterator `{SpanHelpers} (top_span_id : AttributeValues)
    (pipeline_attributes : AttributeMapping) (spans : Spans)
    : pyresult (list TaskRunSummary.t) :=
  map_r (task_run_summary top_span_id pipeline_attributes spans)
    (sort_by_start_time (filter_name "execute-task" spans)).

(** [parse_spans(spans)]; [uuid] is what [str(uuid.uuid4())] gives at this
    call. *)
Definition parse_spans `{SpanHelpers} (uuid : string) (spans : Spans)
    : pyresult PipelineSummary.t :=
  pipeline_attributes <- get_attributes spans ["pipeline."] ;;
  let top_span_id :=
    match pipeline_attributes !! "pipeline.pipeline_run_id" with
    | Some v => v
    | None => VStr ("NO-TOP-SPAN--TEMP" ++ uuid)
    end in
  task_dependencies <- extract_task_dependencies spans ;;
  start <- py_min (map start_time spans) ;;
  end_ <- py_max (map end_time spans) ;;
  let timing :=
    {| Timing.start_time_iso8601 := start; Timing.end_time_iso8601 := end_ |} in
  task_runs <- _task_run_iterator top_span_id pipeline_attributes spans ;;
  PipelineSummary.new top_span_id task_dependencies pipeline_attributes timing task_runs.

(** *** The deprecated iterators and the log parser's artefact writer *)

(** [d[k]] on a dict with string keys *)
Definition py_getitem (d : gmap string PyVal) (k : string) : pyresult PyVal :=
  match d !! k with
  | Some v => Ok v
  | None => Error (KeyError k)
  end.

(** The dict [{"name": .., "type": .., "content": ..}] as a dict. *)
Definition artifact_dict_items (a : ArtifactDict) : gmap string PyVal :=
  {[ "name" := to_py (ad_name a); "type" := to_py (ad_type a);
     "content" := ad_content a ]}.

(** [_artefact_iterator(spans, task_run_top_span)] *)
Definition _artefact_iterator `{SpanHelpers} (spans : Spans)
    (task_run_top_span : SpanDict) : pyresult (list (gmap string PyVal)) :=
  map_r (fun artefact_span =>
           artifact_dict <- _decode_data_content_span artefact_span ;;
           Ok (artifact_dict_items artifact_dict))
        (logged_spans "artefact" spans task_run_top_span).

(** [s.endswith(suffix)] *)
Definition str_endswith (suffix s : string) : bool :=
  String.prefix (String.rev suffix) (String.rev s).

(** [sub in s] *)
Fixpoint str_contains (sub s : string) : bool :=
  String.prefix sub s
  || match s with
     | EmptyString => false
     | String _ s' => str_contains sub s'
     end.

(** One iteration of [add_html_notebook_artefacts]: what it appends to the
    result.  [with_suffix_html name] is
    [str(Path(name).with_suffix(".html"))]. *)
Definition add_html_step `{SpanHelpers} (with_suffix_html : string -> string)
    (artefact_dict : gmap string PyVal) : pyresult (list (gmap string PyVal)) :=
  name <- py_getitem artefact_dict "name" ;;
  match name with
  | PStr s =>
      if str_endswith ".ipynb" s
      then
        ty <- py_getitem artefact_dict "type" ;;
        if match ty with PStr t => String.eqb t "utf-8" | _ => false end
        then
          content <- py_getitem artefact_dict "content" ;;
          html <- convert_ipynb_to_html content ;;
          Ok [ <["content" := html]>
                 (<["type" := PStr "utf-8"]>
                    (<["name" := PStr (with_suffix_html s)]> artefact_dict));
               artefact_dict ]
        else Ok [artefact_dict]
      else Ok [artefact_dict]
  | PBytes _ =>
      Error (TypeError "endswith first arg must be bytes or a tuple of bytes, not str")
  | _ => Error (AttributeError "object has no attribute 'endswith'")
  end.

Definition add_html_notebook_artefacts `{SpanHelpers}
    (with_suffix_html : string -> string) (artefacts : list (gmap string PyVal))
    : pyresult (list (gmap string PyVal)) :=
  appended <- map_r (add_html_step with_suffix_html) artefacts ;;
  Ok (concat appended).

(** [safe_path(path)] of [write_to_output_dir], on [str(path)]. *)
Definition safe_path (path : string) : pyresult string :=
  if String.prefix "/" path then Error AssertionError
  else if str_contains ".." path then Error AssertionError
  else Ok path.

(** The body of the loop of [write_to_output_dir] over the artefacts of a
    run, over the files written so far.  [run_path] is
    [out_basepath / task_dir / run_dir] and [path_join run_path name] is
    [str(run_path / name)]; the file system is taken to accept every
    write. *)
Definition write_artefact (path_join : string -> string -> string)
    (run_path : string) (artefact_dict : gmap string PyVal)
    (files : gmap string string) : gmap string string * pyresult unit :=
  match py_getitem artefact_dict "name" with
  | Error e => (files, Error e)
  | Ok artefact_name =>
      match py_getitem artefact_dict "encoding" with
      | Error e => (files, Error e)
      | Ok artefact_encoding =>
          match py_getitem artefact_dict "content" with
          | Error e => (files, Error e)
          | Ok artefact_content =>
              if match artefact_encoding with
                 | PStr enc => String.eqb enc "text/utf-8"
                 | _ => false
                 end
              then
                match artefact_name with
                | PStr name =>
                    match safe_path (path_join run_path name) with
                    | Error e => (files, Error e)
                    | Ok out_path =>
                        match artefact_content with
                        | PStr text => (<[out_path := text]> files, Ok tt)
                        | _ => (files, Error (TypeError "data must be str"))
                        end
                    end
                | _ => (files, Error (TypeError "unsupported operand type(s) for /"))
                end
              else (files, Error (ValueError "Unknown encoding of artefect"))
          end
      end
  end.

(** The loop of [write_to_output_dir] over the artefacts of a run; it ends
    at the first exception. *)
Fixpoint write_artefacts (path_join : string -> string -> string)
    (run_path : string) (artefacts : list (gmap string PyVal))
    (files : gmap string string) : gmap string string * pyresult unit :=
  match artefacts with
  | [] => (files, Ok tt)
  | artefact_dict :: artefacts' =>
      match write_artefact path_join run_path artefact_dict files with
      | (files', Ok _) => write_artefacts path_join run_path artefacts' files'
      | (files', Error e) => (files', Error e)
      end
  end.

(** The loop of the deprecated [_get_logged_named_values]; [result] is the
    dict built so far, in the order of insertion. *)
Fixpoint logged_values_dict_loop `{SpanHelpers} (todo : Spans)
    (result : list (AttributeValues * (PyVal * AttributeValues)))
    : pyresult (list (AttributeValues * (PyVal * AttributeValues))) :=
  match todo with
  | [] => Ok result
  | artefact_span :: todo' =>
      if negb (bool_decide (dom (attributes artefact_span) = logged_value_keys))
      then Error AssertionError
      else
        name <- read_key (attributes artefact_span) "name" ;;
        if py_in name (map fst result)
        then Error (ValueError ("Named value " ++ py_str name
                                  ++ " has been logged multiple times."))
        else
          ty <- read_key (attributes artefact_span) "type" ;;
          encoding <- read_key (attributes artefact_span) "encoding" ;;
          content_encoded <- read_key (attributes artefact_span) "content_encoded" ;;
          let serialized_data :=
            {| sd_type := ty; sd_encoding := encoding;
               sd_encoded_content := content_encoded |} in
          value <- decode serialized_data ;;
          logged_values_dict_loop todo'
            (result ++ [(name, (value, sd_type serialized_data))])
  end.

(** [_get_logged_named_values(spans, task_run_top_span)]: name to value and
    type. *)
Definition _get_logged_named_values `{SpanHelpers} (spans : Spans)
    (task_run_top_span : SpanDict)
    : pyresult (list (AttributeValues * (PyVal * AttributeValues))) :=
  logged_values_dict_loop (logged_spans "named-value" spans task_run_top_span) [].

(** *** What the claims are stated with *)

(** The type tags the spec declares for logged values and artifacts. *)
Definition declared_types : list string :=
  ["utf-8"; "bytes"; "float"; "bool"; "json"; "int"].

(** The runtime shape the spec asks of the content for each declared tag
    (a json content is anything but raw bytes). *)
Definition runtime_shape_matches (tag : string) (content : PyVal) : bool :=
  match content with
  | PStr _ => bool_decide (tag ∈ ["utf-8"; "json"])
  | PBytes _ => bool_decide (tag = "bytes")
  | PFloat _ => bool_decide (tag ∈ ["float"; "json"])
  | PBool _ => bool_decide (tag ∈ ["bool"; "json"])
  | PInt _ => bool_decide (tag ∈ ["int"; "json"])
  | PNone | PList _ | PDict _ => bool_decide (tag = "json")
  end.

(** The task run with another parent span id. *)
Definition with_parent (parent : string) (run : TaskRunSummary.t) : TaskRunSummary.t :=
  {| TaskRunSummary.span_id := TaskRunSummary.span_id run;
     TaskRunSummary.parent_span_id := parent;
     TaskRunSummary.task_id := TaskRunSummary.task_id run;
     TaskRunSummary.exceptions := TaskRunSummary.exceptions run;
     TaskRunSummary.attributes := TaskRunSummary.attributes run;
     TaskRunSummary.timing := TaskRunSummary.timing run;
     TaskRunSummary.logged_values := TaskRunSummary.logged_values run;
     TaskRunSummary.logged_artifacts := TaskRunSummary.logged_artifacts run |}.

(** The name a span logs its value under. *)
Definition name_of (span : SpanDict) : option AttributeValues :=
  attributes span !! "name".

(** The same name is logged by two spans of the list. *)
Definition has_duplicate (l : Spans) : Prop :=
  exists i j si sj ni nj,
    i < j /\ l !! i = Some si /\ l !! j = Some sj
    /\ name_of si = Some ni /\ name_of sj = Some nj /\ py_eq nj ni = true.

(** No two spans of the list log the same name. *)
Definition names_distinct (l : Spans) : Prop :=
  forall i j si sj ni nj,
    i < j -> l !! i = Some si -> l !! j = Some sj ->
    name_of si = Some ni -> name_of sj = Some nj -> py_eq nj ni = false.

(** The span has exactly the attributes of a logged value. *)
Definition keys_ok (span : SpanDict) : bool :=
  bool_decide (dom (attributes span) = logged_value_keys).

(** Decoding the span's content and building its [LoggedValueContent]. *)
Definition payload `{SpanHelpers} (span : SpanDict) : pyresult LoggedValueContent.t :=
  value_type <- read_key (attributes span) "type" ;;
  encoding <- read_key (attributes span) "encoding" ;;
  content_encoded <- read_key (attributes span) "content_encoded" ;;
  content <- decode {| sd_type := value_type; sd_encoding := encoding;
                       sd_encoded_content := content_encoded |} ;;
  LoggedValueContent.new (to_py value_type) content.

(** *** An instance of the helpers, for the examples *)

Definition has_allowed_prefix (prefixes : list string) (k : string) : bool :=
  existsb (fun p => String.prefix p k) prefixes.

Definition within (top span : SpanDict) : bool :=
  String.leb (start_time top) (start_time span)
  && String.leb (end_time span) (end_time top).

(** Modelled from the spec: a span bounds the spans whose interval lies
    within its own; the attributes of a collection are the union of the
    attributes with an allowed prefix; exception events are the events named
    "exception".  The decoder knows utf-8 text only, notebooks convert to
    themselves. *)
Definition example_helpers : SpanHelpers :=
  {| bound_under spans top :=
       filter (fun span => within top span = true /\ span_id span <> span_id top) spans;
     bound_inclusive spans top :=
       filter (fun span => within top span = true) spans;
     get_attributes spans prefixes :=
       Ok (foldr (fun span acc =>
                    filter (fun kv => has_allowed_prefix prefixes kv.1 = true)
                      (attributes span) ∪ acc) ∅ spans);
     exception_events spans :=
       concat (map (fun span => filter (fun ev => event_name ev = "exception")
                                  (events span)) spans);
     decode sd :=
       if py_eq (sd_type sd) (VStr "utf-8") && py_eq (sd_encoding sd) (VStr "utf-8")
       then Ok (to_py (sd_encoded_content sd))
       else Error (ValueError "unknown type or encoding");
     convert_ipynb_to_html content := Ok content;
     float_repr _ := "nan" |}.

Definition execute_task_span (run_id : option string) : SpanDict :=
  {| span_id := "0x01"; span_name := "execute-task";
     start_time := "2022-03-01T10:00:00.000000Z";
     end_time := "2022-03-01T10:00:09.000000Z";
     status_code := "OK";
     attributes :=
       match run_id with
       | Some id => {[ "task.notebook" := VStr "notebooks/train.py";
                       "pipeline.pipeline_run_id" := VStr id ]}
       | None => {[ "task.notebook" := VStr "notebooks/train.py" ]}
       end;
     events := [] |}.

Definition named_value_span (id start : string) (attrs : AttributeMapping) : SpanDict :=
  {| span_id := id; span_name := "named-value";
     start_time := start; end_time := start;
     status_code := "OK"; attributes := attrs; events := [] |}.

Definition logged (name content : string) : AttributeMapping :=
  {[ "name" := VStr name; "type" := VStr "utf-8"; "encoding" := VStr "utf-8";
     "content_encoded" := VStr content ]}.

(** A task that logs two values under different names. *)
Definition two_values (run_id : option string) : Spans :=
  [ execute_task_span run_id;
    named_value_span "0x02" "2022-03-01T10:00:01.000000Z" (logged "loss" "0.5");
    named_value_span "0x03" "2022-03-01T10:00:02.000000Z" (logged "accuracy" "0.9") ].

(** A task that logs the name "loss" twice. *)
Definition loss_twice : Spans :=
  [ execute_task_span None;
    named_value_span "0x02" "2022-03-01T10:00:01.000000Z" (logged "loss" "0.5");
    named_value_span "0x03" "2022-03-01T10:00:02.000000Z" (logged "loss" "0.4") ].

(** The name "loss" is logged twice, the first time by a span that carries
    one attribute more than a logged value has. *)
Definition loss_twice_extra_key : Spans :=
  [ execute_task_span None;
    named_value_span "0x02" "2022-03-01T10:00:01.000000Z"
      (<["unit" := VStr "nats"]> (logged "loss" "0.5"));
    named_value_span "0x03" "2022-03-01T10:00:02.000000Z" (logged "loss" "0.4") ].

(** The task run and the summary of [two_values (Some "run-1")]. *)
Definition two_values_run : TaskRunSummary.t :=
  {| TaskRunSummary.span_id := "0x01";
     TaskRunSummary.parent_span_id := "run-1";
     TaskRunSummary.task_id := "train";
     TaskRunSummary.exceptions := [];
     TaskRunSummary.attributes :=
       {[ "task.notebook" := VStr "notebooks/train.py";
          "pipeline.pipeline_run_id" := VStr "run-1" ]};
     TaskRunSummary.timing :=
       {| Timing.start_time_iso8601 := "2022-03-01T10:00:00.000000Z";
          Timing.end_time_iso8601 := "2022-03-01T10:00:09.000000Z" |};
     TaskRunSummary.logged_values :=
       {[ "loss" := {| LoggedValueContent.type := "utf-8";
                       LoggedValueContent.content := PStr "0.5" |};
          "accuracy" := {| LoggedValueContent.type := "utf-8";
                           LoggedValueContent.content := PStr "0.9" |} ]};
     TaskRunSummary.logged_artifacts := ∅ |}.

Definition two_values_summary : PipelineSummary.t :=
  {| PipelineSummary.span_id := "run-1";
     PipelineSummary.timing :=
       {| Timing.start_time_iso8601 := "2022-03-01T10:00:00.000000Z";
          Timing.end_time_iso8601 := "2022-03-01T10:00:09.000000Z" |};
     PipelineSummary.attributes := {[ "pipeline.pipeline_run_id" := VStr "run-1" ]};
     PipelineSummary.task_runs := [two_values_run];
     PipelineSummary.task_dependencies := [] |}.

Definition artefact_span (id start name content : string) : SpanDict :=
  {| span_id := id; span_name := "artefact";
     start_time := start; end_time := start;
     status_code := "OK"; attributes := logged name content; events := [] |}.

(** A task that logs its evaluated notebook and a text file. *)
Definition notebook_and_report : Spans :=
  [ execute_task_span (Some "run-1");
    artefact_span "0x04" "2022-03-01T10:00:03.000000Z" "notebook.ipynb" "{}";
    artefact_span "0x05" "2022-03-01T10:00:04.000000Z" "report.txt" "done" ].

(** The artefact dicts of [notebook_and_report], and with the html page of
    the notebook. *)
Definition notebook_and_report_artefacts : list (gmap string PyVal) :=
  [ artifact_dict_items {| ad_name := VStr "notebook.ipynb"; ad_type := VStr "utf-8";
                           ad_content := PStr "{}" |};
    artifact_dict_items {| ad_name := VStr "report.txt"; ad_type := VStr "utf-8";
                           ad_content := PStr "done" |} ].

Definition notebook_and_report_with_html : list (gmap string PyVal) :=
  [ artifact_dict_items {| ad_name := VStr "notebook.html"; ad_type := VStr "utf-8";
                           ad_content := PStr "{}" |};
    artifact_dict_items {| ad_name := VStr "notebook.ipynb"; ad_type := VStr "utf-8";
                           ad_content := PStr "{}" |};
    artifact_dict_items {| ad_name := VStr "report.txt"; ad_type := VStr "utf-8";
                           ad_content := PStr "done" |} ].

(** [str(Path(name).with_suffix(".html"))] and [str(run_path / name)] on
    the names of the examples. *)
Definition example_with_suffix_html (name : string) : string :=
  if String.eqb name "notebook.ipynb" then "notebook.html" else name.

Definition example_path_join (run_path name : string) : string :=
  run_path ++ "/" ++ name.

(** Artefact dicts as the loop of [write_to_output_dir] reads them. *)
Definition text_artefact (name content : string) : gmap string PyVal :=
  {[ "name" := PStr name; "encoding" := PStr "text/utf-8"; "content" := PStr content ]}.

(** The task run and the summary of [notebook_and_report]. *)
Definition notebook_and_report_run : TaskRunSummary.t :=
  {| TaskRunSummary.span_id := "0x01";
     TaskRunSummary.parent_span_id := "run-1";
     TaskRunSummary.task_id := "train";
     TaskRunSummary.exceptions := [];
     TaskRunSummary.attributes :=
       {[ "task.notebook" := VStr "notebooks/train.py";
          "pipeline.pipeline_run_id" := VStr "run-1" ]};
     TaskRunSummary.timing :=
       {| Timing.start_time_iso8601 := "2022-03-01T10:00:00.000000Z";
          Timing.end_time_iso8601 := "2022-03-01T10:00:09.000000Z" |};
     TaskRunSummary.logged_values := ∅;
     TaskRunSummary.logged_artifacts :=
       {[ "notebook.ipynb" :=
            {| ArtifactContent.type := "utf-8";
               ArtifactContent.content := ArtifactContent.ContentStr "{}" |};
          "notebook.html" :=
            {| ArtifactContent.type := "utf-8";
               ArtifactContent.content := ArtifactContent.ContentStr "{}" |};
          "report.txt" :=
            {| ArtifactContent.type := "utf-8";
               ArtifactContent.content := ArtifactContent.ContentStr "done" |} ]} |}.

Definition notebook_and_report_summary : PipelineSummary.t :=
  {| PipelineSummary.span_id := "run-1";
     PipelineSummary.timing :=
       {| Timing.start_time_iso8601 := "2022-03-01T10:00:00.000000Z";
          Timing.end_time_iso8601 := "2022-03-01T10:00:09.000000Z" |};
     PipelineSummary.attributes := {[ "pipeline.pipeline_run_id" := VStr "run-1" ]};
     PipelineSummary.task_runs := [notebook_and_report_run];
     PipelineSummary.task_dependencies := [] |}.

End SpanParser.

(** ** ray_helpers.py: the retry and timeout wrappers *)

Module RayHelpers.

Section Wrappers.

(** [A] is what the wrapped callable returns, [Arg] what it is called with
    and [St] whatever state its calls read and change (a random generator,
    a counter, a file). *)
Context {St Arg A : Type}.

(** Modelled from the spec: the loop of [retry_wrapper], which is not part
    of the sources at hand.  The callable is invoked with the attempt
    number; the loop stops at the first result the predicate accepts or
    when no attempt is left, and gives the results of all attempts made. *)
Fixpoint retry_loop (f : nat -> St -> St * A) (is_success : A -> bool)
    (attempts_left attempt : nat) (st : St) : St * list A :=
  match attempts_left with
  | 0 => (st, [])
  | S attempts_left' =>
      let '(st', r) := f attempt st in
      if is_success r then (st', [r])
      else
        let '(st'', results) := retry_loop f is_success attempts_left' (S attempt) st' in
        (st'', r :: results)
  end.

(** Modelled from the spec: [retry_wrapper(f_task_remote, max_retries,
    is_success)], attempts [0 .. max_retries - 1]. *)
Definition retry_wrapper (f : nat -> St -> St * A) (max_retries : nat)
    (is_success : A -> bool) (st : St) : St * list A :=
  retry_loop f is_success max_retries 0 st.

(** The callable invoked [n] times in a row, with the attempt numbers
    [attempt], [attempt + 1], ... *)
Fixpoint invoke_in_turn (f : nat -> St -> St * A) (n attempt : nat) (st : St)
    : St * list A :=
  match n with
  | 0 => (st, [])
  | S n' =>
      let '(st', r) := f attempt st in
      let '(st'', results) := invoke_in_turn f n' (S attempt) st' in
      (st'', r :: results)
  end.

(** [Try(value, error)]: the result of a guarded call. *)
Record Try : Type := { value : option A; error : option exception }.

(** What the callable does when called: it returns or raises after some
    time (in microseconds), or never finishes. *)
Inductive behaviour : Type :=
| ReturnsAfter (duration : N) (a : A)
| RaisesAfter (duration : N) (e : exception)
| Hangs.

Definition timeout_error : exception :=
  Exception_ "Timeout error: execution did not finish within timeout limit".

(** Modelled from the spec: [try_f_with_timeout_guard(f, timeout_s, ..)],
    which is not part of the sources at hand.  A call that finishes before
    the deadline gives its value or its error as a [Try]; otherwise the
    call is cancelled and the guard gives [Try(None, timeout error)].  The
    guarded call itself may only return. *)
Definition try_f_with_timeout_guard (f : Arg -> behaviour) (timeout_us : N)
    (arg : Arg) : pyresult Try :=
  match f arg with
  | ReturnsAfter duration a =>
      if (duration <? timeout_us)%N then Ok {| value := Some a; error := None |}
      else Ok {| value := None; error := Some timeout_error |}
  | RaisesAfter duration e =>
      if (duration <? timeout_us)%N then Ok {| value := None; error := Some e |}
      else Ok {| value := None; error := Some timeout_error |}
  | Hangs => Ok {| value := None; error := Some timeout_error |}
  end.

(** The [Try] a finished call stands for. *)
Definition finished_try (b : behaviour) : option Try :=
  match b with
  | ReturnsAfter _ a => Some {| value := Some a; error := None |}
  | RaisesAfter _ e => Some {| value := None; error := Some e |}
  | Hangs => None
  end.

(** The call finishes strictly before the deadline. *)
Definition finishes_before (b : behaviour) (timeout_us : N) : Prop :=
  match b with
  | ReturnsAfter duration _ | RaisesAfter duration _ => (duration < timeout_us)%N
  | Hangs => False
  end.

(** The deadline elapses strictly before the call finishes, if it does. *)
Definition deadline_first (b : behaviour) (timeout_us : N) : Prop :=
  match b with
  | ReturnsAfter duration _ | RaisesAfter duration _ => (timeout_us < duration)%N
  | Hangs => True
  end.

End Wrappers.

Arguments Try : clear implicits.
Arguments behaviour : clear implicits.

End RayHelpers.

(** * Properties *)

(** ** The scheduler *)

Module DagRunnerFacts.
Import DagRunner.

Section Facts.

Context {A Arg : Type} (rt : Runtime A Arg).

Local Abbreviation World := (World A).
Local Abbreviation M := (@M A).
Local Abbreviation after_start := (DagRunner.after_start rt).
Local Abbreviation obeys := (DagRunner.obeys rt).
Local Abbreviation keeps := (@DagRunner.keeps A).
Local Abbreviation preserves m := (@DagRunner.preserves A _ m).
Local Abbreviation all_finished := (@DagRunner.all_finished A).

Lemma keeps_refl (w : World) : keeps w w.
Proof. by intros t r. Qed.

Lemma keeps_trans (w1 w2 w3 : World) : keeps w1 w2 -> keeps w2 w3 -> keeps w1 w3.
Proof. intros H12 H23 t r Ht. apply H23, H12, Ht. Qed.

Lemma preserves_ret {X} (x : X) : preserves (ret x).
Proof. intros w w' o [= <- _]. apply keeps_refl. Qed.

Lemma preserves_raise {X} e : preserves (@raise A X e).
Proof. intros w w' o [= <- _]. apply keeps_refl. Qed.

Lemma preserves_out_of_fuel {X} : preserves (@out_of_fuel A X).
Proof. intros w w' o [= <- _]. apply keeps_refl. Qed.

Lemma preserves_bind {X Y} (m : M X) (k : X -> M Y) :
  preserves m -> (forall x, preserves (k x)) -> preserves (bind m k).
Proof.
  intros Hm Hk w w' o. unfold bind.
  destruct (m w) as [w1 [x| e |]] eqn:E; intros H.
  - eapply keeps_trans; [eapply Hm, E | eapply Hk, H].
  - injection H as <- _. eapply Hm, E.
  - injection H as <- _. eapply Hm, E.
Qed.

Lemma preserves_assert b : preserves (@assert_ A b).
Proof. destruct b; [apply preserves_ret | apply preserves_raise]. Qed.

Lemma preserves_for_each {X} (body : X -> M unit) l :
  (forall x, preserves (body x)) -> preserves (for_each body l).
Proof.
  intros Hb. induction l as [|x l IH]; simpl.
  - apply preserves_ret.
  - apply preserves_bind; [apply Hb | intros _; apply IH].
Qed.

Lemma preserves_map_m {X Y} (f : X -> M Y) l :
  (forall x, preserves (f x)) -> preserves (map_m f l).
Proof.
  intros Hf. induction l as [|x l IH]; simpl.
  - apply preserves_ret.
  - apply preserves_bind; [apply Hf | intros y].
    apply preserves_bind; [apply IH | intros ys; apply preserves_ret].
Qed.

Lemma preserves_has_started t : preserves (@has_started A t).
Proof. intros w w' o [= <- _]. apply keeps_refl. Qed.

Lemma preserves_get_ref t : preserves (@get_ref A t).
Proof.
  apply preserves_bind; [apply preserves_has_started | intros b].
  destruct b; simpl; [| apply preserves_raise].
  intros w w' o. destruct (future_or_none w !! t); intros [= <- _]; apply keeps_refl.
Qed.

Lemma preserves_ray_wait_poll r : preserves (ray_wait_poll rt r).
Proof. intros w w' o [= <- _]. by intros t r'. Qed.

Lemma preserves_ray_wait_blocking refs : preserves (ray_wait_blocking rt refs).
Proof.
  intros w w' o. unfold ray_wait_blocking.
  destruct refs; intros [= <- _]; by intros t r.
Qed.

Lemma preserves_ray_get r : preserves (@ray_get A r).
Proof.
  intros w w' o. unfold ray_get.
  destruct (object_store w !! r) as [[a|e]|]; [case_bool_decide | case_bool_decide |];
    intros [= <- _]; by intros t r'.
Qed.

Lemma preserves_print line : preserves (@print A line).
Proof. intros w w' o [= <- _]. by intros t r. Qed.

Lemma preserves_has_completed t : preserves (has_completed rt t).
Proof.
  apply preserves_bind; [apply preserves_has_started | intros b].
  destruct b; simpl; [| apply preserves_ret].
  apply preserves_bind; [apply preserves_get_ref | intros r].
  apply preserves_bind; [apply preserves_ray_wait_poll | intros [fs nfs]].
  apply preserves_bind; [apply preserves_assert | intros _; apply preserves_ret].
Qed.

Lemma preserves_result t : preserves (result rt t).
Proof.
  apply preserves_bind; [apply preserves_has_completed | intros b].
  destruct b; simpl; [| apply preserves_raise].
  apply preserves_bind; [apply preserves_get_ref | apply preserves_ray_get].
Qed.

(** *** [Task.start] *)

Lemma start_unstarted t arg w :
  future_or_none w !! t = None ->
  start rt t arg w = (after_start w t arg, Returns tt).
Proof.
  intros Hn. unfold start, bind, has_started.
  rewrite bool_decide_eq_false_2; [reflexivity |].
  rewrite Hn. by intros [? ?].
Qed.

Lemma start_started t arg w :
  is_Some (future_or_none w !! t) ->
  start rt t arg w = (w, Raises (Exception_ "Task has already started")).
Proof.
  intros Hs. unfold start, bind, has_started.
  by rewrite bool_decide_eq_true_2.
Qed.

Lemma preserves_start t arg : preserves (start rt t arg).
Proof.
  intros w w' o H.
  destruct (future_or_none w !! t) as [r0|] eqn:E.
  - rewrite start_started in H by (rewrite E; eauto).
    injection H as <- _. apply keeps_refl.
  - rewrite start_unstarted in H by done.
    injection H as <- _. intros t' r Ht'. simpl.
    rewrite lookup_insert_ne; [done | congruence].
Qed.

Lemma preserves_exec_call t c : preserves (exec_call rt t c).
Proof.
  destruct c; simpl.
  - apply preserves_start.
  - apply preserves_bind; [apply preserves_get_ref | intros; apply preserves_ret].
  - apply preserves_bind; [apply preserves_has_started | intros; apply preserves_ret].
  - apply preserves_bind; [apply preserves_has_completed | intros; apply preserves_ret].
  - apply preserves_bind; [apply preserves_result | intros; apply preserves_ret].
Qed.

Lemma exec_calls_keeps calls w : keeps w (exec_calls rt calls w).1.
Proof.
  revert w. induction calls as [|[t c] calls IH]; intros w; simpl.
  - apply keeps_refl.
  - destruct (exec_call rt t c w) as [w1 o] eqn:E.
    specialize (IH w1). destruct (exec_calls rt calls w1) as [w2 log]. simpl in *.
    eapply keeps_trans; [eapply preserves_exec_call, E | exact IH].
Qed.

Lemma start_if_not_started_returns t w :
  exists w', start_if_not_started rt t w = (w', Returns tt)
             /\ is_Some (future_or_none w' !! t).
Proof.
  unfold start_if_not_started, bind, has_started.
  destruct (future_or_none w !! t) as [r|] eqn:E.
  - rewrite bool_decide_eq_true_2 by eauto. simpl. exists w. rewrite E. eauto.
  - rewrite bool_decide_eq_false_2 by (by intros [? ?]). simpl.
    rewrite start_unstarted by done. eexists; split; [done |].
    simpl. rewrite lookup_insert_eq. eauto.
Qed.

Lemma preserves_start_if_not_started t : preserves (start_if_not_started rt t).
Proof.
  apply preserves_bind; [apply preserves_has_started | intros b].
  destruct b; simpl; [apply preserves_ret | apply preserves_start].
Qed.

Lemma preserves_ref_to_task l d : preserves (@ref_to_task A l d).
Proof.
  revert d. induction l as [|t l IH]; intros d; simpl.
  - apply preserves_ret.
  - apply preserves_bind; [apply preserves_get_ref | intros r; apply IH].
Qed.

Lemma preserves_get_next l : preserves (_get_next_completed_task rt l).
Proof.
  apply preserves_bind; [apply preserves_assert | intros _].
  apply preserves_bind; [apply preserves_ref_to_task | intros d].
  apply preserves_bind; [apply preserves_ray_wait_blocking | intros refs].
  apply preserves_bind; [apply preserves_assert | intros _].
  destruct refs as [|r ?]; [apply preserves_raise |].
  destruct (dict_get r d); [apply preserves_ret | apply preserves_raise].
Qed.

Lemma preserves_while_loop fuel T D completed not_completed k :
  preserves (while_loop rt fuel T D completed not_completed k).
Proof.
  revert completed not_completed k.
  induction fuel as [|fuel IH]; intros completed not_completed k; simpl.
  - destruct (negb _); [apply preserves_ret | apply preserves_out_of_fuel].
  - destruct (negb _); [apply preserves_ret |].
    apply preserves_bind; [apply preserves_print | intros _].
    apply preserves_bind.
    { destruct (_ && _); [apply preserves_raise | apply preserves_ret]. }
    intros _. apply preserves_bind.
    { apply preserves_for_each. intros t. apply preserves_start_if_not_started. }
    intros _. apply preserves_bind; [apply preserves_get_next | intros t; apply IH].
Qed.

Lemma preserves_run_tasks fuel T D : preserves (run_tasks rt fuel T D).
Proof.
  apply preserves_bind.
  { apply preserves_map_m. intros t. apply preserves_has_started. }
  intros ?. apply preserves_bind; [apply preserves_assert | intros _].
  apply preserves_bind; [apply preserves_while_loop | intros completed].
  apply preserves_bind.
  { apply preserves_map_m. intros t. apply preserves_has_completed. }
  intros ?. apply preserves_bind; [apply preserves_assert | intros _].
  apply preserves_map_m. intros t. apply preserves_result.
Qed.

(** *** Calls on task objects *)

Lemma n_bindings_cons t t' (c : task_call Arg) ok log :
  n_bindings t ((t', c, ok) :: log) =
  (if decide (t' = t /\ is_start c = true /\ ok = true) then 1 else 0)
  + n_bindings t log.
Proof.
  unfold n_bindings. rewrite filter_cons.
  repeat match goal with
         | |- context [match ?d with left _ => _ | right _ => _ end] => destruct d
         end; simpl; tauto || lia.
Qed.

Lemma exec_calls_bindings t calls w :
  (is_Some (future_or_none w !! t) -> n_bindings t (exec_calls rt calls w).2 = 0)
  /\ n_bindings t (exec_calls rt calls w).2 <= 1.
Proof.
  revert w. induction calls as [|[t' c] calls IH]; intros w; simpl.
  - split; [done | unfold n_bindings; simpl; lia].
  - destruct (exec_call rt t' c w) as [w1 o] eqn:E.
    pose proof (IH w1) as [IH0 IH1].
    destruct (exec_calls rt calls w1) as [w2 log]. simpl in *.
    rewrite n_bindings_cons.
    assert (Hk : keeps w w1) by (eapply preserves_exec_call, E).
    case_decide as Hd.
    + destruct Hd as (-> & Hc & Ho). destruct c as [arg| | | |]; try done.
      simpl in E.
      destruct (future_or_none w !! t) as [r|] eqn:Ew.
      * rewrite start_started in E by eauto. injection E as <- <-. done.
      * rewrite start_unstarted in E by done. injection E as <- <-.
        rewrite IH0; [split; [by intros [? ?] | lia] |].
        simpl. rewrite lookup_insert_eq. eauto.
    + split; [| lia]. intros [r Hr]. apply IH0. exists r. by apply Hk.
Qed.

(** *** A graph that blocks every task *)

Lemma map_m_has_started l (w : World) :
  map_m has_started l w
  = (w, Returns (map (fun t => bool_decide (is_Some (future_or_none w !! t))) l)).
Proof.
  induction l as [|t l IH]; simpl; [done |].
  unfold bind at 1. simpl. unfold bind at 1. by rewrite IH.
Qed.

Lemma not_started_precondition l (w : World) :
  (forall t, t ∈ l -> future_or_none w !! t = None) ->
  forallb negb (map (fun t => bool_decide (is_Some (future_or_none w !! t))) l) = true.
Proof.
  intros H. induction l as [|t l IH]; simpl; [done |].
  rewrite bool_decide_eq_false_2.
  - simpl. apply IH. intros t' Ht'. apply H. by right.
  - rewrite H by left. by intros [? ?].
Qed.

Lemma run_tasks_blocked fuel T D (w : World) :
  T <> [] ->
  (forall t, t ∈ T -> future_or_none w !! t = None) ->
  (forall t, t ∈ T -> _task_can_run t [] D = false) ->
  run_tasks rt (S fuel) T D w
  = (after_print w (1, length T), Raises AssertionError).
Proof.
  intros Hne Hns Hblocked. unfold run_tasks.
  unfold bind at 1. rewrite map_m_has_started.
  unfold bind at 1. rewrite not_started_precondition by done. simpl assert_. cbv beta iota.
  unfold bind at 1.
  assert (Hf : filter (fun task => _task_can_run task [] D = true) T = []).
  { clear Hne Hns. induction T as [|t T' IH]; [done |].
    rewrite filter_cons. rewrite decide_False.
    - apply IH. intros t' Ht'. apply Hblocked. by right.
    - rewrite Hblocked by left. done. }
  destruct T as [|t0 T']; [done |].
  cbn [while_loop length Nat.ltb Nat.leb negb].
  rewrite Hf. reflexivity.
Qed.

(** *** Python dicts *)

Lemma dict_get_set {K V} `{EqDecision K} (k k' : K) (v : V) d :
  dict_get k (dict_set k' v d) = if decide (k = k') then Some v else dict_get k d.
Proof.
  induction d as [|[k0 v0] d IH]; simpl.
  - done.
  - destruct (decide (k' = k0)) as [->|Hne]; simpl.
    + destruct (decide (k = k0)); done.
    + destruct (decide (k = k0)) as [->|]; [by rewrite decide_False by done | done].
Qed.

Lemma dict_keys_get {K V} `{EqDecision K} (k : K) (d : list (K * V)) :
  k ∈ dict_keys d -> is_Some (dict_get k d).
Proof.
  unfold dict_keys. induction d as [|[k0 v0] d IH]; simpl.
  - by intros ?%elem_of_nil.
  - intros [->|Hin]%elem_of_cons.
    + rewrite decide_True by done. eauto.
    + destruct (decide (k = k0)); eauto.
Qed.

Lemma dict_set_nonempty {K V} `{EqDecision K} (k : K) (v : V) d : dict_set k v d <> [].
Proof. destruct d as [|[k0 v0] d]; simpl; [done |]. by destruct (decide (k = k0)). Qed.

(** *** Waiting for the next task *)

Lemma get_ref_started t r (w : World) :
  future_or_none w !! t = Some r -> get_ref t w = (w, Returns r).
Proof.
  intros H. unfold get_ref, bind, has_started.
  rewrite bool_decide_eq_true_2 by eauto. simpl. by rewrite H.
Qed.

Lemma ref_to_task_spec l d (w : World) :
  (forall t, t ∈ l -> is_Some (future_or_none w !! t)) ->
  exists d',
    ref_to_task l d w = (w, Returns d')
    /\ (forall r t, dict_get r d' = Some t ->
          dict_get r d = Some t \/ (t ∈ l /\ future_or_none w !! t = Some r))
    /\ (l <> [] \/ d <> [] -> d' <> []).
Proof.
  revert d. induction l as [|t l IH]; intros d Hs; simpl.
  - exists d. split; [done |]. split; [by left | by intros [?|?]].
  - destruct (Hs t) as [r Hr]; [by left |].
    unfold bind. rewrite (get_ref_started t r) by done.
    destruct (IH (dict_set r t d)) as (d' & E & Hget & Hne).
    { intros t' Ht'. apply Hs. by right. }
    exists d'. split; [done |]. split.
    + intros r' t' Hd'. destruct (Hget r' t' Hd') as [Hold|[Hin Hf]].
      * rewrite dict_get_set in Hold. case_decide as Heq.
        -- injection Hold as <-. subst r'. right. split; [by left | done].
        -- by left.
      * right. split; [by right | done].
    + intros _. apply Hne. right. apply dict_set_nonempty.
Qed.

Lemma get_next_spec l (w : World) :
  wait_contract rt ->
  l <> [] ->
  (forall t, t ∈ l -> is_Some (future_or_none w !! t)) ->
  exists t r,
    _get_next_completed_task rt l w = (after_wait w r, Returns t)
    /\ t ∈ l /\ future_or_none w !! t = Some r.
Proof.
  intros Hwait Hne Hs. unfold _get_next_completed_task.
  destruct l as [|t0 l0] eqn:El; [done |]. rewrite <- El in *.
  assert (Hlen : (0 <? length l) = true) by (rewrite El; done).
  rewrite Hlen. unfold bind at 1. simpl assert_. unfold ret at 1.
  destruct (ref_to_task_spec l [] w Hs) as (d & E & Hget & Hd).
  unfold bind at 1. rewrite E.
  assert (Hk : dict_keys d <> []).
  { assert (d <> []) as Hdn by (apply Hd; left; by rewrite El).
    destruct d; [done | by simpl]. }
  pose proof (Hwait (n_waits w) (dict_keys d) Hk) as Hin.
  destruct (dict_keys_get _ _ Hin) as [t Ht].
  destruct (Hget _ _ Ht) as [Hold|[Htl Hf]]; [done |].
  exists t, (ray_wait_any rt (n_waits w) (dict_keys d)).
  split; [| done].
  unfold bind at 1. unfold ray_wait_blocking.
  destruct (dict_keys d) as [|k0 ks] eqn:Ek; [done |]. rewrite <- Ek in *.
  unfold bind at 1. simpl. by rewrite Ht.
Qed.

(** *** Starting the tasks that can run *)

Lemma start_all_spec T l (w : World) :
  world_wf w -> obeys T w ->
  exists w',
    for_each (start_if_not_started rt) l w = (w', Returns tt)
    /\ world_wf w' /\ obeys T w' /\ keeps w w'
    /\ (forall t, t ∈ l -> is_Some (future_or_none w' !! t))
    /\ finished w' = finished w /\ n_waits w' = n_waits w /\ stdout w' = stdout w.
Proof.
  revert w. induction l as [|t l IH]; intros w Hwf Hob; simpl.
  - exists w. split; [done |]. repeat split; try done.
    + apply keeps_refl.
    + by intros t ?%elem_of_nil.
  - assert (exists w1, start_if_not_started rt t w = (w1, Returns tt)
                       /\ world_wf w1 /\ obeys T w1 /\ keeps w w1
                       /\ is_Some (future_or_none w1 !! t)
                       /\ finished w1 = finished w /\ n_waits w1 = n_waits w
                       /\ stdout w1 = stdout w) as (w1 & E1 & Hwf1 & Hob1 & Hk1 & Hs1 & Hf1 & Hn1 & Ho1).
    { unfold start_if_not_started, bind, has_started.
      destruct (future_or_none w !! t) as [r|] eqn:E.
      - rewrite bool_decide_eq_true_2 by eauto. simpl. exists w.
        rewrite E. repeat split; eauto. apply keeps_refl.
      - rewrite bool_decide_eq_false_2 by (by intros [? ?]). simpl.
        rewrite start_unstarted by done. eexists. split; [done |].
        split; [| split; [| split; [| split]]]; simpl.
        + intros t' r'. simpl. destruct (decide (t = t')) as [->|Hne].
          * rewrite lookup_insert_eq. intros [= <-]. lia.
          * rewrite lookup_insert_ne by done. intros H. apply Hwf in H. lia.
        + intros t' r' Ht'. simpl. destruct (decide (t = t')) as [->|Hne].
          * rewrite lookup_insert_eq. intros [= <-]. by rewrite lookup_insert_eq.
          * rewrite lookup_insert_ne by done. intros H.
            rewrite lookup_insert_ne; [by apply Hob |].
            apply Hwf in H. lia.
        + intros t' r' H. simpl. rewrite lookup_insert_ne; [done | congruence].
        + rewrite lookup_insert_eq. eauto.
        + done. }
    unfold bind. rewrite E1.
    destruct (IH w1 Hwf1 Hob1) as (w2 & E2 & Hwf2 & Hob2 & Hk2 & Hs2 & Hf2 & Hn2 & Ho2).
    exists w2. split; [done |]. repeat split; try done.
    + eapply keeps_trans; done.
    + intros t' [->|Hin]%elem_of_cons; [| by apply Hs2].
      destruct Hs1 as [r Hr]. exists r. by apply Hk2.
    + congruence.
    + congruence.
    + congruence.
Qed.

(** *** A task that can run *)

Lemma acyclic_minimal D n (S : gset Task) y :
  acyclic D -> size S <= n -> y ∈ S ->
  exists m, m ∈ S /\ rtc (depends D) m y /\ forall p, p ∈ S -> ~ depends D p m.
Proof.
  intros Hac. revert S y. induction n as [|n IH]; intros S y Hsize Hy.
  - assert (size S = 0) as Hz%size_empty_iff by lia.
    rewrite Hz in Hy. by apply not_elem_of_empty in Hy.
  - destruct (decide (Exists (fun td => to_node td = y /\ from_node td ∈ S) D)) as [Hex|Hno].
    + apply Exists_exists in Hex as ([p y'] & Htd & Hto & Hfrom). simpl in *. subst y'.
      assert (p <> y) as Hpy.
      { intros ->. apply (Hac y). by apply tc_once. }
      destruct (IH (S ∖ {[ y ]}) p) as (m & Hm & Hrtc & Hmin).
      { pose proof (subset_size _ _ (subset_difference_elem_of _ _ Hy)). lia. }
      { apply elem_of_difference. split; [done | by intros ?%elem_of_singleton]. }
      apply elem_of_difference in Hm as [Hm _].
      exists m. split; [done |]. split.
      { eapply rtc_r; [exact Hrtc | exact Htd]. }
      intros q Hq Hdep. destruct (decide (q = y)) as [->|Hqy].
      * apply (Hac y). eapply tc_rtc_r; [by apply tc_once |].
        eapply rtc_r; [exact Hrtc | exact Htd].
      * apply (Hmin q); [| done].
        apply elem_of_difference. split; [done | by intros ?%elem_of_singleton].
    + exists y. split; [done |]. split; [done |].
      intros p Hp Hdep. apply Hno. apply Exists_exists.
      exists (Edge p y). by repeat split.
Qed.

Lemma task_can_run_true t completed D :
  (forall td, td ∈ D -> to_node td = t -> from_node td ∈ completed) ->
  _task_can_run t completed D = true.
Proof.
  intros H. unfold _task_can_run. apply forallb_forall. intros d Hd.
  apply list_elem_of_In, list_elem_of_fmap in Hd as (td & -> & Htd).
  apply list_elem_of_filter in Htd as [Hto Htd].
  apply bool_decide_eq_true_2. by apply H.
Qed.

Lemma exists_runnable T D completed :
  references_only D T -> acyclic D ->
  filter (fun t => t ∉ completed) T <> [] ->
  filter (fun t => _task_can_run t completed D = true)
    (filter (fun t => t ∉ completed) T) <> [].
Proof.
  intros Href Hac Hne.
  destruct (filter (fun t => t ∉ completed) T) as [|y NC'] eqn:E; [done |].
  rewrite <- E in *.
  set (NC := filter (fun t => t ∉ completed) T) in *.
  destruct (acyclic_minimal D (size (list_to_set NC : gset Task)) (list_to_set NC) y)
    as (m & Hm & _ & Hmin); [done | done | |].
  { apply elem_of_list_to_set. rewrite E. by left. }
  apply elem_of_list_to_set in Hm.
  assert (m ∈ filter (fun t => _task_can_run t completed D = true) NC) as Hin.
  { apply list_elem_of_filter. split; [| done].
    apply task_can_run_true. intros [p m'] Htd Hto. simpl in *. subst m'.
    destruct (decide (p ∈ completed)) as [|Hnc]; [done |]. exfalso.
    apply (Hmin p); [| done].
    apply elem_of_list_to_set. apply list_elem_of_filter. split; [done |].
    by apply (Href _ Htd). }
  intros Hnil. rewrite Hnil in Hin. by apply elem_of_nil in Hin.
Qed.

(** *** The loop *)

Lemma while_loop_done fuel T D completed k (w : World) :
  while_loop rt fuel T D completed [] k w = (w, Returns completed).
Proof. by destruct fuel. Qed.

Lemma while_loop_step fuel T D completed nc k :
  nc <> [] ->
  while_loop rt (S fuel) T D completed nc k =
  bind (print (S k, length T)) (fun _ =>
  bind (for_each (start_if_not_started rt)
          (filter (fun t => _task_can_run t completed D = true) nc)) (fun _ =>
  bind (_get_next_completed_task rt
          (filter (fun t => _task_can_run t completed D = true) nc)) (fun t =>
  while_loop rt fuel T D (completed ++ [t])
    (filter (fun t' => t' ∉ completed ++ [t]) T) (S k)))).
Proof.
  intros Hne. destruct nc as [|y nc']; [done |].
  cbn [while_loop length Nat.ltb Nat.leb negb].
  rewrite Nat.add_1_r. reflexivity.
Qed.

Lemma while_loop_spec T D :
  wait_contract rt -> NoDup T -> references_only D T -> acyclic D ->
  forall fuel completed (w : World),
    NoDup completed -> (forall t, t ∈ completed -> t ∈ T) ->
    length T <= fuel + length completed ->
    world_wf w -> obeys T w -> all_finished w completed ->
    exists w' completed',
      while_loop rt fuel T D completed (filter (fun t => t ∉ completed) T)
        (length completed) w = (w', Returns completed')
      /\ completed' ≡ₚ T
      /\ world_wf w' /\ obeys T w' /\ all_finished w' completed'
      /\ stdout w' = stdout w ++ map (fun k => (k, length T))
                                   (seq (S (length completed)) (length T - length completed))
      /\ n_waits w' = n_waits w + (length T - length completed).
Proof.
  intros Hwait HndT Href Hac.
  induction fuel as [|fuel IH]; intros completed w Hnd Hsub Hlen Hwf Hob Hfin.
  all: destruct (filter (fun t => t ∉ completed) T) as [|y nc'] eqn:E.
  all: try (rewrite while_loop_done; exists w, completed;
            assert (completed ≡ₚ T) as Hperm;
            [ apply NoDup_Permutation; [done | done |];
              intros x; split; [by apply Hsub |]; intros Hx;
              destruct (decide (x ∈ completed)) as [|Hn]; [done |];
              assert (x ∈ filter (fun t => t ∉ completed) T) as Hf
                by (by apply list_elem_of_filter);
              rewrite E in Hf; by apply elem_of_nil in Hf
            | split; [done |]; split; [done |];
              rewrite (Permutation_length Hperm), Nat.sub_diag; simpl;
              rewrite app_nil_r, Nat.add_0_r; done ]).
  all: assert (y ∈ T /\ y ∉ completed) as [HyT Hyc]
         by (assert (y ∈ filter (fun t => t ∉ completed) T) as Hy by (rewrite E; by left);
             apply list_elem_of_filter in Hy; tauto).
  all: assert (S (length completed) <= length T) as Hlt
         by (change (length (y :: completed) <= length T);
             apply submseteq_length, NoDup_submseteq;
             [ by apply NoDup_cons
             | intros x [->|Hx]%elem_of_cons; [done | by apply Hsub] ]).
  - lia.
  - rewrite <- E. rewrite while_loop_step by (rewrite E; done).
    set (NC := filter (fun t => t ∉ completed) T) in *.
    set (run := filter (fun t => _task_can_run t completed D = true) NC).
    assert (run <> []) as Hrun.
    { apply exists_runnable; [done | done |]. fold NC. by rewrite E. }
    unfold bind at 1. unfold print at 1.
    destruct (start_all_spec T run (after_print w (S (length completed), length T)))
      as (w2 & E2 & Hwf2 & Hob2 & Hk2 & Hs2 & Hf2 & Hn2 & Ho2);
      [exact Hwf | exact Hob |].
    fold (after_print w (S (length completed), length T)).
    unfold bind at 1. rewrite E2.
    destruct (get_next_spec run w2 Hwait Hrun Hs2) as (t & r & E3 & Htrun & Htr).
    unfold bind at 1. rewrite E3.
    apply list_elem_of_filter in Htrun as [_ HtNC].
    apply list_elem_of_filter in HtNC as [Htc HtT].
    destruct (IH (completed ++ [t]) (after_wait w2 r)) as
      (w' & completed' & E4 & Hperm & Hwf' & Hob' & Hfin' & Hout & Hnw).
    + apply NoDup_app. split; [done |]. split; [| apply NoDup_singleton].
      intros x Hx ->%list_elem_of_singleton. done.
    + intros x [Hx| ->%list_elem_of_singleton]%elem_of_app; [by apply Hsub | done].
    + rewrite length_app. simpl. lia.
    + exact Hwf2.
    + exact Hob2.
    + intros x [Hx| ->%list_elem_of_singleton]%elem_of_app.
      * destruct (Hfin x Hx) as (rx & Hrx & Hrf). exists rx. split.
        -- apply Hk2. exact Hrx.
        -- simpl. rewrite Hf2. simpl. apply elem_of_union_r. exact Hrf.
      * exists r. split; [exact Htr |]. simpl. apply elem_of_union_l.
        by apply elem_of_singleton.
    + rewrite length_app in E4, Hout, Hnw. simpl in E4, Hout, Hnw.
      rewrite Nat.add_1_r in E4, Hout, Hnw.
      exists w', completed'. rewrite E4. split; [done |].
      split; [done |]. split; [done |]. split; [done |]. split; [done |].
      rewrite Hout, Hnw. simpl. rewrite Ho2, Hn2. simpl.
      replace (length T - length completed) with (S (length T - S (length completed))) by lia.
      simpl. rewrite <- app_assoc. split; [done | lia].
Qed.

(** *** Collecting the results *)

Lemma polled_refl (w : World) : polled w w.
Proof. by repeat split. Qed.

Lemma polled_trans (w1 w2 w3 : World) : polled w1 w2 -> polled w2 w3 -> polled w1 w3.
Proof.
  intros (H1 & H2 & H3 & H4 & H5 & H6) (G1 & G2 & G3 & G4 & G5 & G6).
  repeat split; congruence.
Qed.

Lemma has_completed_started t r (w : World) :
  future_or_none w !! t = Some r ->
  has_completed rt t w
  = (after_poll w r (bool_decide (r ∈ finished w) || ray_ready rt (n_polls w) r),
     Returns (bool_decide (r ∈ finished w) || ray_ready rt (n_polls w) r)).
Proof.
  intros Hr. unfold has_completed, bind at 1, has_started.
  rewrite bool_decide_eq_true_2 by eauto. simpl.
  unfold bind at 1. rewrite (get_ref_started t r) by done.
  unfold bind at 1, ray_wait_poll.
  by destruct (bool_decide (r ∈ finished w) || ray_ready rt (n_polls w) r).
Qed.

Lemma after_poll_finished (w : World) r :
  r ∈ finished w -> polled w (after_poll w r true).
Proof.
  intros Hf. repeat split; simpl.
  apply subseteq_union_1_L. by apply singleton_subseteq_l.
Qed.

Lemma has_completed_finished t r (w : World) :
  future_or_none w !! t = Some r -> r ∈ finished w ->
  has_completed rt t w = (after_poll w r true, Returns true).
Proof.
  intros Hr Hf. rewrite (has_completed_started t r) by done.
  by rewrite bool_decide_eq_true_2.
Qed.

Lemma result_started t r resolved (w : World) :
  future_or_none w !! t = Some r -> object_store w !! r = Some resolved ->
  result rt t w
  = (after_poll w r (bool_decide (r ∈ finished w) || ray_ready rt (n_polls w) r),
     if bool_decide (r ∈ finished w) || ray_ready rt (n_polls w) r
     then match resolved with
          | Ok a => Returns a
          | Error e => Raises e
          end
     else Raises (Exception_
                    "Result has not finished. Calling ray.get would block execution")).
Proof.
  intros Hr Ha. unfold result, bind at 1.
  rewrite (has_completed_started t r) by done.
  destruct (bool_decide (r ∈ finished w) || ray_ready rt (n_polls w) r); [| done].
  simpl. unfold bind. rewrite (get_ref_started t r) by done.
  unfold ray_get. simpl. rewrite Ha.
  rewrite bool_decide_eq_true_2
    by (apply elem_of_union_l; by apply elem_of_singleton).
  by destruct resolved.
Qed.

Lemma result_finished t r resolved (w : World) :
  future_or_none w !! t = Some r -> r ∈ finished w ->
  object_store w !! r = Some resolved ->
  result rt t w
  = (after_poll w r true,
     match resolved with
     | Ok a => Returns a
     | Error e => Raises e
     end).
Proof.
  intros Hr Hf Ha. rewrite (result_started t r resolved) by done.
  by rewrite bool_decide_eq_true_2.
Qed.

Lemma map_m_has_completed l (w : World) :
  all_finished w l ->
  exists w', map_m (has_completed rt) l w = (w', Returns (map (fun _ => true) l))
             /\ polled w w'.
Proof.
  revert w. induction l as [|t l IH]; intros w Hfin; simpl.
  - exists w. split; [done | apply polled_refl].
  - destruct (Hfin t) as (r & Hr & Hf); [by left |].
    unfold bind at 1. rewrite (has_completed_finished t r) by done.
    pose proof (after_poll_finished w r Hf) as Hp.
    destruct (IH (after_poll w r true)) as (w' & E & Hp').
    { intros t' Ht'. destruct (Hfin t') as (r' & Hr' & Hf'); [by right |].
      exists r'. split; [done |]. destruct Hp as (_ & _ & _ & -> & _). done. }
    exists w'. unfold bind at 1. rewrite E. split; [done |].
    by eapply polled_trans.
Qed.

Lemma map_m_result l (w : World) (f : Task -> pyresult A) :
  (forall t, t ∈ l ->
             exists r, future_or_none w !! t = Some r /\ r ∈ finished w
                       /\ object_store w !! r = Some (f t)) ->
  exists w',
    map_m (result rt) l w
    = (w', match map_r f l with
           | Ok results => Returns results
           | Error e => Raises e
           end)
    /\ polled w w'.
Proof.
  revert w. induction l as [|t l IH]; intros w Hall; simpl.
  - exists w. split; [done | apply polled_refl].
  - destruct (Hall t) as (r & Hr & Hf & Ho); [by left |].
    unfold bind at 1. rewrite (result_finished t r (f t)) by done.
    pose proof (after_poll_finished w r Hf) as Hp.
    destruct (f t) as [a|e]; simpl; [| by eexists].
    destruct (IH (after_poll w r true)) as (w' & E & Hp').
    { intros t' Ht'. destruct (Hall t') as (r' & Hr' & Hf' & Ho'); [by right |].
      exists r'. destruct Hp as (-> & -> & _ & -> & _). done. }
    exists w'. unfold bind at 1. rewrite E. split; [| by eapply polled_trans].
    by destruct (map_r f l).
Qed.

Lemma map_r_all_Ok {X Y} (f : X -> pyresult Y) (g : X -> Y) l :
  (forall x, x ∈ l -> f x = Ok (g x)) -> map_r f l = Ok (map g l).
Proof.
  induction l as [|x l IH]; intros H; simpl; [done |].
  rewrite H by left. simpl. rewrite IH; [done |]. intros x' Hx'. apply H. by right.
Qed.

Lemma map_r_some_Error {X Y} (f : X -> pyresult Y) l x e :
  x ∈ l -> f x = Error e -> exists x' e', x' ∈ l /\ f x' = Error e' /\ map_r f l = Error e'.
Proof.
  induction l as [|y l IH]; intros Hin Hx; [by apply elem_of_nil in Hin |]. simpl.
  destruct (f y) as [b|e0] eqn:Ey; simpl.
  - apply elem_of_cons in Hin as [->|Hin]; [congruence |].
    destruct (IH Hin Hx) as (x' & e' & Hx' & Hf & ->).
    exists x', e'. split; [by right | done].
  - exists y, e0. split; [by left | done].
Qed.

Lemma filter_not_in_nil (T : list Task) : filter (fun t => t ∉ []) T = T.
Proof.
  induction T as [|t T IH]; [done |].
  rewrite filter_cons, decide_True by apply not_elem_of_nil. by rewrite IH.
Qed.


(** C8.  A bound handle is never rebound: [start] raises on a task that has
    started and leaves the state as it is; the body of the scheduler's
    start loop never raises and keeps every bound handle; so do a whole
    run of [run_tasks] and every sequence of calls on task objects,
    whatever they return or raise; and in every sequence of calls at most
    one [start] on a given task returns, that is, binds a handle. *)
Theorem future_handle_never_rebound :
  (forall t arg (w : World),
      is_Some (future_or_none w !! t) ->
      start rt t arg w = (w, Raises (Exception_ "Task has already started")))
  /\ (forall t (w : World),
        exists w', start_if_not_started rt t w = (w', Returns tt)
                   /\ forall t' r, future_or_none w !! t' = Some r ->
                                   future_or_none w' !! t' = Some r)
  /\ (forall fuel T D (w : World) t r,
        future_or_none w !! t = Some r ->
        future_or_none (run_tasks rt fuel T D w).1 !! t = Some r)
  /\ (forall calls (w : World) t r,
        future_or_none w !! t = Some r ->
        future_or_none (exec_calls rt calls w).1 !! t = Some r)
  /\ (forall t calls (w : World), n_bindings t (exec_calls rt calls w).2 <= 1).
Proof.
  split; [| split; [| split; [| split]]].
  - intros t arg w Hs. by apply start_started.
  - intros t w. destruct (start_if_not_started_returns t w) as (w' & E & _).
    exists w'. split; [done |].
    eapply preserves_start_if_not_started, E.
  - intros fuel T D w t r.
    destruct (run_tasks rt fuel T D w) as [w' o] eqn:E.
    apply (preserves_run_tasks _ _ _ _ _ _ E).
  - intros calls w. apply exec_calls_keeps.
  - intros t calls w. apply exec_calls_bindings.
Qed.

End Facts.

(** *** Three tasks in sequence, and a task that waits for itself *)

Lemma acyclic_of_rank D (rank : Task -> nat) :
  (forall td, td ∈ D -> rank (from_node td) < rank (to_node td)) ->
  acyclic D.
Proof.
  intros Hrank t Htc.
  assert (forall a b, tc (depends D) a b -> rank a < rank b) as Hlt.
  { intros a b H. induction H as [a b H|a b c H _ IH].
    - apply (Hrank _ H).
    - pose proof (Hrank _ H). simpl in *. lia. }
  specialize (Hlt t t Htc). lia.
Qed.

Example run_three_in_sequence :
  (run_tasks last_first_runtime 3 [0; 1; 2] three_in_sequence fresh_world).2
  = Returns [43; 44; 45].
Proof. vm_compute. reflexivity. Qed.

Example run_three_independent :
  (run_tasks last_first_runtime 3 [0; 1; 2] [] fresh_world).2
  = Returns [45; 44; 43].
Proof. vm_compute. reflexivity. Qed.

Lemma last_in_list (refs : list Future) : refs <> [] -> List.last refs 0 ∈ refs.
Proof.
  induction refs as [|r refs IH]; [done |]. intros _.
  destruct refs as [|r' refs']; [by left |].
  right. change (List.last (r' :: refs') 0 ∈ r' :: refs'). by apply IH.
Qed.

Lemma three_in_sequence_references : references_only three_in_sequence [0; 1; 2].
Proof.
  intros td Htd. unfold three_in_sequence in Htd.
  repeat (apply elem_of_cons in Htd as [->|Htd];
          [by (split; apply (bool_decide_unpack _); vm_compute) |]).
  by apply elem_of_nil in Htd.
Qed.

Lemma three_in_sequence_acyclic : acyclic three_in_sequence.
Proof.
  apply (acyclic_of_rank _ id). intros td Htd. unfold three_in_sequence in Htd.
  repeat (apply elem_of_cons in Htd as [->|Htd]; [simpl; unfold id; lia |]).
  by apply elem_of_nil in Htd.
Qed.



(** C1.  A task list in which no task can run at the first iteration: the
    single task [0] waits for itself.  The check for "unable to start any
    task" compares the iteration number with 0 after it was set to 1, so
    the designated error is not raised; the run fails in
    [_get_next_completed_task], whose assertion on the empty list of
    tasks fails. *)
Theorem run_tasks_blocked_graph_assertion_error
    {A Arg : Type} (rt : Runtime A Arg) (fuel : nat) :
  _task_can_run 0 [] self_dependency = false
  /\ run_tasks rt (S fuel) [0] self_dependency fresh_world
     = (after_print fresh_world (1, 1), Raises AssertionError)
  /\ (run_tasks rt (S fuel) [0] self_dependency fresh_world).2
     <> Raises (Exception_ "Check run dependencies, unable to start any task!").
Proof.
  assert (run_tasks rt (S fuel) [0] self_dependency fresh_world
          = (after_print fresh_world (1, 1), Raises AssertionError)) as E.
  { apply run_tasks_blocked.
    - done.
    - intros t _. simpl. by rewrite lookup_empty.
    - intros t ->%list_elem_of_singleton. reflexivity. }
  split; [reflexivity |]. split; [exact E |]. by rewrite E.
Qed.

(** *** Further properties of the task objects and of the scheduler *)

Section MoreFacts.

Context {A Arg : Type} (rt : Runtime A Arg).

Local Abbreviation World := (World A).
Local Abbreviation M := (@M A).

Lemma bind_Returns {X Y} (m : M X) (k : X -> M Y) (w w' : World) y :
  bind m k w = (w', Returns y) ->
  exists w1 x, m w = (w1, Returns x) /\ k x w1 = (w', Returns y).
Proof.
  unfold bind. destruct (m w) as [w1 [x| e |]]; [eauto | done | done].
Qed.

Lemma task_can_run_dependencies (t : Task) (D : TaskDependencies) completed :
  _task_can_run t completed D = true
  <-> forall td, td ∈ D -> to_node td = t -> from_node td ∈ completed.
Proof.
  split; [| apply task_can_run_true].
  unfold _task_can_run. intros Hall td Htd Hto.
  rewrite forallb_forall in Hall.
  apply (bool_decide_eq_true_1 _), Hall, list_elem_of_In, list_elem_of_fmap.
  exists td. split; [done |]. by apply list_elem_of_filter.
Qed.

(** X1.  A task can run exactly when the source of every dependency that
    points to it is among the completed tasks; so a task that can run can
    still run when more tasks have completed, and a task nothing points to
    can always run. *)
Theorem task_can_run_iff (t : Task) (D : TaskDependencies) :
  (forall completed,
      _task_can_run t completed D = true
      <-> forall td, td ∈ D -> to_node td = t -> from_node td ∈ completed)
  /\ (forall completed completed',
        (forall x, x ∈ completed -> x ∈ completed') ->
        _task_can_run t completed D = true -> _task_can_run t completed' D = true)
  /\ ((forall td, td ∈ D -> to_node td <> t) ->
      forall completed, _task_can_run t completed D = true).
Proof.
  pose proof (task_can_run_dependencies t D) as Hiff.
  split; [exact Hiff |]. split.
  - intros completed completed' Hsub. rewrite !Hiff. intros H td Htd Hto.
    by apply Hsub, H.
  - intros Hnone completed. apply Hiff. intros td Htd Hto. by destruct (Hnone td Htd).
Qed.

Lemma get_ref_unstarted t (w : World) :
  future_or_none w !! t = None ->
  get_ref t w = (w, Raises (Exception_ "Task has not started")).
Proof.
  intros Hn. unfold get_ref, bind, has_started.
  rewrite bool_decide_eq_false_2; [done |]. rewrite Hn. by intros [? ?].
Qed.

(** X2.  On a task that has not started, [has_started] and [has_completed]
    answer no, [get_ref] raises "Task has not started" and [result] raises
    "Result has not finished ..."; none of the four changes the state. *)
Theorem calls_on_unstarted_task (t : Task) (w : World) :
  future_or_none w !! t = None ->
  has_started t w = (w, Returns false)
  /\ has_completed rt t w = (w, Returns false)
  /\ get_ref t w = (w, Raises (Exception_ "Task has not started"))
  /\ result rt t w
     = (w, Raises (Exception_
                    "Result has not finished. Calling ray.get would block execution")).
Proof.
  intros Hn.
  assert (has_started t w = (w, Returns false)) as Hs.
  { unfold has_started. rewrite bool_decide_eq_false_2; [done |].
    rewrite Hn. by intros [? ?]. }
  assert (has_completed rt t w = (w, Returns false)) as Hc.
  { unfold has_completed, bind. by rewrite Hs. }
  repeat split; try done.
  - unfold get_ref, bind. by rewrite Hs.
  - unfold result, bind. by rewrite Hc.
Qed.

(** X3.  Starting a task that has not started binds the handle the runtime
    hands out next; [get_ref] then gives that handle.  [has_completed] then
    asks the runtime with a zero-timeout wait and answers what the runtime
    answers: yes when the task has finished by then, which it may have at
    once.  [result] raises "Result has not finished ..." when the answer is
    no; when it is yes, and also once a blocking wait has reported the
    handle, [result] returns the value the task's callable resolved to on
    the arguments of [start], or raises the exception the callable
    raised. *)
Theorem start_then_result (t : Task) (arg : Arg) (w : World) :
  future_or_none w !! t = None ->
  let r := next_future w in
  let started := after_start rt w t arg in
  let ready := bool_decide (r ∈ finished w) || ray_ready rt (n_polls w) r in
  let outcome :=
    match f_remote rt t arg with
    | Ok a => Returns a
    | Error e => Raises e
    end in
  start rt t arg w = (started, Returns tt)
  /\ get_ref t started = (started, Returns r)
  /\ has_completed rt t started = (after_poll started r ready, Returns ready)
  /\ result rt t started
     = (after_poll started r ready,
        if ready then outcome
        else Raises (Exception_
                       "Result has not finished. Calling ray.get would block execution"))
  /\ result rt t (after_wait started r)
     = (after_poll (after_wait started r) r true, outcome).
Proof.
  intros Hn r started ready outcome.
  assert (future_or_none started !! t = Some r) as Hr
    by (simpl; apply lookup_insert_eq).
  assert (object_store started !! r = Some (f_remote rt t arg)) as Ho
    by (simpl; apply lookup_insert_eq).
  split; [by apply start_unstarted |].
  split; [by apply get_ref_started |].
  split; [by apply (has_completed_started rt t r) |].
  split; [by apply (result_started rt t r) |].
  apply (result_finished rt t r); [done | | done].
  simpl. apply elem_of_union_l. by apply elem_of_singleton.
Qed.

Lemma ref_to_task_unstarted l d t (w : World) :
  t ∈ l -> future_or_none w !! t = None ->
  ref_to_task l d w = (w, Raises (Exception_ "Task has not started")).
Proof.
  revert d. induction l as [|t' l IH]; intros d Hin Hn; [by apply elem_of_nil in Hin |].
  simpl. unfold bind.
  destruct (future_or_none w !! t') as [r'|] eqn:E.
  - rewrite (get_ref_started t' r') by done. apply IH; [| done].
    apply elem_of_cons in Hin as [->|Hin]; [congruence | done].
  - by rewrite get_ref_unstarted.
Qed.

Lemma ref_to_task_values l d (w w' : World) d' :
  ref_to_task l d w = (w', Returns d') ->
  forall r t, dict_get r d' = Some t -> dict_get r d = Some t \/ t ∈ l.
Proof.
  revert d w. induction l as [|t0 l IH]; intros d w; simpl.
  - intros [= _ <-] r t. by left.
  - intros (w1 & r0 & _ & Hrest)%bind_Returns r t Hget.
    destruct (IH _ _ Hrest r t Hget) as [Hold|Hin]; [| right; by right].
    rewrite dict_get_set in Hold. case_decide.
    + injection Hold as <-. right. by left.
    + by left.
Qed.

Lemma get_next_member l (w w' : World) t :
  _get_next_completed_task rt l w = (w', Returns t) -> t ∈ l.
Proof.
  unfold _get_next_completed_task.
  intros (w1 & _ & _ & (w2 & d & Hd & (w3 & refs & _ & (w4 & _ & _ & Hlast
    )%bind_Returns)%bind_Returns)%bind_Returns)%bind_Returns.
  destruct refs as [|r refs]; [done |].
  destruct (dict_get r d) as [t'|] eqn:Eg; [| done].
  injection Hlast as _ <-.
  by destruct (ref_to_task_values _ _ _ _ _ Hd r t' Eg).
Qed.

(** X4.  [_get_next_completed_task] fails its assertion on an empty list,
    and raises "Task has not started", leaving the state as it is, when a
    task of the list has not started.  When all of them have started and
    the runtime's wait reports one of the handles it is given, it returns a
    task of the list, the one that holds the reported handle, and changes
    the state only by the runtime's record of that wait.  Whenever it
    returns, the task returned is one of the list. *)
Theorem get_next_completed_task_spec (l : list Task) (w : World) :
  _get_next_completed_task rt [] w = (w, Raises AssertionError)
  /\ (forall t, t ∈ l -> future_or_none w !! t = None ->
        _get_next_completed_task rt l w
        = (w, Raises (Exception_ "Task has not started")))
  /\ (wait_contract rt -> l <> [] ->
      (forall t, t ∈ l -> is_Some (future_or_none w !! t)) ->
      exists t r,
        _get_next_completed_task rt l w = (after_wait w r, Returns t)
        /\ t ∈ l /\ future_or_none w !! t = Some r)
  /\ (forall w' t, _get_next_completed_task rt l w = (w', Returns t) -> t ∈ l).
Proof.
  split; [done |]. split; [| split].
  - intros t Hin Hn. unfold _get_next_completed_task.
    destruct l as [|t0 l0] eqn:El; [by apply elem_of_nil in Hin |]. rewrite <- El in *.
    assert ((0 <? length l) = true) as -> by (by rewrite El).
    unfold bind at 1. simpl assert_. unfold ret at 1.
    unfold bind at 1. by rewrite (ref_to_task_unstarted l [] t w).
  - apply get_next_spec.
  - intros w' t. apply get_next_member.
Qed.

(** X5.  [run_tasks] asserts that no task has started: with a task of the
    list that has, it raises [AssertionError] before anything is printed,
    started or waited for. *)
Theorem run_tasks_started_task (fuel : nat) (T : list Task) (D : TaskDependencies)
    (w : World) (t : Task) :
  t ∈ T -> is_Some (future_or_none w !! t) ->
  run_tasks rt fuel T D w = (w, Raises AssertionError).
Proof.
  intros Hin Hs. unfold run_tasks. unfold bind at 1. rewrite map_m_has_started.
  assert (forallb negb
            (map (fun t => bool_decide (is_Some (future_or_none w !! t))) T) = false) as E.
  { induction T as [|t0 T IH]; [by apply elem_of_nil in Hin |]. simpl.
    apply elem_of_cons in Hin as [<-|Hin].
    - by rewrite bool_decide_eq_true_2.
    - rewrite IH by done. apply andb_false_r. }
  unfold bind at 1. by rewrite E.
Qed.

(** *** The order of completion *)

Lemma start_all_returns l (w : World) :
  exists w',
    for_each (start_if_not_started rt) l w = (w', Returns tt)
    /\ forall t, t ∈ l -> is_Some (future_or_none w' !! t).
Proof.
  revert w. induction l as [|t l IH]; intros w; simpl.
  - exists w. split; [done |]. by intros t ?%elem_of_nil.
  - destruct (start_if_not_started_returns rt t w) as (w1 & E1 & [r Hr]).
    destruct (IH w1) as (w2 & E2 & Hall).
    exists w2. unfold bind. rewrite E1. split; [done |].
    intros t' [->|Hin]%elem_of_cons; [| by apply Hall].
    exists r. eapply preserves_for_each; [| exact E2 | exact Hr].
    intros x. apply preserves_start_if_not_started.
Qed.

Lemma dependencies_first_snoc D completed t :
  dependencies_first D completed ->
  _task_can_run t completed D = true ->
  dependencies_first D (completed ++ [t]).
Proof.
  intros Hdf Hrun i b Hi td Htd Hto.
  destruct (decide (i < length completed)) as [Hlt|Hge].
  - rewrite lookup_app_l in Hi by done.
    rewrite take_app_le by lia. by eapply Hdf.
  - assert (i = length completed) as ->.
    { apply lookup_lt_Some in Hi. rewrite length_app in Hi. simpl in Hi. lia. }
    rewrite list_lookup_middle in Hi by done. injection Hi as <-.
    rewrite take_app_length.
    by apply (proj1 (task_can_run_dependencies t D completed) Hrun).
Qed.

Lemma while_loop_returns T D fuel completed nc k (w w' : World) completed' :
  dependencies_first D completed ->
  (forall t, t ∈ completed -> t ∈ T) ->
  (forall t, t ∈ nc -> t ∈ T) ->
  (forall t, t ∈ T -> t ∉ completed -> t ∈ nc) ->
  while_loop rt fuel T D completed nc k w = (w', Returns completed') ->
  dependencies_first D completed'
  /\ forall t, t ∈ completed' <-> t ∈ T.
Proof.
  revert completed nc k w.
  induction fuel as [|fuel IH]; intros completed nc k w Hdf Hsub Hnc Hcov.
  all: destruct nc as [|y nc'] eqn:E.
  all: try (rewrite while_loop_done; intros [= _ <-]; split; [done |];
            intros t; split; [by apply Hsub |]; intros Ht;
            destruct (decide (t ∈ completed)) as [|Hn]; [done |];
            by apply Hcov, elem_of_nil in Hn).
  - done.
  - rewrite <- E in *. rewrite while_loop_step by (rewrite E; done).
    intros (w1 & _ & _ & (w2 & _ & _ & (w3 & t & Hnext & Hrest
      )%bind_Returns)%bind_Returns)%bind_Returns.
    apply get_next_member, list_elem_of_filter in Hnext as [Hrun Htnc].
    apply (IH _ _ _ _) in Hrest; [done | | | |].
    + by apply dependencies_first_snoc.
    + intros x [Hx| ->%list_elem_of_singleton]%elem_of_app; [by apply Hsub | by apply Hnc].
    + by intros x [_ Hx]%list_elem_of_filter.
    + intros x Hx Hnot. by apply list_elem_of_filter.
Qed.

Lemma while_loop_from_start_returns fuel T D (w w' : World) completed :
  while_loop rt fuel T D [] T 0 w = (w', Returns completed) ->
  dependencies_first D completed
  /\ (forall t, t ∈ completed <-> t ∈ T).
Proof.
  apply while_loop_returns.
  - intros i b Hi. by rewrite lookup_nil in Hi.
  - by intros t ?%elem_of_nil.
  - done.
  - done.
Qed.

(** X6.  Whenever the scheduler's loop returns, the list of completed tasks
    holds exactly the tasks of [all_tasks], and every task comes in it after
    all the tasks it depends on: a task is completed only after its
    dependencies, whatever the runtime does. *)
Theorem completion_respects_dependencies (fuel : nat) (T : list Task)
    (D : TaskDependencies) (w w' : World) (completed : list Task) :
  while_loop rt fuel T D [] T 0 w = (w', Returns completed) ->
  dependencies_first D completed
  /\ (forall t, t ∈ completed <-> t ∈ T).
Proof. apply while_loop_from_start_returns. Qed.

Lemma dependencies_first_earlier D l a b :
  dependencies_first D l -> tc (depends D) a b ->
  forall i, l !! i = Some b -> exists j, j < i /\ l !! j = Some a.
Proof.
  intros Hdf Htc. induction Htc as [a b Hab|a c b Hac _ IH]; intros i Hi.
  - pose proof (Hdf i b Hi (Edge a b) Hab eq_refl) as Hin. simpl in Hin.
    apply list_elem_of_lookup in Hin as [j Hj].
    apply lookup_take_Some in Hj as [Hj Hlt]. eauto.
  - destruct (IH i Hi) as (j & Hlt & Hj).
    pose proof (Hdf j c Hj (Edge a c) Hac eq_refl) as Hin. simpl in Hin.
    apply list_elem_of_lookup in Hin as [j' Hj'].
    apply lookup_take_Some in Hj' as [Hj' Hlt']. exists j'. split; [lia | done].
Qed.

Lemma dependencies_first_no_cycle D l t :
  dependencies_first D l -> t ∈ l -> ~ tc (depends D) t t.
Proof.
  intros Hdf [i Hi]%list_elem_of_lookup Htc.
  induction i as [i IH] using lt_wf_ind.
  destruct (dependencies_first_earlier D l t t Hdf Htc i Hi) as (j & Hlt & Hj).
  by apply (IH j).
Qed.

Lemma start_all_started l (w : World) :
  exists w',
    for_each (start_if_not_started rt) l w = (w', Returns tt)
    /\ keeps w w' /\ finished w' = finished w
    /\ (forall t, t ∈ l -> is_Some (future_or_none w' !! t))
    /\ (forall t, is_Some (future_or_none w' !! t) ->
                  is_Some (future_or_none w !! t) \/ t ∈ l).
Proof.
  revert w. induction l as [|t l IH]; intros w; simpl.
  - exists w. split; [done |]. split; [by intros ? ? |]. split; [done |].
    split; [by intros t ?%elem_of_nil | by left].
  - assert (exists w1, start_if_not_started rt t w = (w1, Returns tt)
                       /\ keeps w w1 /\ finished w1 = finished w
                       /\ is_Some (future_or_none w1 !! t)
                       /\ (forall t', is_Some (future_or_none w1 !! t') ->
                                      is_Some (future_or_none w !! t') \/ t' = t))
      as (w1 & E1 & Hk1 & Hf1 & Hs1 & Hold1).
    { unfold start_if_not_started, bind, has_started.
      destruct (future_or_none w !! t) as [r|] eqn:E.
      - rewrite bool_decide_eq_true_2 by eauto. simpl. exists w.
        split; [done |]. split; [by intros ? ? |]. split; [done |].
        split; [rewrite E; eauto | by left].
      - rewrite bool_decide_eq_false_2 by (by intros [? ?]). simpl.
        rewrite start_unstarted by done. eexists. split; [done |]. simpl.
        split; [| split; [done | split]].
        + intros t' r' H. simpl. rewrite lookup_insert_ne; [done | congruence].
        + rewrite lookup_insert_eq. eauto.
        + intros t'. destruct (decide (t = t')) as [->|Hne]; [by right |].
          rewrite lookup_insert_ne by done. by left. }
    destruct (IH w1) as (w2 & E2 & Hk2 & Hf2 & Hs2 & Hold2).
    exists w2. unfold bind. rewrite E1. split; [done |].
    split; [intros t' r' H; by apply Hk2, Hk1 |]. split; [congruence |]. split.
    + intros t' [->|Hin]%elem_of_cons; [| by apply Hs2].
      destruct Hs1 as [r Hr]. exists r. by apply Hk2.
    + intros t' [Hw1|Hin]%Hold2; [| right; by right].
      destruct (Hold1 t' Hw1) as [?| ->]; [by left | right; by left].
Qed.

Lemma task_cannot_run t completed D :
  _task_can_run t completed D = false ->
  exists td, td ∈ D /\ to_node td = t /\ from_node td ∉ completed.
Proof.
  intros Hno.
  destruct (decide (Exists (fun td => to_node td = t /\ from_node td ∉ completed) D))
    as [Hex|Hnex].
  - apply Exists_exists in Hex as (td & Htd & Hto & Hfrom). by exists td.
  - rewrite task_can_run_true in Hno; [done |]. intros td Htd Hto.
    destruct (decide (from_node td ∈ completed)) as [|Hnot]; [done |].
    destruct Hnex. apply Exists_exists. by exists td.
Qed.

Lemma unfinished_blocked D T completed n (S : gset Task) x :
  (forall t, t ∈ T -> t ∉ completed -> _task_can_run t completed D = false) ->
  size S <= n -> x ∈ S ->
  (forall z, z ∈ S -> z ∈ T /\ z ∉ completed) ->
  (forall z, z ∈ T -> z ∉ completed -> z ∉ S -> tc (depends D) x z) ->
  blocked D T x.
Proof.
  intros Hno. revert S x. induction n as [|n IH]; intros S x Hsize Hx HS Hseen.
  - assert (size S = 0) as Hz%size_empty_iff by lia.
    rewrite Hz in Hx. by apply not_elem_of_empty in Hx.
  - destruct (HS x Hx) as [HxT Hxc].
    destruct (task_cannot_run x completed D (Hno x HxT Hxc))
      as ([p x'] & Htd & Hto & Hfrom). simpl in *. subst x'.
    destruct (decide (p ∈ T)) as [HpT|HpT];
      [| exists x; split; [done |]; right; by exists (Edge p x)].
    destruct (decide (p = x)) as [->|Hpx];
      [exists x; split; [done |]; left; by apply tc_once |].
    destruct (decide (p ∈ S)) as [HpS|HpS].
    + destruct (IH (S ∖ {[ x ]}) p) as (s & Hrtc & Hstuck).
      * pose proof (subset_size _ _ (subset_difference_elem_of _ _ Hx)). lia.
      * apply elem_of_difference. split; [done | by intros ?%elem_of_singleton].
      * intros z [Hz _]%elem_of_difference. by apply HS.
      * intros z HzT Hzc Hz. destruct (decide (z = x)) as [->|Hzx]; [by apply tc_once |].
        eapply tc_l; [exact Htd |]. apply Hseen; [done | done |].
        intros HzS. apply Hz. apply elem_of_difference.
        split; [done | by intros ?%elem_of_singleton].
      * exists s. split; [| done]. eapply rtc_r; [exact Hrtc | exact Htd].
    + exists x. split; [done |]. left.
      eapply tc_r; [by apply Hseen | exact Htd].
Qed.

Lemma completed_not_blocked D T l t :
  dependencies_first D l -> (forall x, x ∈ l -> x ∈ T) -> t ∈ l -> ~ blocked D T t.
Proof.
  intros Hdf Hsub Ht (s & Hrtc & Hstuck).
  assert (s ∈ l) as Hs.
  { apply rtc_tc in Hrtc as [->|Htc]; [done |].
    apply list_elem_of_lookup in Ht as [i Hi].
    destruct (dependencies_first_earlier D l s t Hdf Htc i Hi) as (j & _ & Hj).
    by eapply list_elem_of_lookup_2. }
  destruct Hstuck as [Hcycle|(td & Htd & Hto & Hfrom)].
  - by apply (dependencies_first_no_cycle D l s).
  - apply Hfrom, Hsub. apply list_elem_of_lookup in Hs as [i Hi].
    pose proof (Hdf i s Hi td Htd Hto) as (j & Hj & _)%elem_of_take.
    by eapply list_elem_of_lookup_2.
Qed.

Lemma while_loop_outcome T D :
  wait_contract rt ->
  forall fuel completed (w : World),
    NoDup completed -> (forall t, t ∈ completed -> t ∈ T) ->
    length T <= fuel + length completed ->
    dependencies_first D completed ->
    all_finished w completed ->
    (forall t, t ∈ T -> is_Some (future_or_none w !! t) ->
               _task_can_run t completed D = true) ->
    exists w' o,
      while_loop rt fuel T D completed (filter (fun t => t ∉ completed) T)
        (length completed) w = (w', o)
      /\ ((exists completed', o = Returns completed')
          \/ (o = Raises AssertionError
              /\ exists ran,
                   dependencies_first D ran
                   /\ (forall t, t ∈ ran -> t ∈ T)
                   /\ all_finished w' ran
                   /\ (forall t, t ∈ T -> t ∉ ran ->
                                 _task_can_run t ran D = false
                                 /\ future_or_none w' !! t = None))).
Proof.
  intros Hwait.
  induction fuel as [|fuel IH]; intros completed w Hnd Hsub Hlen Hdf Hfin Hinv.
  all: destruct (filter (fun t => t ∉ completed) T) as [|y nc'] eqn:E.
  all: try (rewrite while_loop_done; exists w; eexists; split; [done |]; left; by eexists).
  all: assert (y ∈ T /\ y ∉ completed) as [HyT Hyc]
         by (assert (y ∈ filter (fun t => t ∉ completed) T) as Hy by (rewrite E; by left);
             apply list_elem_of_filter in Hy; tauto).
  all: assert (S (length completed) <= length T) as Hlt
         by (change (length (y :: completed) <= length T);
             apply submseteq_length, NoDup_submseteq;
             [ by apply NoDup_cons
             | intros x [->|Hx]%elem_of_cons; [done | by apply Hsub] ]).
  - lia.
  - rewrite <- E. rewrite while_loop_step by (rewrite E; done).
    set (NC := filter (fun t => t ∉ completed) T) in *.
    remember (filter (fun t => _task_can_run t completed D = true) NC) as run eqn:Hrun.
    unfold bind at 1. unfold print at 1.
    fold (after_print w (S (length completed), length T)).
    destruct (start_all_started run (after_print w (S (length completed), length T)))
      as (w2 & E2 & Hk2 & Hf2 & Hs2 & Hold2).
    unfold bind at 1. rewrite E2.
    assert (all_finished w2 completed) as Hfin2.
    { intros x Hx. destruct (Hfin x Hx) as (rx & Hrx & Hrf). exists rx.
      split; [by apply Hk2 | by rewrite Hf2]. }
    assert (forall x, x ∈ T -> is_Some (future_or_none w2 !! x) ->
                      _task_can_run x completed D = true) as Hinv2.
    { intros x HxT [Hw|Hx]%Hold2; [by apply Hinv |].
      rewrite Hrun in Hx. by apply list_elem_of_filter in Hx as [? _]. }
    destruct (decide (run = [])) as [->|Hne].
    + exists w2, (Raises AssertionError). split; [reflexivity |]. right.
      split; [done |]. exists completed.
      split; [done |]. split; [done |]. split; [done |].
      intros x HxT Hxc.
      assert (_task_can_run x completed D = false) as Hno.
      { destruct (_task_can_run x completed D) eqn:Ex; [| done].
        assert (x ∈ filter (fun t => _task_can_run t completed D = true) NC) as Hin.
        { apply list_elem_of_filter. split; [done |]. by apply list_elem_of_filter. }
        rewrite <- Hrun in Hin. by apply elem_of_nil in Hin. }
      split; [done |].
      destruct (future_or_none w2 !! x) as [rx|] eqn:Ex; [| done].
      rewrite Hinv2 in Hno; [done | done | by rewrite Ex].
    + destruct (get_next_spec rt run w2 Hwait Hne Hs2) as (t & r & E3 & Htrun & Htr).
      unfold bind at 1. rewrite E3.
      rewrite Hrun in Htrun.
      apply list_elem_of_filter in Htrun as [Htcan HtNC].
      apply list_elem_of_filter in HtNC as [Htc HtT].
      destruct (IH (completed ++ [t]) (after_wait w2 r)) as (w' & o & Hout & Ho).
      * apply NoDup_app. split; [done |]. split; [| apply NoDup_singleton].
        intros x Hx ->%list_elem_of_singleton. done.
      * intros x [Hx| ->%list_elem_of_singleton]%elem_of_app; [by apply Hsub | done].
      * rewrite length_app. simpl. lia.
      * by apply dependencies_first_snoc.
      * intros x [Hx| ->%list_elem_of_singleton]%elem_of_app.
        -- destruct (Hfin2 x Hx) as (rx & Hrx & Hrf). exists rx. split; [done |].
           simpl. by apply elem_of_union_r.
        -- exists r. split; [exact Htr |]. simpl. apply elem_of_union_l.
           by apply elem_of_singleton.
      * intros x HxT Hx. simpl in Hx.
        apply task_can_run_dependencies. intros td Htd Hto.
        apply elem_of_app. left.
        by apply (proj1 (task_can_run_dependencies x D completed) (Hinv2 x HxT Hx)).
      * rewrite length_app in Hout. simpl in Hout. rewrite Nat.add_1_r in Hout.
        exists w', o. split; [exact Hout | exact Ho].
Qed.

(** X7.  A dependency graph that blocks a task for ever, because the task
    lies on a cycle or depends on a task that is not in the list, never
    makes [run_tasks] return; and when no task has started, the runtime's
    wait reports one of the handles it is given and the loop bound allows
    [length all_tasks] iterations, [run_tasks] does not hang either: it
    raises [AssertionError], after running exactly the tasks that are not
    blocked: in the final state every task of the list that is not blocked
    has a handle that the runtime reported finished, and no blocked task
    was started. *)
Theorem run_tasks_blocked_task_raises (fuel : nat) (T : list Task)
    (D : TaskDependencies) (w : World) (t : Task) :
  t ∈ T ->
  (tc (depends D) t t
   \/ exists td, td ∈ D /\ to_node td = t /\ from_node td ∉ T) ->
  (forall w' results, run_tasks rt fuel T D w <> (w', Returns results))
  /\ (wait_contract rt ->
      (forall t', t' ∈ T -> future_or_none w !! t' = None) ->
      length T <= fuel ->
      exists w',
        run_tasks rt fuel T D w = (w', Raises AssertionError)
        /\ forall t', t' ∈ T ->
              (blocked D T t' -> future_or_none w' !! t' = None)
              /\ (~ blocked D T t' ->
                  exists r, future_or_none w' !! t' = Some r /\ r ∈ finished w')).
Proof.
  intros HtT Hblocked.
  assert (Hloop : forall w1 w2 completed,
             while_loop rt fuel T D [] T 0 w1 <> (w2, Returns completed)).
  { intros w1 w2 completed Hret.
    apply while_loop_from_start_returns in Hret as [Hdf Hall].
    destruct Hblocked as [Hcycle|(td & Htd & Hto & Hfrom)].
    - apply (dependencies_first_no_cycle D completed t); [done | by apply Hall | done].
    - apply Hfrom, Hall.
      assert (t ∈ completed) as [i Hi]%list_elem_of_lookup by (by apply Hall).
      pose proof (Hdf i t Hi td Htd Hto) as (j & Hj & _)%elem_of_take.
      apply list_elem_of_lookup. eauto. }
  split.
  - intros w' results. unfold run_tasks.
    intros (w1 & _ & _ & (w2 & _ & _ & (w3 & completed & Hret & _
      )%bind_Returns)%bind_Returns)%bind_Returns.
    by apply Hloop in Hret.
  - intros Hwait Hns Hfuel. unfold run_tasks.
    unfold bind at 1. rewrite map_m_has_started.
    unfold bind at 1. rewrite not_started_precondition by done.
    simpl assert_. unfold ret at 1.
    destruct (while_loop_outcome T D Hwait fuel [] w) as (w' & o & E & Ho).
    + apply NoDup_nil_2.
    + by intros x ?%elem_of_nil.
    + simpl. lia.
    + intros i b Hi. by rewrite lookup_nil in Hi.
    + by intros x ?%elem_of_nil.
    + intros x Hx [r Hr]. by rewrite Hns in Hr.
    + rewrite filter_not_in_nil in E. simpl in E.
      destruct Ho as [[completed ->]|(-> & ran & Hdf & Hsub & Hfin & Hrest)];
        [by apply Hloop in E |].
      exists w'. unfold bind at 1. rewrite E. split; [done |].
      intros t' Ht'. destruct (decide (t' ∈ ran)) as [Hin|Hnot].
      * split; [intros Hb; by destruct (completed_not_blocked D T ran t') |].
        intros _. by apply Hfin.
      * split; [intros _; by apply Hrest |].
        intros Hnb. destruct Hnb.
        apply (unfinished_blocked D T ran
                 (size (list_to_set (filter (fun x => x ∉ ran) T) : gset Task))
                 (list_to_set (filter (fun x => x ∉ ran) T))).
        -- intros x Hx Hxd. by apply Hrest.
        -- done.
        -- apply elem_of_list_to_set. by apply list_elem_of_filter.
        -- intros z Hz%elem_of_list_to_set. apply list_elem_of_filter in Hz. tauto.
        -- intros z HzT Hzd Hz. destruct Hz. apply elem_of_list_to_set.
           by apply list_elem_of_filter.
Qed.

End MoreFacts.

Lemma calls_on_unstarted_task_witness :
  has_started 0 (fresh_world (A := nat)) = (fresh_world, Returns false)
  /\ has_completed last_first_runtime 0 fresh_world = (fresh_world, Returns false)
  /\ get_ref 0 (fresh_world (A := nat))
     = (fresh_world, Raises (Exception_ "Task has not started"))
  /\ result last_first_runtime 0 fresh_world
     = (fresh_world,
        Raises (Exception_
                  "Result has not finished. Calling ray.get would block execution")).
Proof.
  apply (calls_on_unstarted_task last_first_runtime 0 fresh_world).
  simpl. apply lookup_empty.
Defined.

Lemma start_then_result_witness :
  let polled_once := after_poll (fresh_world (A := nat)) 0 false in
  let started := after_start failing_runtime polled_once 1 tt in
  start failing_runtime 1 tt polled_once = (started, Returns tt)
  /\ get_ref 1 started = (started, Returns 0)
  /\ has_completed failing_runtime 1 started = (after_poll started 0 true, Returns true)
  /\ result failing_runtime 1 started
     = (after_poll started 0 true, Raises (Exception_ "boom!"))
  /\ result failing_runtime 1 (after_wait started 0)
     = (after_poll (after_wait started 0) 0 true, Raises (Exception_ "boom!")).
Proof.
  apply (start_then_result failing_runtime 1 tt (after_poll fresh_world 0 false)).
  simpl. apply lookup_empty.
Defined.

Lemma completion_respects_dependencies_witness :
  dependencies_first three_in_sequence [0; 1; 2]
  /\ (forall t, t ∈ [0; 1; 2] <-> t ∈ [0; 1; 2]).
Proof.
  eapply (completion_respects_dependencies last_first_runtime 3 [0; 1; 2]
            three_in_sequence fresh_world).
  vm_compute. reflexivity.
Defined.

Example run_cycle_beside_free_task :
  let '(w', o) := run_tasks last_first_runtime 3 [0; 1; 2] cycle_beside_free_task
                    fresh_world in
  o = Raises AssertionError /\ stdout w' = [(1, 3); (2, 3)] /\ n_waits w' = 1.
Proof. vm_compute. done. Qed.

Lemma run_tasks_blocked_task_raises_witness :
  exists w',
    run_tasks last_first_runtime 3 [0; 1; 2] cycle_beside_free_task fresh_world
    = (w', Raises AssertionError)
    /\ forall t', t' ∈ [0; 1; 2] ->
          (blocked cycle_beside_free_task [0; 1; 2] t' -> future_or_none w' !! t' = None)
          /\ (~ blocked cycle_beside_free_task [0; 1; 2] t' ->
              exists r, future_or_none w' !! t' = Some r /\ r ∈ finished w').
Proof.
  apply (proj2 (run_tasks_blocked_task_raises last_first_runtime 3 [0; 1; 2]
                  cycle_beside_free_task fresh_world 1
                  ltac:(right; by left)
                  ltac:(left; apply (tc_l _ 1 2 1); [by left | apply tc_once; right; by left]))).
  - intros k refs. apply last_in_list.
  - intros t _. simpl. apply lookup_empty.
  - simpl. lia.
Defined.

Lemma run_tasks_started_task_witness :
  run_tasks last_first_runtime 3 [0; 1] [] (after_start last_first_runtime fresh_world 1 tt)
  = (after_start last_first_runtime fresh_world 1 tt, Raises AssertionError).
Proof.
  apply (run_tasks_started_task last_first_runtime 3 [0; 1] []
           (after_start last_first_runtime fresh_world 1 tt) 1).
  - right. by left.
  - simpl. rewrite lookup_insert_eq. eauto.
Defined.

End DagRunnerFacts.

(** ** The span parser *)

Module SpanParserFacts.
Import SpanParser.

(** *** The order on strings *)

Lemma ascii_compare_refl c : Ascii.compare c c = Eq.
Proof. unfold Ascii.compare. apply N.compare_refl. Qed.

Lemma ascii_compare_lt_trans a b c :
  Ascii.compare a b = Lt -> Ascii.compare b c = Lt -> Ascii.compare a c = Lt.
Proof.
  unfold Ascii.compare. rewrite !N.compare_lt_iff. lia.
Qed.

Lemma string_compare_refl s : String.compare s s = Eq.
Proof. induction s as [|c s IH]; simpl; [done |]. by rewrite ascii_compare_refl. Qed.

Lemma string_compare_lt_trans a b c :
  String.compare a b = Lt -> String.compare b c = Lt -> String.compare a c = Lt.
Proof.
  revert b c. induction a as [|x a IH]; intros [|y b] [|z c]; simpl; try done.
  destruct (Ascii.compare x y) eqn:Exy; try done.
  - apply Ascii.compare_eq_iff in Exy as ->.
    destruct (Ascii.compare y z); try done. apply IH.
  - destruct (Ascii.compare y z) eqn:Eyz; try done.
    + apply Ascii.compare_eq_iff in Eyz as <-. by rewrite Exy.
    + by rewrite (ascii_compare_lt_trans x y z).
Qed.

Lemma leb_refl s : String.leb s s = true.
Proof. unfold String.leb. by rewrite string_compare_refl. Qed.

Lemma leb_trans a b c :
  String.leb a b = true -> String.leb b c = true -> String.leb a c = true.
Proof.
  unfold String.leb.
  destruct (String.compare a b) eqn:Eab; try done;
    destruct (String.compare b c) eqn:Ebc; try done; intros _ _.
  - apply String.compare_eq_iff in Eab as ->. by rewrite Ebc.
  - apply String.compare_eq_iff in Eab as ->. by rewrite Ebc.
  - apply String.compare_eq_iff in Ebc as <-. by rewrite Eab.
  - by rewrite (string_compare_lt_trans a b c).
Qed.

Lemma ltb_leb a b : String.ltb a b = true -> String.leb a b = true.
Proof. unfold String.ltb, String.leb. by destruct (String.compare a b). Qed.

Lemma not_ltb_leb a b : String.ltb a b = false -> String.leb b a = true.
Proof.
  unfold String.ltb, String.leb. rewrite (String.compare_antisym b a).
  by destruct (String.compare a b).
Qed.

(** *** [min] and [max] *)

Lemma min_fold_spec l best :
  let m := foldl (fun best y => if String.ltb y best then y else best) best l in
  (m = best \/ m ∈ l) /\ String.leb m best = true
  /\ forall y, y ∈ l -> String.leb m y = true.
Proof.
  revert best. induction l as [|x l IH]; intros best; simpl.
  - split; [by left |]. split; [apply leb_refl |]. by intros y ?%elem_of_nil.
  - destruct (String.ltb x best) eqn:E.
    + destruct (IH x) as (Hin & Hle & Hall).
      split; [destruct Hin as [->|Hin]; right; [by left | by right] |].
      split; [eapply leb_trans; [exact Hle | by apply ltb_leb] |].
      intros y [->|Hy]%elem_of_cons; [done | by apply Hall].
    + destruct (IH best) as (Hin & Hle & Hall).
      split; [destruct Hin as [->|Hin]; [by left | right; by right] |].
      split; [done |].
      intros y [->|Hy]%elem_of_cons; [| by apply Hall].
      eapply leb_trans; [exact Hle | by apply not_ltb_leb].
Qed.

Lemma max_fold_spec l best :
  let m := foldl (fun best y => if String.ltb best y then y else best) best l in
  (m = best \/ m ∈ l) /\ String.leb best m = true
  /\ forall y, y ∈ l -> String.leb y m = true.
Proof.
  revert best. induction l as [|x l IH]; intros best; simpl.
  - split; [by left |]. split; [apply leb_refl |]. by intros y ?%elem_of_nil.
  - destruct (String.ltb best x) eqn:E.
    + destruct (IH x) as (Hin & Hle & Hall).
      split; [destruct Hin as [->|Hin]; right; [by left | by right] |].
      split; [eapply leb_trans; [by apply ltb_leb | exact Hle] |].
      intros y [->|Hy]%elem_of_cons; [done | by apply Hall].
    + destruct (IH best) as (Hin & Hle & Hall).
      split; [destruct Hin as [->|Hin]; [by left | right; by right] |].
      split; [done |].
      intros y [->|Hy]%elem_of_cons; [| by apply Hall].
      eapply leb_trans; [by apply not_ltb_leb | exact Hle].
Qed.

Lemma py_min_spec l m :
  py_min l = Ok m ->
  m ∈ l /\ forall y, y ∈ l -> String.leb m y = true.
Proof.
  destruct l as [|x l]; [done |]. simpl. intros [= <-].
  destruct (min_fold_spec l x) as (Hin & Hle & Hall). split.
  - destruct Hin as [->|Hin]; [by left | by right].
  - intros y [->|Hy]%elem_of_cons; [done | by apply Hall].
Qed.

Lemma py_max_spec l m :
  py_max l = Ok m ->
  m ∈ l /\ forall y, y ∈ l -> String.leb y m = true.
Proof.
  destruct l as [|x l]; [done |]. simpl. intros [= <-].
  destruct (max_fold_spec l x) as (Hin & Hle & Hall). split.
  - destruct Hin as [->|Hin]; [by left | by right].
  - intros y [->|Hy]%elem_of_cons; [done | by apply Hall].
Qed.

(** *** Results *)

Lemma pybind_Ok {X Y} (m : pyresult X) (k : X -> pyresult Y) y :
  pybind m k = Ok y -> exists x, m = Ok x /\ k x = Ok y.
Proof. destruct m as [x|e]; [eauto | done]. Qed.

Lemma pybind_Error {X Y} (m : pyresult X) (k : X -> pyresult Y) :
  is_Ok m = false -> is_Ok (pybind m k) = false.
Proof. by destruct m. Qed.

Lemma map_r_Ok {X Y} (f : X -> pyresult Y) l ys :
  map_r f l = Ok ys -> forall x, x ∈ l -> is_Ok (f x) = true.
Proof.
  revert ys. induction l as [|x l IH]; intros ys; simpl.
  - by intros _ y ?%elem_of_nil.
  - intros (y & Efx & (ys' & El & _)%pybind_Ok)%pybind_Ok x' [->|Hin]%elem_of_cons.
    + by rewrite Efx.
    + by eapply IH.
Qed.

(** *** Success of a pipeline *)

Lemma py_all_spec {X} (f : X -> bool) l :
  PipelineSummary.py_all f l = true <-> forall x, x ∈ l -> f x = true.
Proof.
  induction l as [|x l IH]; simpl.
  - split; [by intros _ y ?%elem_of_nil | done].
  - destruct (f x) eqn:E.
    + rewrite IH. split.
      * intros H y [->|Hy]%elem_of_cons; [done | by apply H].
      * intros H y Hy. apply H. by right.
    + split; [done |]. intros H. rewrite <- E. apply H. by left.
Qed.

(** C9.  A pipeline summary is a success exactly when every task run in it
    is one, and a task run is a success exactly when its list of exceptions
    is empty. *)
Theorem is_success_iff (p : PipelineSummary.t) :
  (PipelineSummary.is_success p = true
   <-> forall task_run, task_run ∈ PipelineSummary.task_runs p ->
                        TaskRunSummary.is_success task_run = true)
  /\ (forall task_run : TaskRunSummary.t,
        TaskRunSummary.is_success task_run = true
        <-> TaskRunSummary.exceptions task_run = []).
Proof.
  split.
  - unfold PipelineSummary.is_success. apply py_all_spec.
  - intros task_run. unfold TaskRunSummary.is_success.
    destruct (TaskRunSummary.exceptions task_run); simpl; split; done.
Qed.

(** *** Validation of logged contents *)

(** C3, as the code has it.  [ArtifactContent] accepts a type tag exactly
    when it is the string "utf-8" or "bytes" and the content is a string or
    bytes, whichever of the two the tag names; [LoggedValueContent] accepts
    a type tag exactly when it is one of the strings utf-8, bytes, float,
    bool, json, int, with any content.  A rejected construction raises a
    validation error; an accepted one keeps tag and content as given. *)
Theorem content_validation (type_ content_ : PyVal) :
  (is_Ok (ArtifactContent.new type_ content_) = true
   <-> (exists tag, type_ = PStr tag /\ tag ∈ ["utf-8"; "bytes"])
       /\ ((exists s, content_ = PStr s) \/ (exists bs, content_ = PBytes bs)))
  /\ (is_Ok (LoggedValueContent.new type_ content_) = true
      <-> exists tag, type_ = PStr tag /\ tag ∈ declared_types)
  /\ (is_Ok (ArtifactContent.new type_ content_) = false
      -> ArtifactContent.new type_ content_ = Error (ValidationError "ArtifactContent"))
  /\ (is_Ok (LoggedValueContent.new type_ content_) = false
      -> LoggedValueContent.new type_ content_
         = Error (ValidationError "LoggedValueContent"))
  /\ (forall v, LoggedValueContent.new type_ content_ = Ok v
                -> type_ = PStr (LoggedValueContent.type v)
                   /\ LoggedValueContent.content v = content_).
Proof.
  unfold ArtifactContent.new, LoggedValueContent.new,
    ArtifactContent.validate_type, LoggedValueContent.validate_type, declared_types.
  split; [| split; [| split; [| split]]].
  - split.
    + destruct type_ as [| | | |tag| | |]; try done.
      case_bool_decide as Htag; [| done].
      destruct content_; try done; intros _; split; eauto.
    + intros [(tag & -> & Htag) [[s ->]|[bs ->]]];
        by rewrite bool_decide_eq_true_2.
  - split.
    + destruct type_ as [| | | |tag| | |]; try done.
      case_bool_decide as Htag; [| done]. eauto.
    + intros (tag & -> & Htag). by rewrite bool_decide_eq_true_2.
  - destruct type_ as [| | | |tag| | |]; try done.
    case_bool_decide; [| done]. by destruct content_.
  - destruct type_ as [| | | |tag| | |]; try done.
    by case_bool_decide.
  - intros v. destruct type_ as [| | | |tag| | |]; try done.
    case_bool_decide; [| done]. by intros [= <-].
Qed.

(** C3, as the spec states it, fails: "float" is a declared tag and a float
    matches it, yet no [ArtifactContent] can be built with it; and contents
    whose shape does not match the tag are accepted by both records. *)
Lemma content_validation_counterexample :
  ("float" ∈ declared_types
   /\ runtime_shape_matches "float" (PFloat (FFinite 1 (-1))) = true
   /\ ArtifactContent.new (PStr "float") (PFloat (FFinite 1 (-1)))
      = Error (ValidationError "ArtifactContent"))
  /\ (runtime_shape_matches "utf-8" (PBytes []) = false
      /\ is_Ok (ArtifactContent.new (PStr "utf-8") (PBytes [])) = true)
  /\ (runtime_shape_matches "int" (PStr "seven") = false
      /\ is_Ok (LoggedValueContent.new (PStr "int") (PStr "seven")) = true).
Proof.
  split; [| split]; repeat split; try reflexivity.
  apply (bool_decide_unpack _). by vm_compute.
Qed.

(** *** The time range of a pipeline *)

(** C10.  On an empty span collection [parse_spans] raises: whatever the
    helpers do it returns no summary, and when the extraction of the
    pipeline attributes returns, the exception is the one of [min] on an
    empty sequence.  When [parse_spans] returns a summary the collection is
    not empty, and the summary's timing starts at the least start time and
    ends at the greatest end time of the input spans.  And on a collection
    that is not empty [parse_spans] does return a summary, with the pipeline
    attributes, the task dependencies and the task runs, whenever the
    extraction of these three returns and the id of the top span is a
    string. *)
Theorem parse_spans_timing `{SpanHelpers} (uuid : string) :
  is_Ok (parse_spans uuid []) = false
  /\ (forall attrs, get_attributes [] ["pipeline."] = Ok attrs ->
        parse_spans uuid [] = Error (ValueError "min() arg is an empty sequence"))
  /\ (forall spans summary,
        parse_spans uuid spans = Ok summary ->
        spans <> []
        /\ (exists span, span ∈ spans
             /\ start_time span
                = Timing.start_time_iso8601 (PipelineSummary.timing summary))
        /\ (forall span, span ∈ spans ->
             String.leb (Timing.start_time_iso8601 (PipelineSummary.timing summary))
               (start_time span) = true)
        /\ (exists span, span ∈ spans
             /\ end_time span
                = Timing.end_time_iso8601 (PipelineSummary.timing summary))
        /\ (forall span, span ∈ spans ->
             String.leb (end_time span)
               (Timing.end_time_iso8601 (PipelineSummary.timing summary)) = true))
  /\ (forall spans attrs deps sid runs,
        spans <> [] ->
        get_attributes spans ["pipeline."] = Ok attrs ->
        extract_task_dependencies spans = Ok deps ->
        match attrs !! "pipeline.pipeline_run_id" with
        | Some v => v
        | None => VStr ("NO-TOP-SPAN--TEMP" ++ uuid)
        end = VStr sid ->
        _task_run_iterator (VStr sid) attrs spans = Ok runs ->
        exists summary,
          parse_spans uuid spans = Ok summary
          /\ PipelineSummary.span_id summary = sid
          /\ PipelineSummary.attributes summary = attrs
          /\ PipelineSummary.task_dependencies summary = deps
          /\ PipelineSummary.task_runs summary = runs).
Proof.
  split; [| split; [| split]]; cycle 3.
  { intros spans attrs deps sid runs Hne Ea Ed Etop Er.
    unfold parse_spans. rewrite Ea. simpl. rewrite Ed. simpl.
    destruct spans as [|span spans']; [done |]. simpl.
    rewrite Etop, Er. simpl. eexists. split; [reflexivity | done]. }
  - unfold parse_spans. by destruct (get_attributes [] ["pipeline."]).
  - intros attrs E. unfold parse_spans. rewrite E. reflexivity.
  - intros spans summary. unfold parse_spans.
    intros (attrs & Ea & (deps & Ed & (start & Es & (end_ & Ee &
      (runs & Er & Enew)%pybind_Ok)%pybind_Ok)%pybind_Ok)%pybind_Ok)%pybind_Ok.
    assert (PipelineSummary.timing summary
            = {| Timing.start_time_iso8601 := start;
                 Timing.end_time_iso8601 := end_ |}) as ->.
    { unfold PipelineSummary.new in Enew.
      destruct (match attrs !! "pipeline.pipeline_run_id" with
                | Some v => v
                | None => VStr ("NO-TOP-SPAN--TEMP" ++ uuid)
                end); try done.
      by injection Enew as <-. }
    simpl.
    apply py_min_spec in Es as [Hsin Hsall].
    apply py_max_spec in Ee as [Hein Heall].
    split; [by intros -> ; apply elem_of_nil in Hsin |].
    split; [apply list_elem_of_fmap in Hsin as (span & -> & Hin); eauto |].
    split; [intros span Hin; apply Hsall; by apply list_elem_of_fmap_2 |].
    split; [apply list_elem_of_fmap in Hein as (span & -> & Hin); eauto |].
    intros span Hin. apply Heall. by apply list_elem_of_fmap_2.
Qed.

(** *** Two runs of the parser *)

Lemma map_r_map {X Y} (f g : X -> pyresult Y) (h : Y -> Y) l ys :
  (forall x y, f x = Ok y -> g x = Ok (h y)) ->
  map_r f l = Ok ys -> map_r g l = Ok (map h ys).
Proof.
  intros Hfg. revert ys. induction l as [|x l IH]; intros ys; simpl.
  - by intros [= <-].
  - intros (y & Ey & (ys' & El & [= <-])%pybind_Ok)%pybind_Ok.
    rewrite (Hfg _ _ Ey). simpl. by rewrite (IH _ El).
Qed.

Lemma task_run_summary_parent `{SpanHelpers} a b attrs spans top run :
  task_run_summary (VStr a) attrs spans top = Ok run ->
  task_run_summary (VStr b) attrs spans top = Ok (with_parent b run).
Proof.
  unfold task_run_summary. cbv zeta.
  intros (own & E1 & (nb & E2 & (tid & E3 & (lv & E4 & (la & E5 & Enew
    )%pybind_Ok)%pybind_Ok)%pybind_Ok)%pybind_Ok)%pybind_Ok.
  rewrite E1. simpl. rewrite E2. simpl. rewrite E3. simpl.
  rewrite E4. simpl. rewrite E5. simpl. unfold TaskRunSummary.new in *.
  destruct (TaskRunSummary.validate_otel_span_id (span_id top)); [| done].
  destruct (TaskRunSummary.strict_str_keys la); [| done].
  by injection Enew as <-.
Qed.

(** C2, as the code has it.  When the pipeline attributes carry
    "pipeline.pipeline_run_id", [parse_spans] gives the same result whatever
    [uuid4] draws: two invocations yield identical summaries.  When they do
    not, the span id of the summary is "NO-TOP-SPAN--TEMP" followed by the
    uuid drawn at the call, and so is the parent span id of every task run;
    a second invocation returns as well and agrees with the first on timing,
    attributes, task dependencies and on the task runs up to that id. *)
Theorem parse_spans_deterministic_given_run_id `{SpanHelpers}
    (spans : Spans) (attrs : AttributeMapping) (uuid1 uuid2 : string) :
  get_attributes spans ["pipeline."] = Ok attrs ->
  (is_Some (attrs !! "pipeline.pipeline_run_id") ->
   parse_spans uuid1 spans = parse_spans uuid2 spans)
  /\ (attrs !! "pipeline.pipeline_run_id" = None ->
      forall s1, parse_spans uuid1 spans = Ok s1 ->
        PipelineSummary.span_id s1 = ("NO-TOP-SPAN--TEMP" ++ uuid1)%string
        /\ exists s2,
             parse_spans uuid2 spans = Ok s2
             /\ PipelineSummary.span_id s2 = ("NO-TOP-SPAN--TEMP" ++ uuid2)%string
             /\ PipelineSummary.timing s2 = PipelineSummary.timing s1
             /\ PipelineSummary.attributes s2 = PipelineSummary.attributes s1
             /\ PipelineSummary.task_dependencies s2
                = PipelineSummary.task_dependencies s1
             /\ PipelineSummary.task_runs s2
                = map (with_parent ("NO-TOP-SPAN--TEMP" ++ uuid2)%string)
                    (PipelineSummary.task_runs s1)).
Proof.
  intros Ea. split.
  - intros [v Hv]. unfold parse_spans. rewrite Ea. simpl. by rewrite Hv.
  - intros Hnone s1. unfold parse_spans. rewrite Ea. simpl. rewrite Hnone.
    cbv zeta.
    intros (deps & E1 & (start & E2 & (end_ & E3 & (runs & Er & [= <-]
      )%pybind_Ok)%pybind_Ok)%pybind_Ok)%pybind_Ok.
    split; [done |]. rewrite E1. simpl. rewrite E2. simpl. rewrite E3. simpl.
    unfold _task_run_iterator in *.
    pose proof (map_r_map
                  (task_run_summary (VStr ("NO-TOP-SPAN--TEMP" ++ uuid1)%string) attrs spans)
                  (task_run_summary (VStr ("NO-TOP-SPAN--TEMP" ++ uuid2)%string) attrs spans)
                  (with_parent ("NO-TOP-SPAN--TEMP" ++ uuid2)%string) _ _
                  (task_run_summary_parent _ _ attrs spans) Er) as Er2.
    rewrite Er2. simpl. eexists. split; [done |]. done.
Qed.

Lemma parse_spans_deterministic_given_run_id_witness :
  parse_spans (H := example_helpers) "5f0c" (two_values (Some "run-1"))
  = parse_spans (H := example_helpers) "a1b2" (two_values (Some "run-1")).
Proof.
  assert (get_attributes (SpanHelpers := example_helpers)
            (two_values (Some "run-1")) ["pipeline."]
          = Ok ({[ "pipeline.pipeline_run_id" := VStr "run-1" ]} : AttributeMapping))
    as E by (vm_compute; reflexivity).
  apply (proj1 (parse_spans_deterministic_given_run_id (H := example_helpers)
                  _ _ "5f0c" "a1b2" E)).
  exists (VStr "run-1"). vm_compute. reflexivity.
Defined.

(** C2, as the spec states it, fails: the spans of [two_values None] carry
    no "pipeline.pipeline_run_id", and two invocations that draw different
    uuids return summaries with different span ids. *)
Lemma parse_spans_deterministic_counterexample :
  exists s1 s2,
    parse_spans (H := example_helpers) "5f0c" (two_values None) = Ok s1
    /\ parse_spans (H := example_helpers) "a1b2" (two_values None) = Ok s2
    /\ PipelineSummary.span_id s1 <> PipelineSummary.span_id s2.
Proof.
  eexists _, _. split; [vm_compute; reflexivity |].
  split; [vm_compute; reflexivity |]. simpl. done.
Qed.

(** *** Logged values *)

Lemma py_in_app x a b : py_in x (a ++ b) = py_in x a || py_in x b.
Proof. unfold py_in. apply existsb_app. Qed.

Lemma py_in_singleton x y : py_in x [y] = py_eq x y.
Proof. unfold py_in. simpl. apply orb_false_r. Qed.

Lemma keys_ok_lookup (span : SpanDict) k :
  keys_ok span = true -> k ∈ logged_value_keys ->
  exists v, read_key (attributes span) k = Ok v /\ attributes span !! k = Some v.
Proof.
  intros Hk%bool_decide_eq_true_1 Hin. rewrite <- Hk in Hin.
  apply elem_of_dom in Hin as [v Hv]. exists v. unfold read_key. by rewrite Hv.
Qed.

Lemma logged_keys_mem :
  "name" ∈ logged_value_keys /\ "type" ∈ logged_value_keys
  /\ "encoding" ∈ logged_value_keys /\ "content_encoded" ∈ logged_value_keys.
Proof. repeat split; apply (bool_decide_unpack _); by vm_compute. Qed.

Section LoggedValues.

Context `{SpanHelpers}.

Lemma loop_not_keys_ok span todo acc :
  keys_ok span = false ->
  logged_values_loop (span :: todo) acc = Error AssertionError.
Proof. intros Hk. simpl. unfold keys_ok in Hk. by rewrite Hk. Qed.

Lemma loop_unfold span todo acc n :
  keys_ok span = true -> name_of span = Some n ->
  logged_values_loop (span :: todo) acc
  = if py_in n acc then Error (duplicate_logged_value n)
    else v <- payload span ;;
         rest <- logged_values_loop todo (acc ++ [n]) ;;
         Ok ((py_str n, v) :: rest).
Proof.
  intros Hk Hn. destruct logged_keys_mem as (_ & Hty & Henc & Hc).
  destruct (keys_ok_lookup span "type" Hk Hty) as (ty & Ety & _).
  destruct (keys_ok_lookup span "encoding" Hk Henc) as (enc & Eenc & _).
  destruct (keys_ok_lookup span "content_encoded" Hk Hc) as (c & Ec & _).
  simpl. unfold keys_ok in Hk. rewrite Hk. simpl.
  unfold name_of in Hn. unfold read_key at 1. rewrite Hn. simpl.
  unfold payload. rewrite Ety, Eenc, Ec. simpl.
  destruct (py_in n acc); [done |].
  destruct (decode _); [| done]. simpl.
  by destruct (LoggedValueContent.new _ _).
Qed.

Lemma loop_duplicate_fails l acc :
  (exists j sj nj,
      l !! j = Some sj /\ name_of sj = Some nj
      /\ (py_in nj acc = true
          \/ exists i si ni, i < j /\ l !! i = Some si /\ name_of si = Some ni
                              /\ py_eq nj ni = true)) ->
  is_Ok (logged_values_loop l acc) = false.
Proof.
  revert acc. induction l as [|span l IH]; intros acc (j & sj & nj & Hj & Hnj & Hdup).
  - by rewrite lookup_nil in Hj.
  - destruct (keys_ok span) eqn:Hk; [| by rewrite loop_not_keys_ok].
    destruct (keys_ok_lookup span "name" Hk (proj1 logged_keys_mem)) as (n & _ & Hn).
    rewrite (loop_unfold span l acc n Hk Hn).
    destruct (py_in n acc) eqn:Ein; [done |].
    destruct (payload span); [| done]. simpl.
    apply pybind_Error. apply IH.
    destruct j as [|j'].
    + injection Hj as <-. unfold name_of in Hnj, Hn. rewrite Hn in Hnj.
      injection Hnj as <-. destruct Hdup as [Hin|(i & _ & _ & Hlt & _)]; [| lia].
      by rewrite Ein in Hin.
    + exists j', sj, nj. split; [done |]. split; [done |].
      rewrite py_in_app, py_in_singleton.
      destruct Hdup as [Hin|(i & si & ni & Hlt & Hi & Hni & Heq)].
      * left. by rewrite Hin.
      * destruct i as [|i'].
        -- injection Hi as <-. unfold name_of in Hni, Hn. rewrite Hn in Hni.
           injection Hni as <-. left. rewrite Heq. apply orb_true_r.
        -- right. exists i', si, ni. repeat split; [lia | done | done | done].
Qed.

Lemma names_distinct_tail span l : names_distinct (span :: l) -> names_distinct l.
Proof.
  intros Hd i j si sj ni nj Hlt Hi Hj. apply (Hd (S i) (S j)); [lia | done | done].
Qed.

Lemma names_distinct_head span l n s' n' :
  names_distinct (span :: l) -> name_of span = Some n ->
  s' ∈ l -> name_of s' = Some n' -> py_eq n' n = false.
Proof.
  intros Hd Hn [k Hk]%list_elem_of_lookup Hn'.
  apply (Hd 0 (S k) span s'); [lia | done | done | done | done].
Qed.

Lemma loop_first_duplicate pre sj post nj acc :
  Forall (fun span => keys_ok span = true /\ is_Ok (payload span) = true) pre ->
  names_distinct pre ->
  (forall span n, span ∈ pre -> name_of span = Some n -> py_in n acc = false) ->
  keys_ok sj = true -> name_of sj = Some nj ->
  (py_in nj acc = true
   \/ exists span n, span ∈ pre /\ name_of span = Some n /\ py_eq nj n = true) ->
  logged_values_loop (pre ++ sj :: post) acc = Error (duplicate_logged_value nj).
Proof.
  revert acc. induction pre as [|span pre IH]; intros acc Hwf Hd Hacc Hk Hnj Hdup.
  - change ([] ++ sj :: post) with (sj :: post).
    rewrite (loop_unfold sj post acc nj Hk Hnj).
    destruct Hdup as [->|(span & n & Hin & _)]; [done |].
    by apply elem_of_nil in Hin.
  - apply Forall_cons in Hwf as [[Hks Hps] Hwf].
    destruct (keys_ok_lookup span "name" Hks (proj1 logged_keys_mem)) as (n & _ & Hn).
    change ((span :: pre) ++ sj :: post) with (span :: (pre ++ sj :: post)).
    rewrite (loop_unfold span _ acc n Hks Hn).
    rewrite (Hacc span n) by (done || by left).
    destruct (payload span) as [v|]; [| done]. simpl.
    rewrite (IH (acc ++ [n])); [done | done | | | done | done |].
    + by eapply names_distinct_tail.
    + intros s' n' Hs' Hn'. rewrite py_in_app, py_in_singleton.
      rewrite (Hacc s' n') by (done || by right). simpl.
      by eapply names_distinct_head.
    + rewrite py_in_app, py_in_singleton.
      destruct Hdup as [Hin|(s0 & n0 & [->|Hs0]%elem_of_cons & Hn0 & Heq)].
      * left. by rewrite Hin.
      * unfold name_of in Hn0, Hn. rewrite Hn in Hn0. injection Hn0 as <-.
        left. rewrite Heq. apply orb_true_r.
      * right. eauto.
Qed.

Lemma loop_distinct_errors l acc e :
  names_distinct l ->
  (forall span n, span ∈ l -> name_of span = Some n -> py_in n acc = false) ->
  logged_values_loop l acc = Error e ->
  e = AssertionError \/ exists span, span ∈ l /\ payload span = Error e.
Proof.
  revert acc. induction l as [|span l IH]; intros acc Hd Hacc; [done |].
  destruct (keys_ok span) eqn:Hk;
    [| rewrite loop_not_keys_ok by done; intros [= <-]; by left].
  destruct (keys_ok_lookup span "name" Hk (proj1 logged_keys_mem)) as (n & _ & Hn).
  rewrite (loop_unfold span l acc n Hk Hn).
  rewrite (Hacc span n) by (done || by left).
  destruct (payload span) as [v|e'] eqn:Ep; simpl.
  - destruct (logged_values_loop l (acc ++ [n])) as [rest|e'] eqn:El; [done |].
    simpl. intros [= <-].
    destruct (IH (acc ++ [n]) (names_distinct_tail _ _ Hd)) as [->|(s' & Hs' & Hp)];
      [| done | by left | right; exists s'; split; [by right | done]].
    intros s' n' Hs' Hn'. rewrite py_in_app, py_in_singleton.
    rewrite (Hacc s' n') by (done || by right). simpl.
    by eapply names_distinct_head.
  - intros [= <-]. right. exists span. split; [by left | done].
Qed.

Lemma loop_distinct_returns l acc :
  Forall (fun span => keys_ok span = true /\ is_Ok (payload span) = true) l ->
  names_distinct l ->
  (forall span n, span ∈ l -> name_of span = Some n -> py_in n acc = false) ->
  exists values,
    logged_values_loop l acc = Ok values
    /\ Forall2 (fun span kv => exists n, name_of span = Some n /\ kv.1 = py_str n
                                         /\ payload span = Ok kv.2) l values.
Proof.
  revert acc. induction l as [|span l IH]; intros acc Hwf Hd Hacc.
  - exists []. split; [done | constructor].
  - apply Forall_cons in Hwf as [[Hk Hp] Hwf].
    destruct (keys_ok_lookup span "name" Hk (proj1 logged_keys_mem)) as (n & _ & Hn).
    rewrite (loop_unfold span l acc n Hk Hn).
    rewrite (Hacc span n) by (done || by left).
    destruct (payload span) as [v|] eqn:Ep; [| done]. simpl.
    destruct (IH (acc ++ [n]) Hwf (names_distinct_tail _ _ Hd)) as (rest & -> & Hall).
    { intros s' n' Hs' Hn'. rewrite py_in_app, py_in_singleton.
      rewrite (Hacc s' n') by (done || by right). simpl.
      by eapply names_distinct_head. }
    simpl. eexists. split; [done |]. constructor; [| done].
    exists n. by repeat split.
Qed.

(** *** Reaching the task run with the duplicate *)

Lemma insert_by_start_time_elem x span l :
  x ∈ insert_by_start_time span l <-> x = span \/ x ∈ l.
Proof.
  induction l as [|s l IH]; simpl.
  - rewrite list_elem_of_singleton. split; [by left | intros [?|?%elem_of_nil]; done].
  - destruct (String.ltb _ _).
    + rewrite !elem_of_cons, IH. tauto.
    + by rewrite elem_of_cons.
Qed.

Lemma sort_by_start_time_elem x l : x ∈ sort_by_start_time l <-> x ∈ l.
Proof.
  unfold sort_by_start_time. induction l as [|s l IH]; simpl; [done |].
  rewrite insert_by_start_time_elem, elem_of_cons, IH. tauto.
Qed.

Lemma parse_spans_reaches uuid spans top :
  top ∈ filter_name "execute-task" spans ->
  is_Ok (_get_logged_named_values_new spans top) = false ->
  is_Ok (parse_spans uuid spans) = false.
Proof.
  intros Htop Hfail.
  destruct (parse_spans uuid spans) as [summary|] eqn:E; [| done]. exfalso.
  unfold parse_spans in E. cbv zeta in E.
  apply pybind_Ok in E as (attrs & _ & (deps & _ & (start & _ & (end_ & _ &
    (runs & Er & _)%pybind_Ok)%pybind_Ok)%pybind_Ok)%pybind_Ok).
  unfold _task_run_iterator in Er.
  pose proof (map_r_Ok _ _ _ Er top) as Hok.
  rewrite sort_by_start_time_elem in Hok. specialize (Hok Htop).
  unfold task_run_summary in Hok. cbv zeta in Hok.
  destruct (get_attributes _ _) as [own|]; [| done]. simpl in Hok.
  destruct (read_key _ _) as [nb|]; [| done]. simpl in Hok.
  destruct (match nb with VStr s => _ | _ => _ end) as [tid|]; [| done]. simpl in Hok.
  destruct (_get_logged_named_values_new spans top); done.
Qed.

Lemma map_r_app_Error {X Y} (f : X -> pyresult Y) before x after e :
  Forall (fun y => is_Ok (f y) = true) before -> f x = Error e ->
  map_r f (before ++ x :: after) = Error e.
Proof.
  intros Hall Hx. induction Hall as [|y before Hy _ IH]; simpl.
  - by rewrite Hx.
  - destruct (f y); [| done]. simpl. by rewrite IH.
Qed.

Lemma parse_spans_error_at uuid spans top attrs own notebook before after e :
  get_attributes spans ["pipeline."] = Ok attrs ->
  is_Ok (extract_task_dependencies spans) = true ->
  sort_by_start_time (filter_name "execute-task" spans) = before ++ top :: after ->
  Forall (fun earlier =>
            is_Ok (task_run_summary
                     match attrs !! "pipeline.pipeline_run_id" with
                     | Some v => v
                     | None => VStr ("NO-TOP-SPAN--TEMP" ++ uuid)
                     end attrs spans earlier) = true) before ->
  get_attributes (bound_inclusive spans top) ["task."] = Ok own ->
  (own ∪ attrs) !! "task.notebook" = Some (VStr notebook) ->
  _get_logged_named_values_new spans top = Error e ->
  parse_spans uuid spans = Error e.
Proof.
  intros Ea Ed Esort Hbefore Eown Enb Egen.
  unfold parse_spans. rewrite Ea. simpl.
  destruct (extract_task_dependencies spans) as [deps|]; [| done]. simpl.
  destruct spans as [|span spans'] eqn:Espans; [by destruct before |].
  rewrite <- Espans in *.
  assert (exists lo, py_min (map start_time spans) = Ok lo) as [lo ->]
    by (rewrite Espans; by eexists).
  assert (exists hi, py_max (map end_time spans) = Ok hi) as [hi ->]
    by (rewrite Espans; by eexists).
  simpl. unfold _task_run_iterator. rewrite Esort.
  rewrite (map_r_app_Error _ before top after e); [done | done |].
  unfold task_run_summary. rewrite Eown. simpl.
  unfold read_key. rewrite Enb. simpl. by rewrite Egen.
Qed.


End LoggedValues.

Lemma loss_twice_has_duplicate :
  has_duplicate (logged_spans (H := example_helpers) "named-value" loss_twice
                   (execute_task_span None)).
Proof.
  exists 0, 1. eexists _, _, (VStr "loss"), (VStr "loss").
  split; [lia |]. split; [vm_compute; reflexivity |].
  split; [vm_compute; reflexivity |]. repeat split; vm_compute; reflexivity.
Qed.


(** Names that are different values but the same string: the names [1] and
    ["1"] pass the duplicate check, and the later value replaces the
    earlier one when the dict of logged values is built. *)
Example names_equal_as_strings_merge :
  let spans :=
    [ execute_task_span None;
      named_value_span "0x02" "2022-03-01T10:00:01.000000Z"
        (<["name" := VInt 1]> (logged "1" "0.5"));
      named_value_span "0x03" "2022-03-01T10:00:02.000000Z" (logged "1" "0.4") ] in
  names_distinct (logged_spans (H := example_helpers) "named-value" spans
                    (execute_task_span None))
  /\ exists summary,
       parse_spans (H := example_helpers) "5f0c" spans = Ok summary
       /\ map TaskRunSummary.logged_values (PipelineSummary.task_runs summary)
          = [ {[ "1" := {| LoggedValueContent.type := "utf-8";
                           LoggedValueContent.content := PStr "0.4" |} ]} ].
Proof.
  split.
  - intros i j si sj ni nj Hlt Hi Hj Hni Hnj.
    destruct j as [|[|j]]; [lia | | done].
    destruct i as [|i]; [| lia].
    vm_compute in Hi, Hj. injection Hi as <-. injection Hj as <-.
    vm_compute in Hni, Hnj. injection Hni as <-. injection Hnj as <-. reflexivity.
  - eexists. split; [vm_compute; reflexivity |]. vm_compute. reflexivity.
Qed.


Example sort_by_start_time_is_stable :
  map span_id
    (sort_by_start_time
       [ named_value_span "0x0a" "2022-03-01T10:00:02.000000Z" ∅;
         named_value_span "0x0b" "2022-03-01T10:00:01.000000Z" ∅;
         named_value_span "0x0c" "2022-03-01T10:00:01.000000Z" ∅ ])
  = ["0x0b"; "0x0c"; "0x0a"].
Proof. reflexivity. Qed.

Example parse_two_values :
  parse_spans (H := example_helpers) "uuid" (two_values (Some "run-1"))
  = Ok {| PipelineSummary.span_id := "run-1";
          PipelineSummary.timing :=
            {| Timing.start_time_iso8601 := "2022-03-01T10:00:00.000000Z";
               Timing.end_time_iso8601 := "2022-03-01T10:00:09.000000Z" |};
          PipelineSummary.attributes := {[ "pipeline.pipeline_run_id" := VStr "run-1" ]};
          PipelineSummary.task_runs :=
            [ {| TaskRunSummary.span_id := "0x01";
                 TaskRunSummary.parent_span_id := "run-1";
                 TaskRunSummary.task_id := "train";
                 TaskRunSummary.exceptions := [];
                 TaskRunSummary.attributes :=
                   {[ "task.notebook" := VStr "notebooks/train.py";
                      "pipeline.pipeline_run_id" := VStr "run-1" ]};
                 TaskRunSummary.timing :=
                   {| Timing.start_time_iso8601 := "2022-03-01T10:00:00.000000Z";
                      Timing.end_time_iso8601 := "2022-03-01T10:00:09.000000Z" |};
                 TaskRunSummary.logged_values :=
                   {[ "loss" := {| LoggedValueContent.type := "utf-8";
                                   LoggedValueContent.content := PStr "0.5" |};
                      "accuracy" := {| LoggedValueContent.type := "utf-8";
                                       LoggedValueContent.content := PStr "0.9" |} ]};
                 TaskRunSummary.logged_artifacts := ∅ |} ];
          PipelineSummary.task_dependencies := [] |}.
Proof. vm_compute. reflexivity. Qed.

Example parse_loss_twice :
  parse_spans (H := example_helpers) "uuid" loss_twice
  = Error (ValueError "Named value loss has been logged multiple times.").
Proof. vm_compute. reflexivity. Qed.

Lemma parse_spans_timing_witness :
  exists summary,
    parse_spans (H := example_helpers) "uuid" (two_values (Some "run-1")) = Ok summary
    /\ PipelineSummary.task_runs summary = [two_values_run]
    /\ two_values (Some "run-1") <> []
    /\ (exists span, span ∈ two_values (Some "run-1")
          /\ start_time span
             = Timing.start_time_iso8601 (PipelineSummary.timing summary))
    /\ (forall span, span ∈ two_values (Some "run-1") ->
          String.leb (Timing.start_time_iso8601 (PipelineSummary.timing summary))
            (start_time span) = true)
    /\ (exists span, span ∈ two_values (Some "run-1")
          /\ end_time span
             = Timing.end_time_iso8601 (PipelineSummary.timing summary))
    /\ (forall span, span ∈ two_values (Some "run-1") ->
          String.leb (end_time span)
            (Timing.end_time_iso8601 (PipelineSummary.timing summary)) = true).
Proof.
  destruct (parse_spans_timing (H := example_helpers) "uuid")
    as (_ & _ & Htiming & Hreturns).
  destruct (Hreturns (two_values (Some "run-1"))
              {[ "pipeline.pipeline_run_id" := VStr "run-1" ]} [] "run-1"
              [two_values_run])
    as (summary & E & _ & _ & _ & Hruns);
    [done | vm_compute; reflexivity | reflexivity | reflexivity
    | vm_compute; reflexivity |].
  exists summary. split; [exact E |]. split; [exact Hruns |].
  exact (Htiming _ _ E).
Defined.

(** *** Further properties of the parser *)

Lemma map_r_Forall2 {X Y} (f : X -> pyresult Y) l ys :
  map_r f l = Ok ys <-> Forall2 (fun x y => f x = Ok y) l ys.
Proof.
  revert ys. induction l as [|x l IH]; intros ys; simpl.
  - split; [intros [= <-]; constructor | by intros ->%Forall2_nil_inv_l].
  - split.
    + intros (y & Ey & (ys' & El & [= <-])%pybind_Ok)%pybind_Ok.
      constructor; [done | by apply IH].
    + intros (y & ys' & Ey & Hl & ->)%Forall2_cons_inv_l.
      rewrite Ey. simpl. apply IH in Hl. by rewrite Hl.
Qed.

Lemma prefix_slash a s : String.prefix "/" (String a s) = Ascii.eqb a "/"%char.
Proof.
  cbn [String.prefix]. destruct (ascii_dec "/"%char a) as [<-|Hne].
  - by destruct s.
  - symmetry. apply Ascii.eqb_neq. congruence.
Qed.

Lemma str_contains_cons sub a s :
  str_contains sub (String a s) = String.prefix sub (String a s) || str_contains sub s.
Proof. reflexivity. Qed.

Lemma str_contains_snoc cur c :
  str_contains "/" cur = false -> c <> "/"%char ->
  str_contains "/" (cur ++ String c EmptyString) = false.
Proof.
  intros Hcur Hc. induction cur as [|a cur IH].
  - change (EmptyString ++ String c EmptyString)%string with (String c EmptyString).
    rewrite str_contains_cons, prefix_slash.
    apply Ascii.eqb_neq in Hc. by rewrite Hc.
  - change (String a cur ++ String c EmptyString)%string
      with (String a (cur ++ String c EmptyString)).
    rewrite str_contains_cons, prefix_slash in *.
    apply orb_false_iff in Hcur as [-> Hcur]. simpl. by apply IH.
Qed.

Lemma last_segment_no_slash s cur :
  str_contains "/" cur = false -> str_contains "/" (last_segment cur s) = false.
Proof.
  revert cur. induction s as [|c s IH]; intros cur Hcur; simpl; [done |].
  destruct (Ascii.eqb_spec c "/"%char) as [->|Hne].
  - by apply IH.
  - apply IH. by apply str_contains_snoc.
Qed.
Lemma py_dict_acc_elem {V} (l : list (string * V)) (d : gmap string V) k v :
  foldl (fun d kv => <[kv.1 := kv.2]> d) d l !! k = Some v ->
  (k, v) ∈ l \/ d !! k = Some v.
Proof.
  revert d. induction l as [|[k' v'] l IH]; intros d; simpl; [by right |].
  intros [Hin|Hd]%IH; [left; by right |].
  destruct (decide (k' = k)) as [->|Hne].
  - rewrite lookup_insert_eq in Hd. injection Hd as ->. left. by left.
  - rewrite lookup_insert_ne in Hd by done. by right.
Qed.

Lemma py_dict_acc_notin {V} (l : list (string * V)) (d : gmap string V) k :
  k ∉ l.*1 -> foldl (fun d kv => <[kv.1 := kv.2]> d) d l !! k = d !! k.
Proof.
  revert d. induction l as [|[k' v'] l IH]; intros d Hk; [done |]. simpl in *.
  apply not_elem_of_cons in Hk as [Hne Hk]. rewrite IH by done.
  by rewrite lookup_insert_ne.
Qed.

Lemma py_dict_acc_lookup {V} (l : list (string * V)) (d : gmap string V) k v :
  NoDup l.*1 -> (k, v) ∈ l ->
  foldl (fun d kv => <[kv.1 := kv.2]> d) d l !! k = Some v.
Proof.
  revert d. induction l as [|[k' v'] l IH]; intros d Hnd Hin;
    [by apply elem_of_nil in Hin |].
  simpl in *. apply NoDup_cons in Hnd as [Hk' Hnd].
  apply elem_of_cons in Hin as [[= -> ->]|Hin]; [| by apply IH].
  rewrite py_dict_acc_notin by done. by rewrite lookup_insert_eq.
Qed.

Lemma py_dict_acc_key {V} (l : list (string * V)) (d : gmap string V) k :
  k ∈ l.*1 -> is_Some (foldl (fun d kv => <[kv.1 := kv.2]> d) d l !! k).
Proof.
  revert d. induction l as [|[k' v'] l IH]; intros d Hk;
    [by apply elem_of_nil in Hk |].
  simpl in *. destruct (decide (k ∈ l.*1)) as [Hin|Hnin]; [by apply IH |].
  apply elem_of_cons in Hk as [->|Hk]; [| done].
  rewrite py_dict_acc_notin by done. rewrite lookup_insert_eq. by eexists.
Qed.

Lemma py_dict_elem {V} (l : list (string * V)) k v :
  py_dict l !! k = Some v -> (k, v) ∈ l.
Proof. unfold py_dict. by intros [?|?]%py_dict_acc_elem. Qed.

Lemma elem_of_concat {X} (x : X) (ls : list (list X)) :
  x ∈ concat ls <-> exists l, l ∈ ls /\ x ∈ l.
Proof.
  induction ls as [|l ls IH]; simpl.
  - split; [by intros ?%elem_of_nil | by intros (l & ?%elem_of_nil & _)].
  - rewrite elem_of_app, IH. split.
    + intros [Hx|(l' & Hl' & Hx)]; [exists l; split; [by left | done] |].
      exists l'. split; [by right | done].
    + intros (l' & [->|Hl']%elem_of_cons & Hx); [by left | right; eauto].
Qed.

Lemma py_dict_size {V} (l : list (string * V)) (d : gmap string V) :
  NoDup l.*1 -> (forall k, k ∈ l.*1 -> d !! k = None) ->
  size (foldl (fun d kv => <[kv.1 := kv.2]> d) d l) = size d + length l.
Proof.
  revert d. induction l as [|[k v] l IH]; intros d Hnd Hd; simpl in *; [lia |].
  apply NoDup_cons in Hnd as [Hk Hnd]. rewrite IH; [| done |].
  - rewrite map_size_insert_None; [lia |]. apply Hd. by left.
  - intros k' Hk'. rewrite lookup_insert_ne; [apply Hd; by right |].
    by intros ->.
Qed.

Section MoreParserFacts.

Context `{SpanHelpers}.

Lemma task_run_summary_fields top attrs spans span run :
  task_run_summary top attrs spans span = Ok run ->
  TaskRunSummary.span_id run = span_id span
  /\ String.prefix "0x" (span_id span) = true
  /\ top = VStr (TaskRunSummary.parent_span_id run)
  /\ TaskRunSummary.timing run
     = {| Timing.start_time_iso8601 := start_time span;
          Timing.end_time_iso8601 := end_time span |}
  /\ TaskRunSummary.exceptions run = exception_events (bound_inclusive spans span)
  /\ (exists own notebook,
        get_attributes (bound_inclusive spans span) ["task."] = Ok own
        /\ TaskRunSummary.attributes run = own ∪ attrs
        /\ (own ∪ attrs) !! "task.notebook" = Some (VStr notebook)
        /\ TaskRunSummary.task_id run
           = last_segment EmptyString (str_remove ".py" 0 notebook))
  /\ (exists values artifacts named,
        _get_logged_named_values_new spans span = Ok values
        /\ _artefact_iterator_new spans span = Ok artifacts
        /\ TaskRunSummary.strict_str_keys artifacts = Ok named
        /\ TaskRunSummary.logged_values run = py_dict values
        /\ TaskRunSummary.logged_artifacts run = py_dict named).
Proof.
  unfold task_run_summary. cbv zeta.
  intros (own & E1 & (nb & E2 & (tid & E3 & (lv & E4 & (la & E5 & Enew
    )%pybind_Ok)%pybind_Ok)%pybind_Ok)%pybind_Ok)%pybind_Ok.
  unfold TaskRunSummary.new, TaskRunSummary.validate_otel_span_id in Enew.
  destruct (String.prefix "0x" (span_id span)) eqn:Epre; [| done].
  destruct top as [| | |parent]; try done.
  destruct (TaskRunSummary.strict_str_keys la) as [named|] eqn:Enamed; [| done].
  injection Enew as <-. simpl.
  destruct nb as [| | |notebook]; try done. injection E3 as <-.
  unfold read_key in E2.
  destruct ((own ∪ attrs) !! "task.notebook") as [v|] eqn:El; [| done].
  injection E2 as ->.
  repeat split; try done.
  - exists own, notebook. by repeat split.
  - exists lv, la, named. by repeat split.
Qed.

Lemma parse_spans_task_runs uuid spans summary :
  parse_spans uuid spans = Ok summary ->
  Forall2
    (fun span run =>
       task_run_summary (VStr (PipelineSummary.span_id summary))
         (PipelineSummary.attributes summary) spans span = Ok run)
    (sort_by_start_time (filter_name "execute-task" spans))
    (PipelineSummary.task_runs summary).
Proof.
  unfold parse_spans. cbv zeta.
  intros (attrs & _ & (deps & _ & (start & _ & (end_ & _ & (runs & Er & Enew
    )%pybind_Ok)%pybind_Ok)%pybind_Ok)%pybind_Ok)%pybind_Ok.
  unfold _task_run_iterator in Er. apply map_r_Forall2 in Er.
  unfold PipelineSummary.new in Enew.
  destruct (match attrs !! "pipeline.pipeline_run_id" with
            | Some v => v
            | None => VStr ("NO-TOP-SPAN--TEMP" ++ uuid)
            end) as [| | |top] eqn:Etop; try done.
  by injection Enew as <-.
Qed.

Lemma loop_Ok_inv l acc values :
  logged_values_loop l acc = Ok values ->
  Forall2 (fun span kv => exists n, name_of span = Some n /\ kv.1 = py_str n
                                     /\ payload span = Ok kv.2) l values
  /\ (forall span n, span ∈ l -> name_of span = Some n -> py_in n acc = false)
  /\ names_distinct l.
Proof.
  revert acc values. induction l as [|span l IH]; intros acc values E.
  - injection E as <-. split; [constructor |].
    split; [by intros ? ? ?%elem_of_nil |].
    intros i j si sj ni nj _ Hi. by rewrite lookup_nil in Hi.
  - destruct (keys_ok span) eqn:Hk; [| by rewrite loop_not_keys_ok in E].
    destruct (keys_ok_lookup span "name" Hk (proj1 logged_keys_mem)) as (n & _ & Hn).
    rewrite (loop_unfold span l acc n Hk Hn) in E.
    destruct (py_in n acc) eqn:Ein; [done |].
    apply pybind_Ok in E as (v & Ev & (rest & Er & [= <-])%pybind_Ok).
    apply IH in Er as (Hall & Hacc & Hd).
    assert (forall s' n', s' ∈ l -> name_of s' = Some n' ->
                          py_in n' acc = false /\ py_eq n' n = false) as Hboth.
    { intros s' n' Hs' Hn'. specialize (Hacc s' n' Hs' Hn').
      rewrite py_in_app, py_in_singleton in Hacc. by apply orb_false_iff in Hacc. }
    split; [constructor; [by exists n | done] |]. split.
    + intros s' n' [->|Hs']%elem_of_cons Hn'.
      * unfold name_of in Hn'. rewrite Hn in Hn'. by injection Hn' as <-.
      * by apply (Hboth s' n').
    + intros [|i] [|j] si sj ni nj Hlt Hi Hj Hni Hnj; try lia.
      * injection Hi as <-. unfold name_of in Hni. rewrite Hn in Hni.
        injection Hni as <-. apply (Hboth sj nj); [| done].
        apply list_elem_of_lookup. by exists j.
      * apply (Hd i j si sj); [lia | done | done | done | done].
Qed.

Lemma logged_value_new_Ok ty c v :
  LoggedValueContent.new ty c = Ok v ->
  ty = PStr (LoggedValueContent.type v) /\ LoggedValueContent.content v = c
  /\ LoggedValueContent.type v ∈ ["utf-8"; "bytes"; "float"; "bool"; "json"; "int"].
Proof.
  unfold LoggedValueContent.new, LoggedValueContent.validate_type. cbv zeta.
  destruct ty; try done. destruct (bool_decide _) eqn:E; [| done].
  intros [= <-]. simpl. by apply bool_decide_eq_true in E.
Qed.

Lemma payload_Ok span v :
  payload span = Ok v ->
  LoggedValueContent.type v ∈ ["utf-8"; "bytes"; "float"; "bool"; "json"; "int"]
  /\ attributes span !! "type" = Some (VStr (LoggedValueContent.type v)).
Proof.
  unfold payload.
  intros (ty & Ety & (enc & _ & (c & _ & (content & _ & Enew
    )%pybind_Ok)%pybind_Ok)%pybind_Ok)%pybind_Ok.
  apply logged_value_new_Ok in Enew as (Hty & _ & Hin). split; [done |].
  unfold read_key in Ety. destruct (attributes span !! "type"); [| done].
  injection Ety as ->. destruct ty; simpl in Hty; try done. by injection Hty as <-.
Qed.

Lemma artifact_new_Ok ty c a :
  ArtifactContent.new ty c = Ok a ->
  ty = PStr (ArtifactContent.type a)
  /\ ArtifactContent.type a ∈ ["utf-8"; "bytes"]
  /\ c = match ArtifactContent.content a with
         | ArtifactContent.ContentStr s => PStr s
         | ArtifactContent.ContentBytes bs => PBytes bs
         end.
Proof.
  unfold ArtifactContent.new, ArtifactContent.validate_type. cbv zeta.
  destruct ty; try done. destruct (bool_decide _) eqn:E; [| by destruct c].
  apply bool_decide_eq_true in E.
  destruct c; try done; by intros [= <-].
Qed.

Lemma py_eq_VStr a s : py_eq a (VStr s) = true -> a = VStr s.
Proof. destruct a; try done. simpl. by intros ->%String.eqb_eq. Qed.

Lemma decode_data_content_span_name span ad :
  _decode_data_content_span span = Ok ad -> name_of span = Some (ad_name ad).
Proof.
  unfold _decode_data_content_span. cbv zeta.
  intros (ty & _ & (enc & _ & (c & _ & (name & En & (content & _ & [= <-]
    )%pybind_Ok)%pybind_Ok)%pybind_Ok)%pybind_Ok)%pybind_Ok.
  unfold read_key in En. unfold name_of. simpl.
  destruct (attributes span !! "name"); [by injection En as -> | done].
Qed.

Lemma artefact_step_Ok span group :
  artefact_step span = Ok group ->
  exists n first,
    name_of span = Some n
    /\ (group = [(n, first)]
        \/ exists second, n = VStr "notebook.ipynb"
                          /\ ArtifactContent.type first = "utf-8"
                          /\ ArtifactContent.type second = "utf-8"
                          /\ group = [(n, first); (VStr "notebook.html", second)])
    /\ Forall (fun p => ArtifactContent.type p.2 ∈ ["utf-8"; "bytes"]) group.
Proof.
  unfold artefact_step.
  intros (ad & Ead & (first & Ef & E)%pybind_Ok)%pybind_Ok.
  apply decode_data_content_span_name in Ead.
  apply artifact_new_Ok in Ef as (Hty1 & Hin1 & _).
  exists (ad_name ad), first. split; [done |].
  destruct (py_eq (ad_name ad) _) eqn:Ename.
  - destruct (py_eq (ad_type ad) _) eqn:Etype; [| done].
    apply pybind_Ok in E as (html & _ & (second & Es & [= <-])%pybind_Ok).
    apply artifact_new_Ok in Es as (Hty2 & Hin2 & _).
    apply py_eq_VStr in Ename, Etype. rewrite Etype in Hty1.
    injection Hty1 as Hty1. injection Hty2 as Hty2.
    split; [right; exists second; by repeat split |].
    by rewrite !Forall_cons, Forall_nil.
  - injection E as <-. split; [by left | by rewrite Forall_singleton].
Qed.

Lemma strict_str_keys_Ok {V} (pairs : list (AttributeValues * V)) named :
  TaskRunSummary.strict_str_keys pairs = Ok named ->
  pairs = (fun kv => (VStr kv.1, kv.2)) <$> named.
Proof.
  revert named. induction pairs as [|[k v] pairs IH]; intros named; simpl.
  - by intros [= <-].
  - destruct k; try done.
    intros (rest & Er & [= <-])%pybind_Ok. simpl. by rewrite (IH rest).
Qed.

(** X8.  A returned summary has one task run per span named "execute-task",
    in the order of their start times: the run carries the id of its span,
    which starts with "0x", the span's start and end time, the exception
    events found under the span, and the summary's span id as parent. *)
Theorem task_runs_follow_execute_task_spans (uuid : string) (spans : Spans)
    (summary : PipelineSummary.t) :
  parse_spans uuid spans = Ok summary ->
  Forall2
    (fun span run =>
       TaskRunSummary.span_id run = span_id span
       /\ String.prefix "0x" (span_id span) = true
       /\ TaskRunSummary.parent_span_id run = PipelineSummary.span_id summary
       /\ TaskRunSummary.timing run
          = {| Timing.start_time_iso8601 := start_time span;
               Timing.end_time_iso8601 := end_time span |}
       /\ TaskRunSummary.exceptions run
          = exception_events (bound_inclusive spans span))
    (sort_by_start_time (filter_name "execute-task" spans))
    (PipelineSummary.task_runs summary).
Proof.
  unfold parse_spans. cbv zeta.
  intros (attrs & _ & (deps & _ & (start & _ & (end_ & _ & (runs & Er & Enew
    )%pybind_Ok)%pybind_Ok)%pybind_Ok)%pybind_Ok)%pybind_Ok.
  unfold _task_run_iterator in Er. apply map_r_Forall2 in Er.
  unfold PipelineSummary.new in Enew.
  destruct (match attrs !! "pipeline.pipeline_run_id" with
            | Some v => v
            | None => VStr ("NO-TOP-SPAN--TEMP" ++ uuid)
            end) as [| | |top] eqn:Etop; try done.
  injection Enew as <-. simpl.
  eapply Forall2_impl; [exact Er |]. intros span run Hrun.
  apply task_run_summary_fields in Hrun as (H1 & H2 & H3 & H4 & H5 & _).
  injection H3 as ->. by repeat split.
Qed.

Lemma extract_task_dependencies_pairs spans deps :
  extract_task_dependencies spans = Ok deps
  <-> Forall2 (fun span pair =>
                 attributes span !! "from_task_span_id" = Some pair.1
                 /\ attributes span !! "to_task_span_id" = Some pair.2)
        (filter_name "task-dependency" spans) deps.
Proof.
  unfold extract_task_dependencies. rewrite map_r_Forall2. split; intros Hall.
  - eapply Forall2_impl; [exact Hall |]. intros span [a b]. unfold read_key. simpl.
    destruct (attributes span !! "from_task_span_id"); [| done]. simpl.
    destruct (attributes span !! "to_task_span_id"); [| done]. simpl.
    by intros [= -> ->].
  - eapply Forall2_impl; [exact Hall |]. intros span [a b] [Ha Hb]. simpl in *.
    unfold read_key. rewrite Ha. simpl. by rewrite Hb.
Qed.

(** X9.  The task dependencies [extract_task_dependencies] returns are the
    pairs of the attributes "from_task_span_id" and "to_task_span_id" of the
    spans named "task-dependency", and nothing else.  It returns exactly
    when every such span has both attributes, and raises [KeyError] for one
    of the two keys otherwise; a summary [parse_spans] returns carries what
    it returns. *)
Theorem extract_task_dependencies_spec (spans : Spans) :
  (is_Ok (extract_task_dependencies spans) = true
   <-> forall span, span ∈ filter_name "task-dependency" spans ->
                    is_Some (attributes span !! "from_task_span_id")
                    /\ is_Some (attributes span !! "to_task_span_id"))
  /\ (forall deps,
        extract_task_dependencies spans = Ok deps ->
        forall a b,
          (a, b) ∈ deps
          <-> exists span, span ∈ filter_name "task-dependency" spans
                           /\ attributes span !! "from_task_span_id" = Some a
                           /\ attributes span !! "to_task_span_id" = Some b)
  /\ (forall e, extract_task_dependencies spans = Error e ->
                e = KeyError "from_task_span_id" \/ e = KeyError "to_task_span_id")
  /\ (forall uuid summary,
        parse_spans uuid spans = Ok summary ->
        extract_task_dependencies spans
        = Ok (PipelineSummary.task_dependencies summary)).
Proof.
  split; [| split; [| split]].
  - unfold extract_task_dependencies.
    generalize (filter_name "task-dependency" spans). intros l.
    induction l as [|span l IH]; simpl.
    + split; [by intros _ ? ?%elem_of_nil | done].
    + unfold read_key at 1.
      destruct (attributes span !! "from_task_span_id") as [a|] eqn:Ea; simpl.
      * unfold read_key at 1.
        destruct (attributes span !! "to_task_span_id") as [b|] eqn:Eb; simpl.
        -- destruct (map_r _ l) as [rest|e] eqn:El; simpl.
           ++ split; [| done]. intros _ s [->|Hs]%elem_of_cons.
              ** rewrite Ea, Eb. split; by eexists.
              ** by apply IH.
           ++ split; [done |]. intros Hall. apply IH. intros s Hs. apply Hall. by right.
        -- split; [done |]. intros Hall.
           destruct (Hall span ltac:(by left)) as [_ [? Hb]]. by rewrite Eb in Hb.
      * split; [done |]. intros Hall.
        destruct (Hall span ltac:(by left)) as [[? Ha] _]. by rewrite Ea in Ha.
  - intros deps Hall%extract_task_dependencies_pairs a b. split.
    + intros [i Hi]%list_elem_of_lookup.
      destruct (Forall2_lookup_r _ _ _ _ _ Hall Hi) as (span & Hspan & Ha & Hb).
      exists span. split; [by eapply list_elem_of_lookup_2 | done].
    + intros (span & [i Hi]%list_elem_of_lookup & Ha & Hb).
      destruct (Forall2_lookup_l _ _ _ _ _ Hall Hi) as ([a' b'] & Hpair & Ha' & Hb').
      simpl in *. rewrite Ha in Ha'. rewrite Hb in Hb'.
      injection Ha' as <-. injection Hb' as <-. by eapply list_elem_of_lookup_2.
  - intros e. unfold extract_task_dependencies.
    generalize (filter_name "task-dependency" spans). intros l.
    induction l as [|span l IH]; simpl; [done |]. unfold read_key at 1.
    destruct (attributes span !! "from_task_span_id"); simpl;
      [| intros [= <-]; by left].
    unfold read_key at 1.
    destruct (attributes span !! "to_task_span_id"); simpl;
      [| intros [= <-]; by right].
    destruct (map_r _ l); simpl; [done | exact IH].
  - intros uuid summary. unfold parse_spans. cbv zeta.
    intros (attrs & _ & (deps & Ed & (start & _ & (end_ & _ & (runs & _ & Enew
      )%pybind_Ok)%pybind_Ok)%pybind_Ok)%pybind_Ok)%pybind_Ok.
    unfold PipelineSummary.new in Enew.
    destruct (match attrs !! "pipeline.pipeline_run_id" with
              | Some v => v
              | None => VStr ("NO-TOP-SPAN--TEMP" ++ uuid)
              end); try done.
    by injection Enew as <-.
Qed.

(** X10.  In a returned summary the attributes of every task run are the
    "task." attributes found under its span together with the pipeline
    attributes of the summary, the task's own value winning on a common
    key; they hold a string under "task.notebook", and the run's task id is
    that path with every ".py" removed, cut after its last slash: a task id
    holds no slash. *)
Theorem task_run_attributes_and_id (uuid : string) (spans : Spans)
    (summary : PipelineSummary.t) :
  parse_spans uuid spans = Ok summary ->
  forall run, run ∈ PipelineSummary.task_runs summary ->
    exists span own notebook,
      span ∈ filter_name "execute-task" spans
      /\ TaskRunSummary.span_id run = span_id span
      /\ get_attributes (bound_inclusive spans span) ["task."] = Ok own
      /\ TaskRunSummary.attributes run = own ∪ PipelineSummary.attributes summary
      /\ (forall k v, own !! k = Some v -> TaskRunSummary.attributes run !! k = Some v)
      /\ (forall k, own !! k = None ->
            TaskRunSummary.attributes run !! k
            = PipelineSummary.attributes summary !! k)
      /\ TaskRunSummary.attributes run !! "task.notebook" = Some (VStr notebook)
      /\ TaskRunSummary.task_id run
         = last_segment EmptyString (str_remove ".py" 0 notebook)
      /\ str_contains "/" (TaskRunSummary.task_id run) = false.
Proof.
  unfold parse_spans. cbv zeta.
  intros (attrs & _ & (deps & _ & (start & _ & (end_ & _ & (runs & Er & Enew
    )%pybind_Ok)%pybind_Ok)%pybind_Ok)%pybind_Ok)%pybind_Ok run Hrun.
  unfold _task_run_iterator in Er. apply map_r_Forall2 in Er.
  unfold PipelineSummary.new in Enew.
  destruct (match attrs !! "pipeline.pipeline_run_id" with
            | Some v => v
            | None => VStr ("NO-TOP-SPAN--TEMP" ++ uuid)
            end) as [| | |top] eqn:Etop; try done.
  injection Enew as <-. simpl in *.
  apply list_elem_of_lookup in Hrun as [i Hi].
  destruct (Forall2_lookup_r _ _ _ _ _ Er Hi) as (span & Hspan & Hsum).
  apply task_run_summary_fields in Hsum
    as (H1 & _ & _ & _ & _ & (own & nb & Eown & Eattr & Enb & Etid) & _).
  exists span, own, nb.
  split; [eapply sort_by_start_time_elem, list_elem_of_lookup; eauto |].
  split; [done |]. split; [done |]. split; [done |]. rewrite Eattr.
  split; [intros k v Hk; by apply lookup_union_Some_l |].
  split; [intros k Hk; by apply lookup_union_r |].
  split; [done |]. split; [done |]. rewrite Etid. by apply last_segment_no_slash.
Qed.

Lemma loop_string_names_NoDup l acc values :
  logged_values_loop l acc = Ok values ->
  (forall span, span ∈ l -> exists s, name_of span = Some (VStr s)) ->
  NoDup values.*1.
Proof.
  intros (Hall & _ & Hd)%loop_Ok_inv Hstr. apply NoDup_alt.
  assert (forall i j x, i < j -> values.*1 !! i = Some x -> values.*1 !! j = Some x -> False)
    as Hlt.
  { intros i j x Hij Hi Hj. rewrite list_lookup_fmap in Hi, Hj.
    destruct (values !! i) as [kvi|] eqn:Ei; [| done].
    destruct (values !! j) as [kvj|] eqn:Ej; [| done].
    injection Hi as Hi. injection Hj as Hj.
    destruct (Forall2_lookup_r _ _ _ _ _ Hall Ei) as (si & Hsi & ni & Hni & Hki & _).
    destruct (Forall2_lookup_r _ _ _ _ _ Hall Ej) as (sj & Hsj & nj & Hnj & Hkj & _).
    destruct (Hstr si) as [a Ha]; [by eapply list_elem_of_lookup_2 |].
    destruct (Hstr sj) as [b Hb]; [by eapply list_elem_of_lookup_2 |].
    rewrite Ha in Hni. injection Hni as <-. rewrite Hb in Hnj. injection Hnj as <-.
    pose proof (Hd i j si sj (VStr a) (VStr b) Hij Hsi Hsj Ha Hb) as Hne.
    simpl in Hne, Hki, Hkj. apply String.eqb_neq in Hne. congruence. }
  intros i j x Hi Hj. destruct (Nat.lt_trichotomy i j) as [Hij|[->|Hij]]; [| done |].
  - destruct (Hlt i j x Hij Hi Hj).
  - destruct (Hlt j i x Hij Hj Hi).
Qed.

(** X11.  In a returned summary the logged values and artifacts of every
    task run come from the spans bound under its "execute-task" span: a
    logged value is what a status-OK "named-value" span decodes to, stored
    under the string of that span's name, and carries one of the six type
    tags; an artifact carries the tag "utf-8" or "bytes" and is stored under
    the name of a status-OK "artefact" span, or under "notebook.html" beside
    a span named "notebook.ipynb"; and the name of every such artefact span
    is a string that is a key of the run's artifacts. *)
Theorem logged_data_of_task_runs (uuid : string) (spans : Spans)
    (summary : PipelineSummary.t) :
  parse_spans uuid spans = Ok summary ->
  Forall2
    (fun top run =>
       (forall name v,
           TaskRunSummary.logged_values run !! name = Some v ->
           LoggedValueContent.type v ∈ ["utf-8"; "bytes"; "float"; "bool"; "json"; "int"]
           /\ exists span n,
                span ∈ logged_spans "named-value" spans top
                /\ name_of span = Some n /\ py_str n = name
                /\ payload span = Ok v)
       /\ (forall name a,
             TaskRunSummary.logged_artifacts run !! name = Some a ->
             ArtifactContent.type a ∈ ["utf-8"; "bytes"]
             /\ exists span,
                  span ∈ logged_spans "artefact" spans top
                  /\ (name_of span = Some (VStr name)
                      \/ (name = "notebook.html"
                          /\ name_of span = Some (VStr "notebook.ipynb"))))
       /\ (forall span,
             span ∈ logged_spans "artefact" spans top ->
             exists name,
               name_of span = Some (VStr name)
               /\ is_Some (TaskRunSummary.logged_artifacts run !! name)))
    (sort_by_start_time (filter_name "execute-task" spans))
    (PipelineSummary.task_runs summary).
Proof.
  intros Hp. eapply Forall2_impl; [exact (parse_spans_task_runs _ _ _ Hp) |].
  intros top run Hrun.
  apply task_run_summary_fields in Hrun
    as (_ & _ & _ & _ & _ & _ & (values & artifacts & named & Ev & Ea & En & -> & ->)).
  apply strict_str_keys_Ok in En. subst artifacts.
  unfold _artefact_iterator_new in Ea.
  apply pybind_Ok in Ea as (yielded & Ey & [= Hconcat]).
  apply map_r_Forall2 in Ey.
  split; [| split].
  - intros name v Hl%py_dict_elem.
    unfold _get_logged_named_values_new in Ev.
    apply loop_Ok_inv in Ev as (Hall & _ & _).
    apply list_elem_of_lookup in Hl as [i Hi].
    destruct (Forall2_lookup_r _ _ _ _ _ Hall Hi) as (span & Hspan & n & Hn & Hname & Hpay).
    simpl in *. split; [by apply (payload_Ok span) |].
    exists span, n. split; [by eapply list_elem_of_lookup_2 | done].
  - intros name a Hl%py_dict_elem.
    apply (list_elem_of_fmap_2 (fun kv => (VStr kv.1, kv.2))) in Hl.
    rewrite <- Hconcat in Hl. simpl in Hl.
    apply elem_of_concat in Hl as (group & [i Hi]%list_elem_of_lookup & Hin).
    destruct (Forall2_lookup_r _ _ _ _ _ Ey Hi) as (span & Hspan & Hstep).
    apply artefact_step_Ok in Hstep as (n & first & Hn & Hgroup & Hty).
    split.
    + rewrite Forall_forall in Hty. apply (Hty _ Hin).
    + exists span. split; [by eapply list_elem_of_lookup_2 |].
      destruct Hgroup as [->|(second & -> & _ & _ & ->)].
      * apply list_elem_of_singleton in Hin. injection Hin as <- _. by left.
      * apply elem_of_cons in Hin as [[= -> _]|Hin]; [by left |].
        apply list_elem_of_singleton in Hin. injection Hin as -> _. by right.
  - intros span [i Hi]%list_elem_of_lookup.
    destruct (Forall2_lookup_l _ _ _ _ _ Ey Hi) as (group & Hgroup & Hstep).
    apply artefact_step_Ok in Hstep as (n & first & Hn & Hshape & _).
    assert ((n, first) ∈ concat yielded) as Hin.
    { apply elem_of_concat. exists group.
      split; [by eapply list_elem_of_lookup_2 |].
      destruct Hshape as [->|(second & _ & _ & _ & ->)]; by left. }
    rewrite Hconcat in Hin.
    apply list_elem_of_fmap in Hin as ([name a] & [= -> ->] & Hin).
    exists name. split; [done |]. apply py_dict_acc_key.
    by apply (list_elem_of_fmap_2 fst) in Hin.
Qed.

(** X12.  When the status-OK "named-value" spans bound under an
    "execute-task" span all log string names, the logged values of its task
    run in a returned summary hold exactly one entry per such span, under
    the span's name, and the entry is what the span decodes to. *)
Theorem logged_values_by_name (uuid : string) (spans : Spans)
    (summary : PipelineSummary.t) :
  parse_spans uuid spans = Ok summary ->
  Forall2
    (fun top run =>
       let scope := logged_spans "named-value" spans top in
       (forall span, span ∈ scope -> exists s, name_of span = Some (VStr s)) ->
       size (TaskRunSummary.logged_values run) = length scope
       /\ (forall span s,
             span ∈ scope -> name_of span = Some (VStr s) ->
             exists v, TaskRunSummary.logged_values run !! s = Some v
                       /\ payload span = Ok v))
    (sort_by_start_time (filter_name "execute-task" spans))
    (PipelineSummary.task_runs summary).
Proof.
  intros Hp. eapply Forall2_impl; [exact (parse_spans_task_runs _ _ _ Hp) |].
  intros top run Hrun scope Hstr.
  apply task_run_summary_fields in Hrun
    as (_ & _ & _ & _ & _ & _ & (values & artifacts & named & Ev & _ & _ & -> & _)).
  unfold _get_logged_named_values_new in Ev. fold scope in Ev.
  pose proof (loop_string_names_NoDup _ _ _ Ev Hstr) as Hnd.
  apply loop_Ok_inv in Ev as (Hall & _ & _).
  split.
  - unfold py_dict. rewrite py_dict_size; [| done | by intros k _].
    rewrite map_size_empty. symmetry. by apply (Forall2_length _ _ _ Hall).
  - intros span s [i Hi]%list_elem_of_lookup Hs.
    destruct (Forall2_lookup_l _ _ _ _ _ Hall Hi) as ([k v] & Hkv & n & Hn & Hk & Hpay).
    simpl in *. rewrite Hs in Hn. injection Hn as <-. simpl in Hk. subst k.
    exists v. split; [| done].
    apply py_dict_acc_lookup; [done | by eapply list_elem_of_lookup_2].
Qed.

End MoreParserFacts.

Lemma parse_two_values_summary :
  parse_spans (H := example_helpers) "uuid" (two_values (Some "run-1"))
  = Ok two_values_summary.
Proof. vm_compute. reflexivity. Qed.

Lemma task_runs_follow_execute_task_spans_witness :
  Forall2
    (fun span run =>
       TaskRunSummary.span_id run = span_id span
       /\ String.prefix "0x" (span_id span) = true
       /\ TaskRunSummary.parent_span_id run = PipelineSummary.span_id two_values_summary
       /\ TaskRunSummary.timing run
          = {| Timing.start_time_iso8601 := start_time span;
               Timing.end_time_iso8601 := end_time span |}
       /\ TaskRunSummary.exceptions run
          = exception_events (SpanHelpers := example_helpers)
              (bound_inclusive (SpanHelpers := example_helpers)
                 (two_values (Some "run-1")) span))
    (sort_by_start_time (filter_name "execute-task" (two_values (Some "run-1"))))
    (PipelineSummary.task_runs two_values_summary).
Proof.
  apply (task_runs_follow_execute_task_spans (H := example_helpers) "uuid"
           (two_values (Some "run-1")) two_values_summary parse_two_values_summary).
Defined.

Lemma task_run_attributes_and_id_witness :
  exists span own notebook,
    span ∈ filter_name "execute-task" (two_values (Some "run-1"))
    /\ span_id span = "0x01"
    /\ get_attributes (SpanHelpers := example_helpers)
         (bound_inclusive (SpanHelpers := example_helpers)
            (two_values (Some "run-1")) span) ["task."] = Ok own
    /\ (own ∪ PipelineSummary.attributes two_values_summary)
       !! "task.notebook" = Some (VStr notebook)
    /\ last_segment EmptyString (str_remove ".py" 0 notebook) = "train".
Proof.
  destruct (task_run_attributes_and_id (H := example_helpers) "uuid"
              (two_values (Some "run-1")) two_values_summary
              parse_two_values_summary two_values_run)
    as (span & own & notebook & Hspan & Hid & Hown & Hattr & _ & _ & Hnb & Htid & _).
  { by left. }
  exists span, own, notebook. simpl in Hid, Htid.
  split; [done |]. split; [done |]. split; [done |].
  split; [by rewrite <- Hattr |]. done.
Defined.

(** *** Writing artifacts, and the deprecated iterators *)

(** X13.  Writing an [ArtifactContent] that passed validation: when the
    content is a str under the tag "utf-8", or bytes under the tag "bytes",
    the file holds exactly the content afterwards; otherwise the write fails
    its assertion and no file changes.  The "Internal error" of [write] is
    never raised. *)
Theorem artifact_write_after_validation (type_ content_ : PyVal)
    (a : ArtifactContent.t) (filepath : string)
    (files : gmap string ArtifactContent.content_t) :
  ArtifactContent.new type_ content_ = Ok a ->
  ArtifactContent.write a filepath files
  = if match ArtifactContent.content a with
       | ArtifactContent.ContentStr _ => bool_decide (ArtifactContent.type a = "utf-8")
       | ArtifactContent.ContentBytes _ => bool_decide (ArtifactContent.type a = "bytes")
       end
    then (<[filepath := ArtifactContent.content a]> files, Ok tt)
    else (files, Error AssertionError).
Proof.
  intros (_ & Hty & _)%artifact_new_Ok. unfold ArtifactContent.write.
  destruct a as [ty c]. simpl in *.
  apply elem_of_cons in Hty as [->|Hty].
  - by destruct c.
  - apply list_elem_of_singleton in Hty as ->. by destruct c.
Qed.

Lemma artifact_write_after_validation_witness :
  ArtifactContent.write
    {| ArtifactContent.type := "utf-8";
       ArtifactContent.content := ArtifactContent.ContentStr "done" |}
    "report.txt" ∅
  = (<["report.txt" := ArtifactContent.ContentStr "done"]> ∅, Ok tt).
Proof.
  apply (artifact_write_after_validation (PStr "utf-8") (PStr "done")
           {| ArtifactContent.type := "utf-8";
              ArtifactContent.content := ArtifactContent.ContentStr "done" |}
           "report.txt" ∅).
  reflexivity.
Defined.

Lemma py_getitem_Ok d k v : py_getitem d k = Ok v <-> d !! k = Some v.
Proof.
  unfold py_getitem. destruct (d !! k); split; try done; by intros [= ->].
Qed.

Section DeprecatedIterators.

Context `{SpanHelpers}.

Lemma add_html_step_Ok with_suffix_html d group :
  add_html_step with_suffix_html d = Ok group ->
  exists name,
    d !! "name" = Some (PStr name)
    /\ ((str_endswith ".ipynb" name = true
         /\ d !! "type" = Some (PStr "utf-8")
         /\ exists content html,
              d !! "content" = Some content
              /\ convert_ipynb_to_html content = Ok html
              /\ group = [ <["content" := html]>
                             (<["type" := PStr "utf-8"]>
                                (<["name" := PStr (with_suffix_html name)]> d)); d ])
        \/ ((str_endswith ".ipynb" name = false
             \/ (is_Some (d !! "type") /\ d !! "type" <> Some (PStr "utf-8")))
            /\ group = [d])).
Proof.
  unfold add_html_step. intros (n & Hn%py_getitem_Ok & E)%pybind_Ok.
  destruct n as [| | | |name| | |]; try done. exists name. split; [done |].
  destruct (str_endswith ".ipynb" name) eqn:Eend;
    [| injection E as <-; right; split; [by left | done]].
  apply pybind_Ok in E as (ty & Hty%py_getitem_Ok & E).
  destruct (match ty with PStr t => String.eqb t "utf-8" | _ => false end) eqn:Ety.
  - destruct ty as [| | | |t| | |]; try done. apply String.eqb_eq in Ety as ->.
    apply pybind_Ok in E as (content & Hc%py_getitem_Ok & (html & Hh & [= <-])%pybind_Ok).
    left. split; [done |]. split; [done |]. by exists content, html.
  - injection E as <-. right. split; [| done]. right. split; [by eexists |].
    rewrite Hty. intros [= ->]. by rewrite String.eqb_refl in Ety.
Qed.

(** X14.  [add_html_notebook_artefacts] returns the artefacts it is given,
    in order, each notebook among them (a name ending in ".ipynb" with type
    "utf-8") preceded by its html page: the notebook's dict with the name,
    the type and the converted content replaced.  Nothing else is added, so
    the input is a sublist of the result, which is at most twice as long.
    It returns only when every artefact has a str under "name". *)
Theorem add_html_notebook_artefacts_spec (with_suffix_html : string -> string)
    (artefacts result : list (gmap string PyVal)) :
  add_html_notebook_artefacts with_suffix_html artefacts = Ok result ->
  (exists groups,
      result = concat groups
      /\ Forall2
           (fun d group =>
              exists name,
                d !! "name" = Some (PStr name)
                /\ ((str_endswith ".ipynb" name = true
                     /\ d !! "type" = Some (PStr "utf-8")
                     /\ exists content html,
                          d !! "content" = Some content
                          /\ convert_ipynb_to_html content = Ok html
                          /\ group
                             = [ <["content" := html]>
                                   (<["type" := PStr "utf-8"]>
                                      (<["name" := PStr (with_suffix_html name)]> d));
                                 d ])
                    \/ ((str_endswith ".ipynb" name = false
                         \/ (is_Some (d !! "type")
                             /\ d !! "type" <> Some (PStr "utf-8")))
                        /\ group = [d])))
           artefacts groups)
  /\ artefacts `sublist_of` result
  /\ length artefacts <= length result <= 2 * length artefacts.
Proof.
  unfold add_html_notebook_artefacts.
  intros (groups & Hg%map_r_Forall2 & [= <-])%pybind_Ok.
  assert (Forall2 (fun d group => group = [d] \/ exists h, group = [h; d])
            artefacts groups) as Hshape.
  { eapply Forall2_impl; [exact Hg |]. intros d group Hstep.
    apply add_html_step_Ok in Hstep
      as (name & _ & [(_ & _ & content & html & _ & _ & ->)|[_ ->]]);
      [right; by eexists | by left]. }
  split; [| split].
  - exists groups. split; [done |]. eapply Forall2_impl; [exact Hg |].
    intros d group Hstep. by apply add_html_step_Ok.
  - clear Hg. induction Hshape as [|d group ds gs [->|[h ->]] _ IH]; simpl.
    + constructor.
    + by apply sublist_skip.
    + by apply sublist_cons, sublist_skip.
  - clear Hg. induction Hshape as [|d group ds gs [->|[h ->]] _ IH]; simpl in *; lia.
Qed.

Lemma artifact_dict_items_keys a :
  exists name, artifact_dict_items a !! "name" = Some name
               /\ artifact_dict_items a !! "encoding" = None.
Proof.
  exists (to_py (ad_name a)). unfold artifact_dict_items. split.
  - by rewrite lookup_insert_eq.
  - rewrite !lookup_insert_ne by done. by rewrite lookup_singleton_ne.
Qed.

Lemma write_artefact_no_encoding path_join run_path d files name :
  d !! "name" = Some name -> d !! "encoding" = None ->
  write_artefact path_join run_path d files = (files, Error (KeyError "encoding")).
Proof.
  intros Hn He. unfold write_artefact, py_getitem. by rewrite Hn, He.
Qed.

(** X15.  The log parser's loop over the artefacts of a run reads
    [artefact_dict["encoding"]], a key that no dict of [_artefact_iterator]
    has, nor the html pages [add_html_notebook_artefacts] puts beside them:
    for every artefact the loop body raises [KeyError] for "encoding" and
    writes no file, so the loop over a run with at least one artefact ends
    with that error at the first of them. *)
Theorem cli_artefact_loop_key_error (with_suffix_html : string -> string)
    (path_join : string -> string -> string) (run_path : string)
    (spans : Spans) (task_run_top_span : SpanDict)
    (artefacts result : list (gmap string PyVal)) (files : gmap string string) :
  _artefact_iterator spans task_run_top_span = Ok artefacts ->
  add_html_notebook_artefacts with_suffix_html artefacts = Ok result ->
  (forall d, d ∈ result ->
             write_artefact path_join run_path d files
             = (files, Error (KeyError "encoding")))
  /\ write_artefacts path_join run_path result files
     = (files, if decide (artefacts = []) then Ok tt else Error (KeyError "encoding")).
Proof.
  intros Hit Hadd.
  assert (forall d, d ∈ artefacts ->
                    exists name, d !! "name" = Some name /\ d !! "encoding" = None) as Hkeys.
  { unfold _artefact_iterator in Hit. apply map_r_Forall2 in Hit.
    intros d [i Hi]%list_elem_of_lookup.
    destruct (Forall2_lookup_r _ _ _ _ _ Hit Hi) as (span & _ & Hd).
    apply pybind_Ok in Hd as (a & _ & [= <-]). apply artifact_dict_items_keys. }
  unfold add_html_notebook_artefacts in Hadd.
  apply pybind_Ok in Hadd as (groups & Hg%map_r_Forall2 & [= <-]).
  assert (forall d0 group,
            d0 ∈ artefacts -> add_html_step with_suffix_html d0 = Ok group ->
            group <> []
            /\ forall d, d ∈ group ->
                         write_artefact path_join run_path d files
                         = (files, Error (KeyError "encoding"))) as Hgroup.
  { intros d0 group Hd0 Hstep. destruct (Hkeys d0 Hd0) as (name' & Hname' & Henc).
    apply add_html_step_Ok in Hstep
      as (name & Hname & [(_ & _ & content & html & _ & _ & ->)|[_ ->]]).
    - split; [done |]. intros d [->|Hd]%elem_of_cons.
      + eapply write_artefact_no_encoding.
        * rewrite lookup_insert_ne by done. rewrite lookup_insert_ne by done.
          by rewrite lookup_insert_eq.
        * by rewrite !lookup_insert_ne.
      + apply list_elem_of_singleton in Hd as ->.
        by eapply write_artefact_no_encoding.
    - split; [done |]. intros d ->%list_elem_of_singleton.
      by eapply write_artefact_no_encoding. }
  assert (forall d, d ∈ concat groups ->
                    write_artefact path_join run_path d files
                    = (files, Error (KeyError "encoding"))) as Hbody.
  { intros d (group & [i Hi]%list_elem_of_lookup & Hd)%elem_of_concat.
    destruct (Forall2_lookup_r _ _ _ _ _ Hg Hi) as (d0 & Hd0 & Hstep).
    apply (Hgroup d0 group); [by eapply list_elem_of_lookup_2 | done | done]. }
  split; [done |].
  destruct artefacts as [|d0 rest].
  - apply Forall2_nil_inv_l in Hg as ->. done.
  - apply Forall2_cons_inv_l in Hg as (group & gs & Hstep & _ & ->).
    destruct (Hgroup d0 group ltac:(by left) Hstep) as [Hne _].
    destruct group as [|d group]; [done |]. simpl.
    rewrite Hbody by (simpl; by left). done.
Qed.


Lemma loop_unfold_decoded span todo acc n ty enc c :
  keys_ok span = true ->
  attributes span !! "name" = Some n -> attributes span !! "type" = Some ty ->
  attributes span !! "encoding" = Some enc ->
  attributes span !! "content_encoded" = Some c ->
  logged_values_loop (span :: todo) acc
  = if py_in n acc then Error (duplicate_logged_value n)
    else content <- decode {| sd_type := ty; sd_encoding := enc;
                              sd_encoded_content := c |} ;;
         value <- LoggedValueContent.new (to_py ty) content ;;
         rest <- logged_values_loop todo (acc ++ [n]) ;;
         Ok ((py_str n, value) :: rest).
Proof.
  intros Hk Hn Hty Henc Hc. simpl. unfold keys_ok in Hk. rewrite Hk. simpl.
  unfold read_key. rewrite Hn, Hty, Henc, Hc. simpl. by destruct (py_in n acc).
Qed.

Lemma dict_loop_unfold_decoded span todo result n ty enc c :
  keys_ok span = true ->
  attributes span !! "name" = Some n -> attributes span !! "type" = Some ty ->
  attributes span !! "encoding" = Some enc ->
  attributes span !! "content_encoded" = Some c ->
  logged_values_dict_loop (span :: todo) result
  = if py_in n (map fst result) then Error (duplicate_logged_value n)
    else value <- decode {| sd_type := ty; sd_encoding := enc;
                            sd_encoded_content := c |} ;;
         logged_values_dict_loop todo (result ++ [(n, (value, ty))]).
Proof.
  intros Hk Hn Hty Henc Hc. simpl. unfold keys_ok in Hk. rewrite Hk. simpl.
  unfold read_key. rewrite Hn, Hty, Henc, Hc. simpl. by destruct (py_in n (map fst result)).
Qed.

Lemma keys_ok_attributes span :
  keys_ok span = true ->
  exists n ty enc c,
    attributes span !! "name" = Some n /\ attributes span !! "type" = Some ty
    /\ attributes span !! "encoding" = Some enc
    /\ attributes span !! "content_encoded" = Some c.
Proof.
  intros Hk. destruct logged_keys_mem as (Hn & Hty & Henc & Hc).
  destruct (keys_ok_lookup span _ Hk Hn) as (n & _ & ?).
  destruct (keys_ok_lookup span _ Hk Hty) as (ty & _ & ?).
  destruct (keys_ok_lookup span _ Hk Henc) as (enc & _ & ?).
  destruct (keys_ok_lookup span _ Hk Hc) as (c & _ & ?).
  by exists n, ty, enc, c.
Qed.

Lemma dict_loop_extends l result r :
  logged_values_dict_loop l result = Ok r -> exists added, r = result ++ added.
Proof.
  revert result. induction l as [|span l IH]; intros result E.
  - injection E as <-. exists []. by rewrite app_nil_r.
  - destruct (keys_ok span) eqn:Hk;
      [| simpl in E; unfold keys_ok in Hk; by rewrite Hk in E].
    destruct (keys_ok_attributes span Hk) as (n & ty & enc & c & Hn & Hty & Henc & Hc).
    rewrite (dict_loop_unfold_decoded _ _ _ _ _ _ _ Hk Hn Hty Henc Hc) in E.
    destruct (py_in n (map fst result)); [done |].
    apply pybind_Ok in E as (value & _ & (added & ->)%IH).
    rewrite <- app_assoc. by eexists.
Qed.

Lemma loops_agree_new_to_deprecated l acc result values :
  acc = map fst result ->
  logged_values_loop l acc = Ok values ->
  exists added,
    logged_values_dict_loop l result = Ok (result ++ added)
    /\ Forall2
         (fun kv r =>
            kv.1 = py_str r.1
            /\ LoggedValueContent.content kv.2 = r.2.1
            /\ r.2.2 = VStr (LoggedValueContent.type kv.2)
            /\ LoggedValueContent.type kv.2
               ∈ ["utf-8"; "bytes"; "float"; "bool"; "json"; "int"])
         values added.
Proof.
  revert acc result values. induction l as [|span l IH]; intros acc result values -> E.
  - injection E as <-. exists []. rewrite app_nil_r. split; [done | constructor].
  - destruct (keys_ok span) eqn:Hk; [| by rewrite loop_not_keys_ok in E].
    destruct (keys_ok_attributes span Hk) as (n & ty & enc & c & Hn & Hty & Henc & Hc).
    rewrite (loop_unfold_decoded _ _ _ _ _ _ _ Hk Hn Hty Henc Hc) in E.
    rewrite (dict_loop_unfold_decoded _ _ _ _ _ _ _ Hk Hn Hty Henc Hc).
    destruct (py_in n (map fst result)); [done |].
    apply pybind_Ok in E as (content & -> & (value & Enew & (rest & Erest & [= <-]
      )%pybind_Ok)%pybind_Ok).
    simpl.
    destruct (IH _ (result ++ [(n, (content, ty))]) _ ltac:(by rewrite map_app) Erest)
      as (added & -> & Hall).
    exists ((n, (content, ty)) :: added). rewrite <- app_assoc. split; [done |].
    apply logged_value_new_Ok in Enew as (Hty' & Hcontent & Hin).
    constructor; [| done]. simpl. repeat split; try done.
    destruct ty; simpl in Hty'; try done. by injection Hty' as <-.
Qed.

Lemma loops_agree_deprecated_to_new l acc result values added :
  acc = map fst result ->
  logged_values_dict_loop l result = Ok (result ++ added) ->
  Forall2
    (fun kv r =>
       kv.1 = py_str r.1
       /\ LoggedValueContent.content kv.2 = r.2.1
       /\ r.2.2 = VStr (LoggedValueContent.type kv.2)
       /\ LoggedValueContent.type kv.2
          ∈ ["utf-8"; "bytes"; "float"; "bool"; "json"; "int"])
    values added ->
  logged_values_loop l acc = Ok values.
Proof.
  revert acc result values added.
  induction l as [|span l IH]; intros acc result values added -> E Hall.
  - injection E as E. rewrite <- (app_nil_r result) in E at 1.
    apply app_inv_head in E as <-. by apply Forall2_nil_inv_r in Hall as ->.
  - destruct (keys_ok span) eqn:Hk;
      [| simpl in E; unfold keys_ok in Hk; by rewrite Hk in E].
    destruct (keys_ok_attributes span Hk) as (n & ty & enc & c & Hn & Hty & Henc & Hc).
    rewrite (loop_unfold_decoded _ _ _ _ _ _ _ Hk Hn Hty Henc Hc).
    rewrite (dict_loop_unfold_decoded _ _ _ _ _ _ _ Hk Hn Hty Henc Hc) in E.
    destruct (py_in n (map fst result)); [done |].
    apply pybind_Ok in E as (content & -> & E). simpl.
    destruct (dict_loop_extends _ _ _ E) as (added' & Heq).
    rewrite <- app_assoc in Heq. apply app_inv_head in Heq as ->.
    apply Forall2_cons_inv_r in Hall
      as ([name [t content']] & values' & (Hname & Hcontent & Ht & Hin) & Hall & ->).
    simpl in *. subst name content' ty.
    unfold LoggedValueContent.new, LoggedValueContent.validate_type. simpl.
    rewrite bool_decide_eq_true_2 by done. simpl.
    rewrite (IH _ (result ++ [(n, (content, VStr t))]) values' added');
      [done | by rewrite map_app | by rewrite <- app_assoc | done].
Qed.

(** X17.  The generator of logged values and the deprecated
    [_get_logged_named_values] agree: the generator returns exactly when the
    deprecated function returns and every logged type is one of the six
    tags, and then the two hold, in the same order, the same names (as
    strings in the generator), contents and types. *)
Theorem logged_values_new_and_deprecated (spans : Spans) (task_run_top_span : SpanDict)
    (values : list (string * LoggedValueContent.t)) :
  _get_logged_named_values_new spans task_run_top_span = Ok values
  <-> exists result,
        _get_logged_named_values spans task_run_top_span = Ok result
        /\ Forall2
             (fun kv r =>
                kv.1 = py_str r.1
                /\ LoggedValueContent.content kv.2 = r.2.1
                /\ r.2.2 = VStr (LoggedValueContent.type kv.2)
                /\ LoggedValueContent.type kv.2
                   ∈ ["utf-8"; "bytes"; "float"; "bool"; "json"; "int"])
             values result.
Proof.
  unfold _get_logged_named_values_new, _get_logged_named_values. split.
  - intros E. by apply (loops_agree_new_to_deprecated _ [] []) in E.
  - intros (result & E & Hall).
    by apply (loops_agree_deprecated_to_new _ [] [] values result).
Qed.

End DeprecatedIterators.

Example artefacts_of_notebook_and_report :
  _artefact_iterator (H := example_helpers) notebook_and_report
    (execute_task_span (Some "run-1"))
  = Ok notebook_and_report_artefacts.
Proof. vm_compute. reflexivity. Qed.

Example html_of_notebook_and_report :
  add_html_notebook_artefacts (H := example_helpers) example_with_suffix_html
    notebook_and_report_artefacts
  = Ok notebook_and_report_with_html.
Proof. vm_compute. reflexivity. Qed.

Lemma add_html_notebook_artefacts_spec_witness :
  notebook_and_report_artefacts `sublist_of` notebook_and_report_with_html
  /\ length notebook_and_report_artefacts <= length notebook_and_report_with_html
     <= 2 * length notebook_and_report_artefacts.
Proof.
  destruct (add_html_notebook_artefacts_spec (H := example_helpers)
              example_with_suffix_html notebook_and_report_artefacts
              notebook_and_report_with_html html_of_notebook_and_report)
    as (_ & Hsub & Hlen).
  split; [exact Hsub | exact Hlen].
Defined.

Lemma cli_artefact_loop_key_error_witness :
  write_artefacts example_path_join "out" notebook_and_report_with_html ∅
  = (∅, Error (KeyError "encoding")).
Proof.
  destruct (cli_artefact_loop_key_error (H := example_helpers)
              example_with_suffix_html example_path_join "out" notebook_and_report
              (execute_task_span (Some "run-1")) notebook_and_report_artefacts
              notebook_and_report_with_html ∅
              artefacts_of_notebook_and_report html_of_notebook_and_report)
    as [_ Hloop].
  rewrite Hloop. by destruct (decide (notebook_and_report_artefacts = [])).
Defined.

Lemma write_artefact_outcome path_join run_path d files :
  (exists name text,
      d !! "name" = Some (PStr name)
      /\ d !! "encoding" = Some (PStr "text/utf-8")
      /\ d !! "content" = Some (PStr text)
      /\ String.prefix "/" (path_join run_path name) = false
      /\ str_contains ".." (path_join run_path name) = false
      /\ write_artefact path_join run_path d files
         = (<[path_join run_path name := text]> files, Ok tt))
  \/ exists e, write_artefact path_join run_path d files = (files, Error e).
Proof.
  unfold write_artefact, safe_path, py_getitem.
  destruct (d !! "name") as [name|] eqn:Hn; [| right; by eexists].
  destruct (d !! "encoding") as [enc|] eqn:He; [| right; by eexists].
  destruct (d !! "content") as [content|] eqn:Hc; [| right; by eexists].
  destruct (match enc with PStr e => String.eqb e "text/utf-8" | _ => false end)
    eqn:Eenc; [| right; by eexists].
  destruct enc as [| | | |e| | |]; try done. apply String.eqb_eq in Eenc as ->.
  destruct name as [| | | |name| | |]; try (right; by eexists).
  destruct (String.prefix "/" (path_join run_path name)) eqn:Eabs; [right; by eexists |].
  destruct (str_contains ".." (path_join run_path name)) eqn:Edots;
    [right; by eexists |].
  destruct content as [| | | |text| | |]; try (right; by eexists).
  left. by exists name, text.
Qed.

(** X16.  The loop of the log parser that writes the artefacts of a run
    changes only files whose path does not start with "/" and holds no "..":
    a file that differs after the loop, whether the loop ended or raised, is
    at the path of one of the artefacts, whose name and content are strs and
    whose encoding is "text/utf-8", and its content is a str some such
    artefact at this path holds. *)
Theorem write_artefacts_safe (path_join : string -> string -> string)
    (run_path : string) (artefacts : list (gmap string PyVal))
    (files : gmap string string) (path : string) :
  (write_artefacts path_join run_path artefacts files).1 !! path <> files !! path ->
  String.prefix "/" path = false
  /\ str_contains ".." path = false
  /\ exists d name text,
       d ∈ artefacts
       /\ d !! "name" = Some (PStr name)
       /\ d !! "encoding" = Some (PStr "text/utf-8")
       /\ d !! "content" = Some (PStr text)
       /\ path = path_join run_path name
       /\ (write_artefacts path_join run_path artefacts files).1 !! path = Some text.
Proof.
  revert files. induction artefacts as [|d artefacts IH]; intros files Hdiff; [done |].
  simpl in *.
  destruct (write_artefact_outcome path_join run_path d files)
    as [(name & text & Hn & He & Hc & Habs & Hdots & Ew)|[e Ew]];
    rewrite Ew in *; simpl in *; [| done].
  destruct (decide ((write_artefacts path_join run_path artefacts
                       (<[path_join run_path name := text]> files)).1 !! path
                    = <[path_join run_path name := text]> files !! path)) as [Esame|Hlater].
  - destruct (decide (path_join run_path name = path)) as [<-|Hne].
    + split; [done |]. split; [done |]. exists d, name, text.
      rewrite Esame, lookup_insert_eq. repeat split; try done. by left.
    + rewrite Esame, lookup_insert_ne in Hdiff by done. done.
  - destruct (IH _ Hlater) as (H1 & H2 & d' & name' & text' & Hd' & Hrest).
    split; [done |]. split; [done |]. exists d', name', text'.
    split; [by right | done].
Qed.

Lemma write_artefacts_safe_witness :
  String.prefix "/" "out/report.txt" = false
  /\ str_contains ".." "out/report.txt" = false
  /\ exists d name text,
       d ∈ [text_artefact "report.txt" "done"]
       /\ d !! "name" = Some (PStr name)
       /\ d !! "encoding" = Some (PStr "text/utf-8")
       /\ d !! "content" = Some (PStr text)
       /\ "out/report.txt" = example_path_join "out" name
       /\ (write_artefacts example_path_join "out"
             [text_artefact "report.txt" "done"] ∅).1 !! "out/report.txt" = Some text.
Proof.
  apply (write_artefacts_safe example_path_join "out"
           [text_artefact "report.txt" "done"] ∅ "out/report.txt").
  vm_compute. discriminate.
Defined.

Lemma parse_notebook_and_report :
  parse_spans (H := example_helpers) "uuid" notebook_and_report
  = Ok notebook_and_report_summary.
Proof. vm_compute. reflexivity. Qed.

Lemma logged_data_of_task_runs_witness :
  Forall2
    (fun top run =>
       (forall name v,
           TaskRunSummary.logged_values run !! name = Some v ->
           LoggedValueContent.type v ∈ ["utf-8"; "bytes"; "float"; "bool"; "json"; "int"]
           /\ exists span n,
                span ∈ logged_spans (H := example_helpers) "named-value"
                         notebook_and_report top
                /\ name_of span = Some n /\ py_str (H := example_helpers) n = name
                /\ payload (H := example_helpers) span = Ok v)
       /\ (forall name a,
             TaskRunSummary.logged_artifacts run !! name = Some a ->
             ArtifactContent.type a ∈ ["utf-8"; "bytes"]
             /\ exists span,
                  span ∈ logged_spans (H := example_helpers) "artefact"
                           notebook_and_report top
                  /\ (name_of span = Some (VStr name)
                      \/ (name = "notebook.html"
                          /\ name_of span = Some (VStr "notebook.ipynb"))))
       /\ (forall span,
             span ∈ logged_spans (H := example_helpers) "artefact"
                      notebook_and_report top ->
             exists name,
               name_of span = Some (VStr name)
               /\ is_Some (TaskRunSummary.logged_artifacts run !! name)))
    (sort_by_start_time (filter_name "execute-task" notebook_and_report))
    (PipelineSummary.task_runs notebook_and_report_summary).
Proof.
  apply (logged_data_of_task_runs (H := example_helpers) "uuid" notebook_and_report
           notebook_and_report_summary parse_notebook_and_report).
Defined.

Lemma logged_values_by_name_witness :
  Forall2
    (fun top run =>
       let scope :=
         logged_spans (H := example_helpers) "named-value" (two_values (Some "run-1")) top in
       (forall span, span ∈ scope -> exists s, name_of span = Some (VStr s)) ->
       size (TaskRunSummary.logged_values run) = length scope
       /\ (forall span s,
             span ∈ scope -> name_of span = Some (VStr s) ->
             exists v, TaskRunSummary.logged_values run !! s = Some v
                       /\ payload (H := example_helpers) span = Ok v))
    (sort_by_start_time (filter_name "execute-task" (two_values (Some "run-1"))))
    (PipelineSummary.task_runs two_values_summary).
Proof.
  apply (logged_values_by_name (H := example_helpers) "uuid" (two_values (Some "run-1"))
           two_values_summary parse_two_values_summary).
Defined.

End SpanParserFacts.

(** ** The retry and timeout wrappers *)

Module RayHelpersFacts.
Import RayHelpers.

Section Retry.

Context {St A : Type} (f : nat -> St -> St * A) (is_success : A -> bool).

Lemma retry_loop_spec attempts_left attempt st :
  1 <= attempts_left ->
  let results := (retry_loop f is_success attempts_left attempt st).2 in
  1 <= length results <= attempts_left
  /\ retry_loop f is_success attempts_left attempt st
     = invoke_in_turn f (length results) attempt st
  /\ (forall i r, S i < length results -> results !! i = Some r -> is_success r = false)
  /\ (length results < attempts_left ->
      exists r, last results = Some r /\ is_success r = true).
Proof.
  revert attempt st. induction attempts_left as [|n IH]; intros attempt st Hle; [lia |].
  simpl. destruct (f attempt st) as [st' r] eqn:Ef.
  destruct (is_success r) eqn:Er.
  - simpl. rewrite Ef. split; [lia |]. split; [done |]. split.
    + intros i r' Hi. lia.
    + intros _. exists r. done.
  - destruct n as [|n'].
    + simpl. rewrite Ef. split; [lia |]. split; [done |]. split.
      * intros i r' Hi. lia.
      * intros Hlt. lia.
    + specialize (IH (S attempt) st' ltac:(lia)).
      destruct (retry_loop f is_success (S n') (S attempt) st') as [st'' results] eqn:El.
      simpl in IH. destruct IH as (Hlen & Hinv & Hfail & Hlast).
      simpl. rewrite Ef. rewrite <- Hinv. split; [lia |]. split; [done |]. split.
      * intros [|i] r' Hi.
        -- by intros [= <-].
        -- simpl. apply Hfail. lia.
      * intros Hlt. destruct Hlast as (r' & Hr' & Hs); [lia |].
        exists r'. split; [| done].
        destruct results as [|r0 results']; [done |].
        by rewrite last_cons, Hr'.
Qed.

(** C6.  With [max_retries >= 1] the retry wrapper gives the results of
    invoking the callable with the attempt numbers 0, 1, 2, ... in turn, as
    many times as the list is long; the list has between 1 and
    [max_retries] results; every result but the last fails the predicate;
    and when fewer than [max_retries] attempts were made the last result
    satisfies it. *)
Theorem retry_wrapper_results (max_retries : nat) (st : St) :
  1 <= max_retries ->
  let results := (retry_wrapper f max_retries is_success st).2 in
  1 <= length results <= max_retries
  /\ retry_wrapper f max_retries is_success st
     = invoke_in_turn f (length results) 0 st
  /\ (forall i r, S i < length results -> results !! i = Some r -> is_success r = false)
  /\ (length results < max_retries ->
      exists r, last results = Some r /\ is_success r = true).
Proof. intros Hle. by apply retry_loop_spec. Qed.

End Retry.

(** The tests of the retry wrapper. *)
Example test_retry_all_fail :
  (retry_wrapper (fun _ (st : unit) => (st, "foo")) 10 (fun _ => false) tt).2
  = replicate 10 "foo".
Proof. reflexivity. Qed.

Example test_retry_all_success :
  (retry_wrapper (fun _ (st : unit) => (st, "foo")) 10 (fun _ => true) tt).2 = ["foo"].
Proof. reflexivity. Qed.

Example test_retry_deterministic_success :
  (retry_wrapper (fun retry_nr (st : unit) => (st, retry_nr)) 10 (fun x => 4 <=? x) tt).2
  = [0; 1; 2; 3; 4].
Proof. reflexivity. Qed.

Lemma retry_wrapper_results_witness :
  let results :=
    (retry_wrapper (fun retry_nr (st : unit) => (st, retry_nr)) 10 (fun x => 4 <=? x) tt).2 in
  1 <= length results <= 10
  /\ retry_wrapper (fun retry_nr (st : unit) => (st, retry_nr)) 10 (fun x => 4 <=? x) tt
     = invoke_in_turn (fun retry_nr (st : unit) => (st, retry_nr)) (length results) 0 tt
  /\ (forall i r, S i < length results -> results !! i = Some r -> (4 <=? r) = false)
  /\ (length results < 10 -> exists r, last results = Some r /\ (4 <=? r) = true).
Proof.
  apply (retry_wrapper_results (fun retry_nr (st : unit) => (st, retry_nr))
           (fun x => 4 <=? x) 10 tt).
  lia.
Defined.

Section Timeout.

Context {Arg A : Type} (f : Arg -> behaviour A).

(** C7.  A guarded call always returns a [Try] and never raises.  When the
    callable finishes before the deadline the [Try] is the callable's own
    result, value or error; when the deadline elapses first it is
    [Try(None, timeout error)].  A [Try] never holds both a value and an
    error. *)
Theorem timeout_guard_returns_try (timeout_us : N) (arg : Arg) :
  exists t : Try A,
    try_f_with_timeout_guard f timeout_us arg = Ok t
    /\ (finishes_before (f arg) timeout_us -> finished_try (f arg) = Some t)
    /\ (deadline_first (f arg) timeout_us ->
        t = {| value := None; error := Some timeout_error |})
    /\ (value t = None \/ error t = None).
Proof.
  unfold try_f_with_timeout_guard.
  destruct (f arg) as [d a|d e|]; simpl.
  - destruct (d <? timeout_us)%N eqn:E; eexists; (split; [done |]); simpl.
    + apply N.ltb_lt in E. split; [done |]. split; [lia | by right].
    + apply N.ltb_ge in E. split; [lia |]. split; [done | by left].
  - destruct (d <? timeout_us)%N eqn:E; eexists; (split; [done |]); simpl.
    + apply N.ltb_lt in E. split; [done |]. split; [lia | by left].
    + apply N.ltb_ge in E. split; [lia |]. split; [done | by left].
  - eexists. split; [done |]. split; [done |]. split; [done | by left].
Qed.

End Timeout.

(** The tests of the timeout guard: a call that returns, one that raises
    and one that sleeps far beyond the deadline of half a second. *)
Example test_timeout_w_success :
  try_f_with_timeout_guard (fun x => ReturnsAfter 10 (x + 1)) 10000000%N 2
  = Ok {| value := Some 3; error := None |}.
Proof. reflexivity. Qed.

Example test_timeout_w_exception :
  try_f_with_timeout_guard (A := nat)
    (fun _ : nat => RaisesAfter 10 (ValueError "BOOM2")) 10000000%N 2
  = Ok {| value := None; error := Some (ValueError "BOOM2") |}.
Proof. reflexivity. Qed.

Example test_timeout_w_timeout_cancel :
  try_f_with_timeout_guard (A := unit) (fun _ : string => Hangs) 500000%N
    "argument-to-function-f"
  = Ok {| value := None; error := Some timeout_error |}.
Proof. reflexivity. Qed.

End RayHelpersFacts.
